(** * fscli: the filesystem introspection engine

    A shallow embedding of [fscli/file_system.py] (class [FileSystem]) and of
    the size formatter of [fscli/pretty_print.py], with the properties of
    the engine: size formatting, permission decoding, content hashing,
    volume space probing, partition enumeration from the mount table and
    filesystem statistics.

    Python values are embedded as follows.
    - [int] is [Z]; [str] is [string], a sequence of code points below 256;
      [bytes] is [list byte].
    - [float] is [pyfloat]: a finite binary64 value is kept as the rational
      it denotes, in lowest terms, and every arithmetic operation rounds its
      exact result to binary64 (nearest, ties to even), as CPython does.
      The two zeros are identified (they are equal under Python's [==]).
    - a [dict] is a [gmap string pyval]; a raised exception is a value of
      [exn]; what [print] writes is returned as a list of lines. *)

From Stdlib Require Import ZArith QArith Qabs Lia Ascii String List Bool.
From Stdlib Require Import Strings.Byte.
From stdpp Require Import base option list strings gmap pretty.
From Equations.Prop Require Import Equations Logic.

Local Open Scope Z_scope.

(** ** Exceptions and printed output *)

Inductive exn_kind :=
  | TypeError | OverflowError | ZeroDivisionError | IndexError | OSError.

(** An exception: its class and the text [str(e)] gives. *)
Record exn := Exn { exn_class : exn_kind; exn_str : string }.

Inductive res (A : Type) :=
  | Ret (a : A)
  | Raise (e : exn).
Arguments Ret {A} a.
Arguments Raise {A} e.

#[global] Instance res_ret : MRet res := fun A a => Ret a.
#[global] Instance res_bind : MBind res := fun A B k m =>
  match m with
  | Ret a => k a
  | Raise e => Raise e
  end.

#[global] Instance res_fmap : FMap res := fun A B f m =>
  match m with
  | Ret a => Ret (f a)
  | Raise e => Raise e
  end.

(** [l[i]] for a list [l] and [0 <= i] *)
Definition list_index {A} (l : list A) (i : nat) : res A :=
  match l !! i with
  | Some x => Ret x
  | None => Raise (Exn IndexError "list index out of range")
  end.

(** ** Binary64 floats *)

Module Float.

(** Nearest integer to [n / d] for [0 < d], ties to the even neighbour. *)
Definition round_half_even (n d : Z) : Z :=
  let f := n / d in
  match 2 * (n mod d) ?= d with
  | Lt => f
  | Eq => if Z.even f then f else f + 1
  | Gt => f + 1
  end.

Inductive pyfloat :=
  | Finite (q : Q)
  | Inf (negative : bool)
  | NaN.

(** [m * 2^e] as a rational in lowest terms. *)
Definition dyadic (m e : Z) : Q :=
  if 0 <=? e then inject_Z (m * 2 ^ e)
  else Qred (Qmake m (Z.to_pos (2 ^ (- e)))).

(** Numerator and denominator of [(a / b) / 2^e]. *)
Definition scaled_num (a e : Z) : Z := if 0 <=? e then a else a * 2 ^ (- e).
Definition scaled_den (b e : Z) : Z := if 0 <=? e then b * 2 ^ e else b.

(** The binary64 exponent of [a / b] ([a <> 0], [0 < b]): the [e] with
    [2^52 <= |a / b| / 2^e < 2^53], and [-1074] in the subnormal range. *)
Definition b64_exponent (a b : Z) : Z :=
  let e0 := Z.log2 (Z.abs a) - Z.log2 b - 53 in
  let e1 :=
    if Z.abs (scaled_num a e0) <? 2 ^ 53 * scaled_den b e0 then e0 else e0 + 1 in
  Z.max e1 (-1074).

(** [a / b] ([0 < b]) rounded to binary64, nearest with ties to even;
    a result of magnitude [2^1024] or more overflows to an infinity. *)
Definition b64_round (a b : Z) : pyfloat :=
  if a =? 0 then Finite 0
  else
    let e := b64_exponent a b in
    let m := round_half_even (scaled_num a e) (scaled_den b e) in
    if (0 <=? e) && (2 ^ 1024 <=? Z.abs m * 2 ^ e) then Inf (a <? 0)
    else Finite (dyadic m e).

Definition b64_of_Q (q : Q) : pyfloat := b64_round (Qnum q) (Zpos (Qden q)).

Definition is_zero (x : pyfloat) : bool :=
  match x with
  | Finite q => Qnum q =? 0
  | _ => false
  end.

Definition is_neg (x : pyfloat) : bool :=
  match x with
  | Finite q => Qnum q <? 0
  | Inf s => s
  | NaN => false
  end.

(** IEEE 754 multiplication. *)
Definition mul (x y : pyfloat) : pyfloat :=
  match x, y with
  | NaN, _ | _, NaN => NaN
  | Finite p, Finite q =>
      match b64_of_Q (Qmult p q) with
      | Inf _ => Inf (xorb (Qnum p <? 0) (Qnum q <? 0))
      | r => r
      end
  | Inf s, z | z, Inf s => if is_zero z then NaN else Inf (xorb s (is_neg z))
  end.

(** IEEE 754 division by a divisor that is not zero. *)
Definition div (x y : pyfloat) : pyfloat :=
  match x, y with
  | NaN, _ | _, NaN => NaN
  | Inf _, Inf _ => NaN
  | Inf s, Finite q => Inf (xorb s (Qnum q <? 0))
  | Finite _, Inf _ => Finite 0
  | Finite p, Finite q =>
      match b64_of_Q (Qdiv p q) with
      | Inf _ => Inf (xorb (Qnum p <? 0) (Qnum q <? 0))
      | r => r
      end
  end.

(** [x / y] for floats: Python raises on a zero divisor. *)
Definition truediv (x y : pyfloat) : res pyfloat :=
  if is_zero y then Raise (Exn ZeroDivisionError "float division by zero")
  else Ret (div x y).

(** [x >= n] for a float [x] and an int [n]: Python compares the two
    exactly. *)
Definition ge_int (x : pyfloat) (n : Z) : bool :=
  match x with
  | Finite q => Qle_bool (inject_Z n) q
  | Inf s => negb s
  | NaN => false
  end.

(** [float(n)] for an int [n]. *)
Definition of_int (n : Z) : res pyfloat :=
  match b64_round n 1 with
  | Inf _ => Raise (Exn OverflowError "int too large to convert to float")
  | x => Ret x
  end.

(** [a / b] for ints [a] and [b]: the correctly rounded quotient. *)
Definition int_truediv (a b : Z) : res pyfloat :=
  if b =? 0 then Raise (Exn ZeroDivisionError "division by zero")
  else
    match b64_round (a * Z.sgn b) (Z.abs b) with
    | Inf _ =>
        Raise (Exn OverflowError "integer division result too large for a float")
    | x => Ret x
    end.

(** [round(x, ndigits)] for [0 <= ndigits]: the decimal with [ndigits]
    places nearest to [x] (ties to even), converted back to binary64. *)
Definition py_round (x : pyfloat) (ndigits : nat) : pyfloat :=
  match x with
  | Finite q =>
      let p := 10 ^ Z.of_nat ndigits in
      b64_round (round_half_even (Qnum q * p) (Zpos (Qden q))) p
  | _ => x
  end.

Definition digit_char (d : Z) : ascii := ascii_of_nat (48 + Z.to_nat d).

(** The [d] decimal digits of [r < 10^d], most significant first. *)
Fixpoint frac_digits (d : nat) (r : Z) : string :=
  match d with
  | O => EmptyString
  | S d' => String (digit_char (r / 10 ^ Z.of_nat d' mod 10)) (frac_digits d' r)
  end.

(** [f"{x:.{d}f}"]: fixed-point notation with [d] places, the exact value of
    [x] rounded to nearest with ties to even. *)
Definition format_fixed (x : pyfloat) (d : nat) : string :=
  match x with
  | NaN => "nan"
  | Inf false => "inf"
  | Inf true => "-inf"
  | Finite q =>
      let p := 10 ^ Z.of_nat d in
      let mag := round_half_even (Z.abs (Qnum q) * p) (Zpos (Qden q)) in
      (if Qnum q <? 0 then "-" else "")
      +:+ pretty (Z.to_N (mag / p))
      +:+ (match d with O => "" | S _ => "." +:+ frac_digits d (mag mod p) end)
  end.

End Float.
Export Float.

(** ** Python objects *)

#[warnings="-register-all"] Inductive pyval :=
  | VBool (b : bool)
  | VInt (n : Z)
  | VFloat (x : pyfloat)
  | VStr (s : string)
  | VDict (d : gmap string pyval).

(** [d.get(key, default)] *)
Definition dict_get (d : gmap string pyval) (key : string) (default : pyval) : pyval :=
  match d !! key with
  | Some v => v
  | None => default
  end.

(** ** SizeFormatter: [FileSystem._human_readable_size] *)

Definition units : list string := ["B"; "KB"; "MB"; "GB"; "TB"; "PB"]%string.

(** The loop [while size >= 1024 and unit_index < len(units) - 1], run for at
    most [fuel] iterations: the final [size] and [unit_index]. *)
Fixpoint scale_loop (fuel : nat) (size : pyfloat) (unit_index : nat)
  : res (pyfloat * nat) :=
  match fuel with
  | O => Ret (size, unit_index)
  | S fuel' =>
      if ge_int size 1024 && (unit_index <? length units - 1)%nat then
        size ← Float.truediv size (Finite 1024);
        scale_loop fuel' size (S unit_index)
      else Ret (size, unit_index)
  end.

(** A size is an int or [None], the objects the callers pass.
    [py_eq_int size k] is [size == k] and [is_None size] is
    [size is None]. *)
Definition py_eq_int (size : option Z) (k : Z) : bool :=
  match size with
  | Some n => n =? k
  | None => false
  end.

Definition is_None (size : option Z) : bool :=
  match size with
  | Some _ => false
  | None => true
  end.

(** [float(size)]; the text of the [TypeError] is that of CPython 3.10 and
    later. *)
Definition py_float (size : option Z) : res pyfloat :=
  match size with
  | Some n => Float.of_int n
  | None =>
      Raise (Exn TypeError
        "float() argument must be a string or a real number, not 'NoneType'")
  end.

Definition _human_readable_size (size : option Z) (decimal_places : nat)
  : res string :=
  if py_eq_int size 0 then Ret "0 B"%string
  else
    size ← py_float size;
    '(size, unit_index) ← scale_loop (length units) size 0;
    unit ← list_index units unit_index;
    Ret (format_fixed size decimal_places +:+ " " +:+ unit).

(** ** PrettyPrinter._format_size (fscli/pretty_print.py) *)

Definition _format_size (size : option Z) : res string :=
  if py_eq_int size (-1) || is_None size then Ret "N/A"%string
  else
    size ← py_float size;
    '(size, unit_index) ← scale_loop (length units) size 0;
    unit ← list_index units unit_index;
    Ret (format_fixed size 2 +:+ " " +:+ unit).

(** ** Strings *)

Module PyStr.

Definition code (c : ascii) : N := N_of_ascii c.

(** [c.isspace()] for a code point below 256. *)
Definition is_space (c : ascii) : bool :=
  let n := code c in
  ((9 <=? n) && (n <=? 13) || (28 <=? n) && (n <=? 32) || (n =? 133) || (n =? 160))%N.

(** The line boundaries of [str.splitlines] below code point 256. *)
Definition is_linebreak (c : ascii) : bool :=
  let n := code c in
  ((10 <=? n) && (n <=? 13) || (28 <=? n) && (n <=? 30) || (n =? 133))%N.

Definition snoc (w : string) (c : ascii) : string := w +:+ String c EmptyString.

(** [s.split()]: the maximal runs of characters that are not whitespace.
    [word] is the run being read, if any. *)
Fixpoint split_go (s : string) (word : option string) : list string :=
  match s with
  | EmptyString =>
      match word with
      | Some w => [w]
      | None => []
      end
  | String c s' =>
      if is_space c then
        match word with
        | Some w => w :: split_go s' None
        | None => split_go s' None
        end
      else
        match word with
        | Some w => split_go s' (Some (snoc w c))
        | None => split_go s' (Some (String c EmptyString))
        end
  end.

Definition split (s : string) : list string := split_go s None.

(** [s.splitlines()]: a carriage return followed by a line feed is one
    boundary; no empty last line. [line] is the line being read and
    [after_cr] tells that the previous character was a carriage return. *)
Fixpoint splitlines_go (s : string) (line : string) (after_cr : bool) : list string :=
  match s with
  | EmptyString =>
      match line with
      | EmptyString => []
      | _ => [line]
      end
  | String c s' =>
      if after_cr && (code c =? 10)%N then splitlines_go s' line false
      else if is_linebreak c then
        line :: splitlines_go s' EmptyString (code c =? 13)%N
      else splitlines_go s' (snoc line c) false
  end.

Definition splitlines (s : string) : list string := splitlines_go s EmptyString false.

Fixpoint mem (c : ascii) (chars : string) : bool :=
  match chars with
  | EmptyString => false
  | String d chars' => Ascii.eqb c d || mem c chars'
  end.

Fixpoint lstrip (chars s : string) : string :=
  match s with
  | EmptyString => EmptyString
  | String c s' => if mem c chars then lstrip chars s' else s
  end.

Fixpoint rstrip (chars s : string) : string :=
  match s with
  | EmptyString => EmptyString
  | String c s' =>
      match rstrip chars s' with
      | EmptyString => if mem c chars then EmptyString else String c EmptyString
      | r => String c r
      end
  end.

(** [s.strip(chars)] *)
Definition strip (chars s : string) : string := rstrip chars (lstrip chars s).

(** [s.startswith((p1, p2, ...))] *)
Definition startswith (s : string) (prefixes : list string) : bool :=
  existsb (fun p => String.prefix p s) prefixes.

(** [x in (s1, s2, ...)] for strings *)
Definition str_in (x : string) (l : list string) : bool :=
  existsb (String.eqb x) l.

(** The octal digits of [0 <= n], most significant first, put before [acc];
    [fuel] bounds the number of digits after the first. *)
Fixpoint oct_digits (fuel : nat) (n : Z) (acc : string) : string :=
  let acc' := String (digit_char (n mod 8)) acc in
  match fuel with
  | O => acc'
  | S fuel' => if n <? 8 then acc' else oct_digits fuel' (n / 8) acc'
  end.

(** [oct(n)] *)
Definition oct (n : Z) : string :=
  (if n <? 0 then "-0o" else "0o")
  +:+ oct_digits (Z.to_nat (Z.log2 (Z.abs n))) (Z.abs n) EmptyString.

End PyStr.

(** ** The operating system, as the engine sees it *)

(** [os.statvfs(path)] *)
Record statvfs_result := {
  f_bsize : Z; f_frsize : Z; f_blocks : Z; f_bfree : Z; f_bavail : Z;
  f_files : Z; f_ffree : Z; f_favail : Z; f_fsid : Z; f_flag : Z;
  f_namemax : Z
}.

(** The fields of [os.stat(path)] the engine reads. *)
Record stat_result := { st_mode : Z; st_uid : Z; st_gid : Z }.

(** A file opened for reading: the bytes not read yet, and, when a read
    is going to fail, the number of reads that succeed before it and the
    exception it raises. *)
Record file_obj := {
  f_data : list byte;
  f_fault : option (nat * exn)
}.

(** A Unix-like system ([platform.system()] is not Windows). *)
Record os_env := {
  (** [shutil.disk_usage(path)]: total, used and free bytes *)
  shutil_disk_usage : string -> res (Z * Z * Z);
  (** [hasattr(os, 'statvfs')] and [os.statvfs(path)] *)
  has_statvfs : bool;
  os_statvfs : string -> res statvfs_result;
  (** [subprocess.check_output(['mount'], ...)] *)
  mount_output : res string;
  os_path_abspath : string -> string;
  os_path_exists : string -> bool;
  os_path_isfile : string -> bool;
  os_stat : string -> res stat_result;
  (** [open(path, 'rb')] *)
  open_rb : string -> res file_obj
}.

(** The [FileSystem] object: [self.current_dir]. *)
Record FileSystem := { current_dir : string }.

Definition dict (items : list (string * pyval)) : gmap string pyval :=
  list_to_map items.

(** [stat] module constants (the octal value is in the comment) *)
Definition S_IFMT : Z := 0xF000.  (* 0o170000 *)
Definition S_IFDIR : Z := 0x4000.  (* 0o040000 *)
Definition S_IFLNK : Z := 0xA000.  (* 0o120000 *)
Definition S_ISUID : Z := 0x800.  (* 0o4000 *)
Definition S_ISGID : Z := 0x400.  (* 0o2000 *)
Definition S_ISVTX : Z := 0x200.  (* 0o1000 *)
Definition S_IRUSR : Z := 0x100.  (* 0o400 *)
Definition S_IWUSR : Z := 0x80.  (* 0o200 *)
Definition S_IXUSR : Z := 0x40.  (* 0o100 *)
Definition S_IRGRP : Z := 0x20.  (* 0o040 *)
Definition S_IWGRP : Z := 0x10.  (* 0o020 *)
Definition S_IXGRP : Z := 0x8.  (* 0o010 *)
Definition S_IROTH : Z := 0x4.  (* 0o004 *)
Definition S_IWOTH : Z := 0x2.  (* 0o002 *)
Definition S_IXOTH : Z := 0x1.  (* 0o001 *)

Definition S_ISDIR (mode : Z) : bool := Z.land mode S_IFMT =? S_IFDIR.
Definition S_ISLNK (mode : Z) : bool := Z.land mode S_IFMT =? S_IFLNK.

(** Truth value of the int [mode & flag] *)
Definition has_bit (mode flag : Z) : bool := negb (Z.land mode flag =? 0).

(** ** PermissionDecoder: the pure part of [FileSystem.get_file_permissions] *)

Definition octal_perm (mode : Z) : string := PyStr.oct (Z.land mode 0x1FF (* 0o777 *)).

Definition symbolic (mode : Z) : string :=
  let symbolic := ""%string in
  let symbolic :=
    symbolic +:+ (if S_ISDIR mode then "d" else if S_ISLNK mode then "l" else "-") in
  let symbolic := symbolic +:+ (if has_bit mode S_IRUSR then "r" else "-") in
  let symbolic := symbolic +:+ (if has_bit mode S_IWUSR then "w" else "-") in
  let symbolic := symbolic +:+ (if has_bit mode S_IXUSR then "x" else "-") in
  let symbolic := symbolic +:+ (if has_bit mode S_IRGRP then "r" else "-") in
  let symbolic := symbolic +:+ (if has_bit mode S_IWGRP then "w" else "-") in
  let symbolic := symbolic +:+ (if has_bit mode S_IXGRP then "x" else "-") in
  let symbolic := symbolic +:+ (if has_bit mode S_IROTH then "r" else "-") in
  let symbolic := symbolic +:+ (if has_bit mode S_IWOTH then "w" else "-") in
  let symbolic := symbolic +:+ (if has_bit mode S_IXOTH then "x" else "-") in
  symbolic.

Definition special_bits (mode : Z) : gmap string pyval :=
  dict [ ("setuid", VBool (has_bit mode S_ISUID));
         ("setgid", VBool (has_bit mode S_ISGID));
         ("sticky", VBool (has_bit mode S_ISVTX)) ]%string.

(** ** PartitionEnumerator: the mount-table filter *)

Definition virtual_fstypes : list string :=
  ["proc"; "sysfs"; "devpts"; "devtmpfs"; "tmpfs"]%string.

Definition virtual_device_prefixes : list string :=
  ["none"; "/dev/loop"; "udev"]%string.

(** The condition under which an entry is skipped when [all_partitions] is
    not set. *)
Definition is_virtual (fstype device : string) : bool :=
  PyStr.str_in fstype virtual_fstypes
  || PyStr.startswith device virtual_device_prefixes.

(** ** hashlib: MD5, SHA-1 and SHA-256 on byte strings *)

Module Hashlib.

Definition add32 (x y : Z) : Z := (x + y) mod 2 ^ 32.
Definition rotl32 (x n : Z) : Z :=
  Z.lor (Z.shiftl x n mod 2 ^ 32) (Z.shiftr x (32 - n)).
Definition rotr32 (x n : Z) : Z := rotl32 x (32 - n).
Definition not32 (x : Z) : Z := Z.lxor x 0xffffffff.

Definition byte_val (b : byte) : Z := Z.of_N (Byte.to_N b).
Definition byte_of (z : Z) : byte :=
  match Byte.of_N (Z.to_N (z mod 256)) with
  | Some b => b
  | None => x00
  end.

(** The [n] low bytes of [x], least significant first and most significant
    first. *)
Definition le_bytes (n : nat) (x : Z) : list byte :=
  map (fun i => byte_of (Z.shiftr x (8 * Z.of_nat i))) (seq 0 n).
Definition be_bytes (n : nat) (x : Z) : list byte := rev (le_bytes n x).

Definition be_word (bs : list byte) : Z :=
  fold_left (fun acc b => acc * 256 + byte_val b) bs 0.
Definition le_word (bs : list byte) : Z := be_word (rev bs).

(** The message, the byte 0x80, zero bytes up to 56 modulo 64, and the
    length of the message in bits on 8 bytes. *)
Definition pad (len_bytes : nat -> Z -> list byte) (msg : list byte) : list byte :=
  let l := Z.of_nat (length msg) in
  msg ++ [x80] ++ repeat x00 (Z.to_nat ((55 - l) mod 64))
      ++ len_bytes 8%nat ((8 * l) mod 2 ^ 64).

(** The first [n] consecutive pieces of [k] items of [l]. *)
Fixpoint pieces {A} (n k : nat) (l : list A) : list (list A) :=
  match n with
  | O => []
  | S n' => take k l :: pieces n' k (drop k l)
  end.

Definition blocks (data : list byte) : list (list byte) :=
  pieces (length data / 64) 64 data.

Definition words (word : list byte -> Z) (block : list byte) : list Z :=
  map word (pieces 16 4 block).

Definition nthZ (l : list Z) (i : nat) : Z := nth i l 0.

(** *** MD5 (RFC 1321) *)

Definition md5_shift : list (list Z) :=
  [[7; 12; 17; 22]; [5; 9; 14; 20]; [4; 11; 16; 23]; [6; 10; 15; 21]].

(** [floor (2^32 * |sin (i + 1)|)] *)
Definition md5_K : list Z :=
  [
    0xd76aa478; 0xe8c7b756; 0x242070db; 0xc1bdceee;
    0xf57c0faf; 0x4787c62a; 0xa8304613; 0xfd469501;
    0x698098d8; 0x8b44f7af; 0xffff5bb1; 0x895cd7be;
    0x6b901122; 0xfd987193; 0xa679438e; 0x49b40821;
    0xf61e2562; 0xc040b340; 0x265e5a51; 0xe9b6c7aa;
    0xd62f105d; 0x02441453; 0xd8a1e681; 0xe7d3fbc8;
    0x21e1cde6; 0xc33707d6; 0xf4d50d87; 0x455a14ed;
    0xa9e3e905; 0xfcefa3f8; 0x676f02d9; 0x8d2a4c8a;
    0xfffa3942; 0x8771f681; 0x6d9d6122; 0xfde5380c;
    0xa4beea44; 0x4bdecfa9; 0xf6bb4b60; 0xbebfbc70;
    0x289b7ec6; 0xeaa127fa; 0xd4ef3085; 0x04881d05;
    0xd9d4d039; 0xe6db99e5; 0x1fa27cf8; 0xc4ac5665;
    0xf4292244; 0x432aff97; 0xab9423a7; 0xfc93a039;
    0x655b59c3; 0x8f0ccc92; 0xffeff47d; 0x85845dd1;
    0x6fa87e4f; 0xfe2ce6e0; 0xa3014314; 0x4e0811a1;
    0xf7537e82; 0xbd3af235; 0x2ad7d2bb; 0xeb86d391 ].

Definition md5_step (M : list Z) (st : Z * Z * Z * Z) (i : nat) : Z * Z * Z * Z :=
  let '(A, B, C, D) := st in
  let '(F, g) :=
    if (i <? 16)%nat then (Z.lor (Z.land B C) (Z.land (not32 B) D), i)
    else if (i <? 32)%nat then
      (Z.lor (Z.land D B) (Z.land (not32 D) C), ((5 * i + 1) mod 16)%nat)
    else if (i <? 48)%nat then (Z.lxor (Z.lxor B C) D, ((3 * i + 5) mod 16)%nat)
    else (Z.lxor C (Z.lor B (not32 D)), ((7 * i) mod 16)%nat) in
  let F := add32 (add32 (add32 F A) (nthZ md5_K i)) (nthZ M g) in
  let s := nthZ (nth (i / 16) md5_shift []) (i mod 4) in
  (D, add32 B (rotl32 F s), B, C).

Definition md5_block (st : Z * Z * Z * Z) (block : list byte) : Z * Z * Z * Z :=
  let '(a0, b0, c0, d0) := st in
  let '(A, B, C, D) := fold_left (md5_step (words le_word block)) (seq 0 64) st in
  (add32 a0 A, add32 b0 B, add32 c0 C, add32 d0 D).

Definition md5 (msg : list byte) : list byte :=
  let '(a, b, c, d) :=
    fold_left md5_block (blocks (pad le_bytes msg))
      (0x67452301, 0xefcdab89, 0x98badcfe, 0x10325476) in
  le_bytes 4 a ++ le_bytes 4 b ++ le_bytes 4 c ++ le_bytes 4 d.

(** *** SHA-1 (FIPS 180-4) *)

Definition sha1_schedule (block : list byte) : list Z :=
  fold_left
    (fun w i =>
       w ++ [rotl32 (Z.lxor (Z.lxor (nthZ w (i - 3)) (nthZ w (i - 8)))
                            (Z.lxor (nthZ w (i - 14)) (nthZ w (i - 16)))) 1])
    (seq 16 64) (words be_word block).

Definition sha1_step (w : list Z) (st : Z * Z * Z * Z * Z) (i : nat)
  : Z * Z * Z * Z * Z :=
  let '(a, b, c, d, e) := st in
  let '(f, k) :=
    if (i <? 20)%nat then (Z.lor (Z.land b c) (Z.land (not32 b) d), 0x5a827999)
    else if (i <? 40)%nat then (Z.lxor (Z.lxor b c) d, 0x6ed9eba1)
    else if (i <? 60)%nat then
      (Z.lor (Z.lor (Z.land b c) (Z.land b d)) (Z.land c d), 0x8f1bbcdc)
    else (Z.lxor (Z.lxor b c) d, 0xca62c1d6) in
  let temp := add32 (add32 (add32 (add32 (rotl32 a 5) f) e) k) (nthZ w i) in
  (temp, a, rotl32 b 30, c, d).

Definition sha1_block (st : Z * Z * Z * Z * Z) (block : list byte)
  : Z * Z * Z * Z * Z :=
  let '(h0, h1, h2, h3, h4) := st in
  let '(a, b, c, d, e) := fold_left (sha1_step (sha1_schedule block)) (seq 0 80) st in
  (add32 h0 a, add32 h1 b, add32 h2 c, add32 h3 d, add32 h4 e).

Definition sha1 (msg : list byte) : list byte :=
  let '(h0, h1, h2, h3, h4) :=
    fold_left sha1_block (blocks (pad be_bytes msg))
      (0x67452301, 0xefcdab89, 0x98badcfe, 0x10325476, 0xc3d2e1f0) in
  be_bytes 4 h0 ++ be_bytes 4 h1 ++ be_bytes 4 h2 ++ be_bytes 4 h3 ++ be_bytes 4 h4.

(** *** SHA-256 (FIPS 180-4) *)

Definition primes64 : list Z :=
  [2; 3; 5; 7; 11; 13; 17; 19; 23; 29; 31; 37; 41; 43; 47; 53;
   59; 61; 67; 71; 73; 79; 83; 89; 97; 101; 103; 107; 109; 113; 127; 131;
   137; 139; 149; 151; 157; 163; 167; 173; 179; 181; 191; 193; 197; 199; 211; 223;
   227; 229; 233; 239; 241; 251; 257; 263; 269; 271; 277; 281; 283; 293; 307; 311].

(** The integer cube root of [n < 2^(3 * bits)], one bit at a time. *)
Fixpoint icbrt (bits : nat) (n r : Z) : Z :=
  match bits with
  | O => r
  | S b =>
      let r' := r + 2 ^ Z.of_nat b in
      icbrt b n (if r' ^ 3 <=? n then r' else r)
  end.

(** The first 32 bits of the fractional parts of the cube roots of the
    first 64 primes, and of the square roots of the first 8. *)
Definition sha256_K : list Z :=
  Eval vm_compute in map (fun p => icbrt 36 (p * 2 ^ 96) 0 mod 2 ^ 32) primes64.
Definition sha256_H0 : list Z :=
  Eval vm_compute in map (fun p => Z.sqrt (p * 2 ^ 64) mod 2 ^ 32) (take 8 primes64).

Definition sha256_schedule (block : list byte) : list Z :=
  fold_left
    (fun w i =>
       let x := nthZ w (i - 15) in
       let y := nthZ w (i - 2) in
       let s0 := Z.lxor (Z.lxor (rotr32 x 7) (rotr32 x 18)) (Z.shiftr x 3) in
       let s1 := Z.lxor (Z.lxor (rotr32 y 17) (rotr32 y 19)) (Z.shiftr y 10) in
       w ++ [add32 (add32 (add32 (nthZ w (i - 16)) s0) (nthZ w (i - 7))) s1])
    (seq 16 48) (words be_word block).

Definition sha256_step (w : list Z) (st : list Z) (i : nat) : list Z :=
  match st with
  | [a; b; c; d; e; f; g; h] =>
      let S1 := Z.lxor (Z.lxor (rotr32 e 6) (rotr32 e 11)) (rotr32 e 25) in
      let ch := Z.lxor (Z.land e f) (Z.land (not32 e) g) in
      let t1 := add32 (add32 (add32 (add32 h S1) ch) (nthZ sha256_K i)) (nthZ w i) in
      let S0 := Z.lxor (Z.lxor (rotr32 a 2) (rotr32 a 13)) (rotr32 a 22) in
      let maj := Z.lxor (Z.lxor (Z.land a b) (Z.land a c)) (Z.land b c) in
      let t2 := add32 S0 maj in
      [add32 t1 t2; a; b; c; add32 d t1; e; f; g]
  | _ => st
  end.

Definition zip_add32 (xs ys : list Z) : list Z :=
  map (fun p => add32 (fst p) (snd p)) (combine xs ys).

Definition sha256_block (st : list Z) (block : list byte) : list Z :=
  zip_add32 st (fold_left (sha256_step (sha256_schedule block)) (seq 0 64) st).

Definition sha256 (msg : list byte) : list byte :=
  concat (map (be_bytes 4)
    (fold_left sha256_block (blocks (pad be_bytes msg)) sha256_H0)).

(** *** Hash objects *)

Definition hex_char (d : Z) : ascii :=
  if d <? 10 then ascii_of_nat (48 + Z.to_nat d) else ascii_of_nat (87 + Z.to_nat d).

(** [bytes.hex()] *)
Fixpoint hexlify (bs : list byte) : string :=
  match bs with
  | [] => EmptyString
  | b :: bs' =>
      String (hex_char (byte_val b / 16))
        (String (hex_char (byte_val b mod 16)) (hexlify bs'))
  end.

(** A hash object: its algorithm and the bytes fed to it so far;
    [update] calls are equivalent to one call on the concatenation. *)
Record hash_obj := {
  algorithm : list byte -> list byte;
  message : list byte
}.

Definition new (alg : list byte -> list byte) : hash_obj :=
  {| algorithm := alg; message := [] |}.

Definition update (h : hash_obj) (chunk : list byte) : hash_obj :=
  {| algorithm := algorithm h; message := message h ++ chunk |}.

Definition hexdigest (h : hash_obj) : string :=
  hexlify (algorithm h (message h)).

End Hashlib.

(** ** File objects *)

(** [f.read(n)] *)
Definition f_read (n : nat) (f : file_obj) : res (list byte * file_obj) :=
  match f_fault f with
  | Some (O, e) => Raise e
  | Some (S k, e) =>
      Ret (take n (f_data f), {| f_data := drop n (f_data f); f_fault := Some (k, e) |})
  | None =>
      Ret (take n (f_data f), {| f_data := drop n (f_data f); f_fault := None |})
  end.

(** The loop [for chunk in iter(lambda: f.read(4096), b''):
    hash_obj.update(chunk)]. *)
Equations? update_from (hash_obj : Hashlib.hash_obj) (f : file_obj)
  : res Hashlib.hash_obj by wf (length (f_data f)) lt :=
  update_from hash_obj f with inspect (f_read 4096 f) := {
    | exist _ (Raise e) _ => Raise e
    | exist _ (Ret ([], _)) _ => Ret hash_obj
    | exist _ (Ret (b :: chunk, f')) Hread =>
        update_from (Hashlib.update hash_obj (b :: chunk)) f' }.
Proof.
  unfold f_read in Hread.
  destruct (f_fault f) as [[[|k] e']|]; try discriminate;
    injection Hread as Htake <-; simpl;
    rewrite length_drop; destruct (f_data f); simpl in *; try discriminate; lia.
Qed.

(** ** The engine, on a Unix-like system *)

Section Engine.

Context (os : os_env) (self : FileSystem).

(** *** VolumeSpaceProbe: [FileSystem.get_drive_space] *)

Definition get_drive_space (path : option string)
  : gmap string pyval * list string :=
  let body : res (gmap string pyval) :=
    let path := default (current_dir self) path in
    '(total, used, free) ← shutil_disk_usage os path;
    total_human ← _human_readable_size (Some total) 2;
    used_human ← _human_readable_size (Some used) 2;
    free_human ← _human_readable_size (Some free) 2;
    ratio ← Float.int_truediv used total;
    Ret (dict [ ("total", VInt total);
                ("total_human", VStr total_human);
                ("used", VInt used);
                ("used_human", VStr used_human);
                ("free", VInt free);
                ("free_human", VStr free_human);
                ("used_percent",
                  VFloat (py_round (Float.mul ratio (Finite 100)) 2)) ]%string)
  in
  match body with
  | Ret d => (d, [])
  | Raise e => (∅, ["Error getting drive space: " +:+ exn_str e])
  end.

(** *** PartitionEnumerator: [FileSystem.get_disk_partitions], the branch of
    Unix-like systems *)

(** The body of [for line in mount_output.splitlines()]: the entries it
    appends to [partitions] and the lines it prints, or the exception that
    leaves the loop. *)
Definition mount_line (all_partitions : bool) (line : string)
  : res (list (gmap string pyval) * list string) :=
  let parts := PyStr.split line in
  if (5 <=? length parts)%nat then
    device ← list_index parts 0;
    mountpoint ← list_index parts 2;
    fstype ← list_index parts 4;
    opts ← PyStr.strip "()" <$> list_index parts 5;
    if negb all_partitions && is_virtual fstype device then Ret ([], [])
    else
      let inner : res (gmap string pyval * list string) :=
        let '(space_info, out) := get_drive_space (Some mountpoint) in
        Ret (dict [ ("device", VStr device);
                    ("mountpoint", VStr mountpoint);
                    ("fstype", VStr fstype);
                    ("opts", VStr opts);
                    ("total_space", dict_get space_info "total" (VInt 0));
                    ("free_space", dict_get space_info "free" (VInt 0));
                    ("used_space", dict_get space_info "used" (VInt 0));
                    ("used_percent",
                      dict_get space_info "used_percent" (VInt 0)) ]%string,
             out)
      in
      match inner with
      | Ret (part_info, out) => Ret ([part_info], out)
      | Raise e =>
          Ret ([], ["Error getting space info for " +:+ mountpoint +:+ ": "
                    +:+ exn_str e])
      end
  else Ret ([], []).

(** The loop over the lines: [partitions] and the printed lines so far, and
    the exception that ended the loop, if any. *)
Fixpoint mount_loop (all_partitions : bool) (lines : list string)
    (partitions : list (gmap string pyval)) (out : list string)
  : list (gmap string pyval) * list string * option exn :=
  match lines with
  | [] => (partitions, out, None)
  | line :: lines' =>
      match mount_line all_partitions line with
      | Ret (new, printed) =>
          mount_loop all_partitions lines' (partitions ++ new) (out ++ printed)
      | Raise e => (partitions, out, Some e)
      end
  end.

Definition get_disk_partitions (all_partitions : bool)
  : list (gmap string pyval) * list string :=
  match mount_output os with
  | Ret mount_output =>
      match mount_loop all_partitions (PyStr.splitlines mount_output) [] [] with
      | (partitions, out, None) => (partitions, out)
      | (partitions, out, Some e) =>
          (partitions, out ++ ["Error getting mount information: " +:+ exn_str e])
      end
  | Raise e => ([], ["Error getting mount information: " +:+ exn_str e])
  end.

(** *** FilesystemStatsCollector: [FileSystem.get_filesystem_stats] *)

(** [(num / den * 100) if den > 0 else 0] *)
Definition percent_or_zero (num den : Z) : res pyval :=
  if 0 <? den then
    ratio ← Float.int_truediv num den;
    Ret (VFloat (Float.mul ratio (Finite 100)))
  else Ret (VInt 0).

Definition get_filesystem_stats (path : option string)
  : gmap string pyval * list string :=
  let path := default (current_dir self) path in
  let body : res (gmap string pyval * list string) :=
    stats ← (if has_statvfs os then Some <$> os_statvfs os path else Ret None);
    match stats with
    | Some stats =>
        let fragment_size :=
          if f_frsize stats =? 0 then f_bsize stats else f_frsize stats in
        let total_blocks := f_blocks stats in
        let free_blocks := f_bfree stats in
        let avail_blocks := f_bavail stats in
        let total_inodes := f_files stats in
        let free_inodes := f_ffree stats in
        let avail_inodes := f_favail stats in
        let total_size := total_blocks * fragment_size in
        let free_size := free_blocks * fragment_size in
        let avail_size := avail_blocks * fragment_size in
        let used_inodes := total_inodes - free_inodes in
        inode_usage_percent ← percent_or_zero used_inodes total_inodes;
        total_size_human ← _human_readable_size (Some total_size) 2;
        free_size_human ← _human_readable_size (Some free_size) 2;
        available_size_human ← _human_readable_size (Some avail_size) 2;
        used_size_human ← _human_readable_size (Some (total_size - free_size)) 2;
        usage_percent ← percent_or_zero (total_size - free_size) total_size;
        Ret (dict [
          ("path", VStr (os_path_abspath os path));
          ("filesystem_stats", VDict (dict [
             ("block_size", VInt (f_bsize stats));
             ("fragment_size", VInt fragment_size);
             ("total_blocks", VInt total_blocks);
             ("free_blocks", VInt free_blocks);
             ("available_blocks", VInt avail_blocks);
             ("total_inodes", VInt total_inodes);
             ("free_inodes", VInt free_inodes);
             ("available_inodes", VInt avail_inodes);
             ("filesystem_id", VInt (f_fsid stats));
             ("mount_flags", VInt (f_flag stats));
             ("maximum_filename_length", VInt (f_namemax stats)) ]%string));
          ("space_usage", VDict (dict [
             ("total_size", VInt total_size);
             ("total_size_human", VStr total_size_human);
             ("free_size", VInt free_size);
             ("free_size_human", VStr free_size_human);
             ("available_size", VInt avail_size);
             ("available_size_human", VStr available_size_human);
             ("used_size", VInt (total_size - free_size));
             ("used_size_human", VStr used_size_human);
             ("usage_percent", usage_percent) ]%string));
          ("inode_usage", VDict (dict [
             ("used_inodes", VInt used_inodes);
             ("usage_percent", inode_usage_percent) ]%string)) ]%string, [])
    | None =>
        let '(space_info, out) := get_drive_space (Some path) in
        Ret (dict [ ("path", VStr (os_path_abspath os path));
                    ("space_usage", VDict space_info) ]%string, out)
    end
  in
  match body with
  | Ret r => r
  | Raise e => (∅, ["Error getting filesystem stats: " +:+ exn_str e])
  end.

(** *** ContentHasher: [FileSystem.get_file_hash] *)

Definition hash_funcs : gmap string (list byte -> list byte) :=
  list_to_map [ ("md5", Hashlib.md5); ("sha1", Hashlib.sha1);
                ("sha256", Hashlib.sha256) ]%string.

Definition get_file_hash (path hash_type : string) : string * list string :=
  let body : res (string * list string) :=
    if negb (os_path_isfile os path) then
      Ret (""%string, ["Error: " +:+ path +:+ " is not a file"])
    else
      match hash_funcs !! hash_type with
      | None =>
          Ret (""%string, ["Error: Unsupported hash type '" +:+ hash_type +:+ "'"])
      | Some alg =>
          let hash_obj := Hashlib.new alg in
          f ← open_rb os path;
          hash_obj ← update_from hash_obj f;
          Ret (Hashlib.hexdigest hash_obj, [])
      end
  in
  match body with
  | Ret r => r
  | Raise e => (""%string, ["Error calculating file hash: " +:+ exn_str e])
  end.

(** *** PermissionDecoder: [FileSystem.get_file_permissions] *)

Definition get_file_permissions (path : string) : gmap string pyval * list string :=
  let body : res (gmap string pyval * list string) :=
    if negb (os_path_exists os path) then
      Ret (∅, ["Error: " +:+ path +:+ " does not exist"])
    else
      st ← os_stat os path;
      let mode := st_mode st in
      Ret (dict [ ("path", VStr (os_path_abspath os path));
                  ("octal", VStr (octal_perm mode));
                  ("symbolic", VStr (symbolic mode));
                  ("special_bits", VDict (special_bits mode));
                  ("owner_id", VInt (st_uid st));
                  ("group_id", VInt (st_gid st)) ]%string, [])
  in
  match body with
  | Ret r => r
  | Raise e => (∅, ["Error getting file permissions: " +:+ exn_str e])
  end.

End Engine.

(** ** PartitionEnumerator: [FileSystem.get_disk_partitions], the branch of
    Windows *)

(** More of Python's strings. *)
Module PyText.

(** [sub in s] *)
Fixpoint contains (sub s : string) : bool :=
  String.prefix sub s
  || match s with
     | EmptyString => false
     | String _ s' => contains sub s'
     end.

(** [s.split(sep)] for a separator [sep] that is not empty: the pieces
    between the occurrences of [sep], found from the left and not
    overlapping. [piece] is the piece being read and [skip] the number of
    characters of the occurrence found that are still to pass. *)
Fixpoint split_sep_go (sep s piece : string) (skip : nat) : list string :=
  match s with
  | EmptyString => [piece]
  | String c s' =>
      match skip with
      | S skip' => split_sep_go sep s' piece skip'
      | O =>
          if String.prefix sep s then
            piece :: split_sep_go sep s' EmptyString (String.length sep - 1)
          else split_sep_go sep s' (PyStr.snoc piece c) 0
      end
  end.

Definition split_sep (sep s : string) : list string :=
  split_sep_go sep s EmptyString 0.

(** The whitespace below code point 256, see [PyStr.is_space]. *)
Definition whitespace : string :=
  string_of_list_ascii
    (map ascii_of_nat [9; 10; 11; 12; 13; 28; 29; 30; 31; 32; 133; 160]%nat).

(** [s.strip()] *)
Definition strip_space (s : string) : string := PyStr.strip whitespace s.

End PyText.

(** What the branch asks of Windows: ['ctypes' in sys.modules],
    [kernel32.GetLogicalDrives()], [kernel32.GetDriveTypeW(drive)], and the
    output of the commands [cmd /c vol <drive>] and
    [fsutil fsinfo volumeinfo <drive>]. *)
Record win_env := {
  ctypes_loaded : bool;
  GetLogicalDrives : res Z;
  GetDriveTypeW : string -> res Z;
  vol_output : string -> res string;
  fsutil_output : string -> res string
}.

(** [string.ascii_uppercase] *)
Definition ascii_uppercase : string := "ABCDEFGHIJKLMNOPQRSTUVWXYZ".

(** [for letter in string.ascii_uppercase]: a drive for each letter whose
    bit of the mask is set, the bit of [A] being the lowest. *)
Fixpoint drives_loop (letters : string) (bitmask : Z) (drives : list string)
  : list string :=
  match letters with
  | EmptyString => drives
  | String letter letters' =>
      let drives :=
        if has_bit bitmask 1 then drives ++ [String letter ":"] else drives in
      drives_loop letters' (Z.shiftr bitmask 1) drives
  end.

Definition drive_types : gmap Z string :=
  list_to_map [ (0, "UNKNOWN"); (1, "NO_ROOT_DIR"); (2, "REMOVABLE");
                (3, "FIXED"); (4, "REMOTE"); (5, "CDROM"); (6, "RAMDISK") ]%string.

(** [for line in vol_info.splitlines()]: the volume name when the loop is
    left, at its end or by an exception ([except: pass]). *)
Fixpoint vol_loop (lines : list string) (volume_name : string) : string :=
  match lines with
  | [] => volume_name
  | line :: lines' =>
      if PyText.contains "Volume in drive" line && PyText.contains "is" line then
        match list_index (PyText.split_sep "is" line) 1 with
        | Ret piece => vol_loop lines' (PyText.strip_space piece)
        | Raise _ => volume_name
        end
      else vol_loop lines' volume_name
  end.

(** [for line in fs_info.splitlines()], likewise. *)
Fixpoint fsinfo_loop (lines : list string) (fs_type : string) : string :=
  match lines with
  | [] => fs_type
  | line :: lines' =>
      if PyText.contains "File System Name" line then
        match list_index (PyText.split_sep ":" line) 1 with
        | Ret piece => fsinfo_loop lines' (PyText.strip_space piece)
        | Raise _ => fs_type
        end
      else fsinfo_loop lines' fs_type
  end.

Section WindowsEngine.

Context (win : win_env) (os : os_env) (self : FileSystem).

(** The two inner [try] blocks: a command that fails leaves the empty
    string. *)
Definition volume_name_of (drive : string) : string :=
  match vol_output win drive with
  | Ret vol_info => vol_loop (PyStr.splitlines vol_info) EmptyString
  | Raise _ => EmptyString
  end.

Definition fs_type_of (drive : string) : string :=
  match fsutil_output win drive with
  | Ret fs_info => fsinfo_loop (PyStr.splitlines fs_info) EmptyString
  | Raise _ => EmptyString
  end.

(** The body of [for drive in drives], inside its [try]. *)
Definition drive_body (drive : string) : res (gmap string pyval * list string) :=
  drive_type ← (if ctypes_loaded win then GetDriveTypeW win drive else Ret 0);
  let volume_name := volume_name_of drive in
  let fs_type := fs_type_of drive in
  let '(space_info, out) := get_drive_space os self (Some drive) in
  Ret (dict [ ("device", VStr drive);
              ("mountpoint", VStr drive);
              ("fstype", VStr fs_type);
              ("opts", VStr "");
              ("drive_type", VStr (default "UNKNOWN" (drive_types !! drive_type)));
              ("volume_name", VStr volume_name);
              ("total_space", dict_get space_info "total" (VInt 0));
              ("free_space", dict_get space_info "free" (VInt 0));
              ("used_space", dict_get space_info "used" (VInt 0));
              ("used_percent", dict_get space_info "used_percent" (VInt 0))
            ]%string, out).

(** The loop over the drives: a drive whose body raises is reported and
    the loop goes on. *)
Fixpoint drive_loop (drives : list string)
    (partitions : list (gmap string pyval)) (out : list string)
  : list (gmap string pyval) * list string :=
  match drives with
  | [] => (partitions, out)
  | drive :: drives' =>
      match drive_body drive with
      | Ret (part_info, printed) =>
          drive_loop drives' (partitions ++ [part_info]) (out ++ printed)
      | Raise e =>
          drive_loop drives' partitions
            (out ++ ["Error getting info for drive " +:+ drive +:+ ": "
                     +:+ exn_str e])
      end
  end.

(** The branch [if self.os_type == 'windows'], in a process where the
    imports at the top of the module succeeded ([string] is bound).
    [all_partitions] plays no part in it. *)
Definition get_disk_partitions_windows (all_partitions : bool)
  : list (gmap string pyval) * list string :=
  match (if ctypes_loaded win then GetLogicalDrives win else Ret 0) with
  | Ret bitmask => drive_loop (drives_loop ascii_uppercase bitmask []) [] []
  | Raise e => ([], ["Error getting disk partitions: " +:+ exn_str e])
  end.

End WindowsEngine.

(** ** A sample system *)

Definition LF : string := String (ascii_of_nat 10) EmptyString.

(** Mount tables in the format of Linux's [mount]. The second one starts
    with a line of exactly five fields (no options field). *)
Definition mount_table_ok : string :=
  "/dev/sda1 on / type ext4 (rw,relatime)" +:+ LF +:+
  "proc on /proc type proc (rw,nosuid)" +:+ LF +:+
  "garbage" +:+ LF +:+
  "/dev/loop0 on /snap type squashfs (ro)" +:+ LF.

Definition mount_table_five_fields : string :=
  "/dev/sdb1 on /mnt type ext4" +:+ LF +:+
  "/dev/sda1 on / type ext4 (rw,relatime)" +:+ LF.

Definition sample_os (mount : res string) : os_env := {|
  shutil_disk_usage := fun path =>
    if String.eqb path "/" then Ret (1000000, 250000, 750000)
    else if String.eqb path "/proc" then Ret (0, 0, 0)
    else Raise (Exn OSError "[Errno 2] No such file or directory");
  has_statvfs := true;
  os_statvfs := fun path =>
    if String.eqb path "/proc" then
      Ret {| f_bsize := 4096; f_frsize := 4096; f_blocks := 0; f_bfree := 0;
             f_bavail := 0; f_files := 0; f_ffree := 0; f_favail := 0;
             f_fsid := 0; f_flag := 14; f_namemax := 255 |}
    else
      Ret {| f_bsize := 4096; f_frsize := 0; f_blocks := 1000; f_bfree := 400;
             f_bavail := 300; f_files := 640; f_ffree := 600; f_favail := 600;
             f_fsid := 77; f_flag := 4096; f_namemax := 255 |};
  mount_output := mount;
  os_path_abspath := fun path => path;
  os_path_exists := fun path => negb (String.eqb path "/missing");
  os_path_isfile := fun path =>
    String.eqb path "/etc/hostname" || String.eqb path "/locked"
    || String.eqb path "/flaky";
  os_stat := fun path =>
    Ret {| st_mode := 0x89ED (* 0o104755 *); st_uid := 0; st_gid := 0 |};
  open_rb := fun path =>
    if String.eqb path "/locked" then
      Raise (Exn OSError "[Errno 13] Permission denied: '/locked'")
    else if String.eqb path "/flaky" then
      Ret {| f_data := repeat x61 5000;
             f_fault := Some (1%nat, Exn OSError "[Errno 5] Input/output error") |}
    else Ret {| f_data := list_byte_of_string "abc"; f_fault := None |}
|}.

Definition sample_fs : FileSystem := {| current_dir := "/" |}.

(** ** Notions used in the statements *)

(** The three octal digits of [p], without the leading zeros. *)
Definition short_octal (p : Z) : string :=
  let d i := digit_char (p / 8 ^ i mod 8) in
  if p <? 8 then String (d 0) EmptyString
  else if p <? 64 then String (d 1) (String (d 0) EmptyString)
  else String (d 2) (String (d 1) (String (d 0) EmptyString)).


(** A raw sample of [statvfs]: every counter is an unsigned 64-bit
    number. *)
Definition valid_statvfs (s : statvfs_result) : Prop :=
  Forall (fun x => 0 <= x < 2 ^ 64)
    [ f_bsize s; f_frsize s; f_blocks s; f_bfree s; f_bavail s;
      f_files s; f_ffree s; f_favail s ].

(** The length of the hexadecimal digest of each supported algorithm. *)
Definition digest_hex_length (hash_type : string) : nat :=
  if String.eqb hash_type "md5" then 32
  else if String.eqb hash_type "sha1" then 40
  else 64.

Definition is_hex_digit (c : ascii) : bool := PyStr.mem c "0123456789abcdef".

Definition demo_os : os_env := sample_os (Ret mount_table_ok).

(** ** Further notions used in the statements *)

(** A string without whitespace. *)
Fixpoint no_space (s : string) : bool :=
  match s with
  | EmptyString => true
  | String c s' => negb (PyStr.is_space c) && no_space s'
  end.

(** A string without a line boundary. *)
Fixpoint no_linebreak (s : string) : bool :=
  match s with
  | EmptyString => true
  | String c s' => negb (PyStr.is_linebreak c) && no_linebreak s'
  end.

(** The text made of the given lines, each ended by a line feed. *)
Fixpoint unlines (lines : list string) : string :=
  match lines with
  | [] => EmptyString
  | line :: lines' => line +:+ LF +:+ unlines lines'
  end.

(** The system [os] with another output of [mount]. *)
Definition set_mount_output (os : os_env) (mount : res string) : os_env := {|
  shutil_disk_usage := shutil_disk_usage os;
  has_statvfs := has_statvfs os;
  os_statvfs := os_statvfs os;
  mount_output := mount;
  os_path_abspath := os_path_abspath os;
  os_path_exists := os_path_exists os;
  os_path_isfile := os_path_isfile os;
  os_stat := os_stat os;
  open_rb := open_rb os
|}.

(** An entry without space numbers: the four fields are the int 0. *)
Definition zero_space_fields (part_info : gmap string pyval) : Prop :=
  part_info !! "total_space"%string = Some (VInt 0)
  /\ part_info !! "free_space"%string = Some (VInt 0)
  /\ part_info !! "used_space"%string = Some (VInt 0)
  /\ part_info !! "used_percent"%string = Some (VInt 0).

(** The system [os] with the given regular files, and no other. *)
Definition set_files (os : os_env) (files : list (string * file_obj)) : os_env := {|
  shutil_disk_usage := shutil_disk_usage os;
  has_statvfs := has_statvfs os;
  os_statvfs := os_statvfs os;
  mount_output := mount_output os;
  os_path_abspath := os_path_abspath os;
  os_path_exists := os_path_exists os;
  os_path_isfile := fun path =>
    existsb (fun entry => String.eqb entry.1 path) files;
  os_stat := os_stat os;
  open_rb := fun path =>
    match find (fun entry => String.eqb entry.1 path) files with
    | Some entry => Ret entry.2
    | None => Raise (Exn OSError "[Errno 2] No such file or directory")
    end
|}.

(** The int that a text of octal digits denotes, [acc] being the value of
    the digits already read. *)
Fixpoint octal_value (digits : string) (acc : Z) : Z :=
  match digits with
  | EmptyString => acc
  | String c digits' =>
      octal_value digits' (8 * acc + (Z.of_N (PyStr.code c) - 48))
  end.

(** The int that the text of an octal literal, [0o] and digits, denotes. *)
Definition parse_octal (s : string) : option Z :=
  match s with
  | String "0" (String "o" digits) => Some (octal_value digits 0)
  | _ => None
  end.

(** The nine permission bits that a symbolic string of ten characters
    shows, a dash being a bit that is not set. *)
Definition symbolic_value (s : string) : option Z :=
  match s with
  | String _ perms =>
      if (String.length perms =? 9)%nat then
        Some (fold_left (fun acc c => 2 * acc + (if Ascii.eqb c "-" then 0 else 1))
                (list_ascii_of_string perms) 0)
      else None
  | EmptyString => None
  end.

(** A usage percentage: the int 0, or a finite float from 0 to 100. *)
Definition is_percentage (v : pyval) : Prop :=
  v = VInt 0 \/ exists q, v = VFloat (Finite q) /\ (0 <= q)%Q /\ (q <= 100)%Q.

(** No occurrence of [sep] in [piece +:+ s] starts in [piece]. *)
Definition clean_piece (sep piece s : string) : Prop :=
  forall a b, piece = a +:+ b -> b <> EmptyString ->
              String.prefix sep (b +:+ s) = false.

(** A piece that is stripped: without the separator, and stripping it
    again changes nothing. *)
Definition parsed (sep w : string) : Prop :=
  PyText.contains sep w = false /\ PyText.strip_space w = w.


(** A sample Windows system: the drives [A:], [C:] and [D:]. *)
Definition sample_win : win_env := {|
  ctypes_loaded := true;
  GetLogicalDrives := Ret 0xD;
  GetDriveTypeW := fun drive =>
    if String.eqb drive "A:" then Raise (Exn OSError "exception: access violation")
    else if String.eqb drive "C:" then Ret 3
    else Ret 5;
  vol_output := fun drive =>
    if String.eqb drive "C:" then
      Ret (" Volume in drive C is Disk1" +:+ LF +:+
           " Volume Serial Number is 1234-ABCD" +:+ LF)
    else Raise (Exn OSError "Command returned non-zero exit status 1.");
  fsutil_output := fun drive =>
    if String.eqb drive "C:" then
      Ret ("Volume Name : Disk1" +:+ LF +:+ "File System Name : NTFS" +:+ LF)
    else Raise (Exn OSError "Command returned non-zero exit status 1.")
|}.

(** The name of the drive of letter number [i]. *)
Definition drive_name (i : nat) : string :=
  String (ascii_of_nat (65 + i)) ":".

(** The lines that the loop over the mount table reads: those before the
    first line of exactly five fields, where [parts[5]] raises and the loop
    is left. *)
Fixpoint lines_read (lines : list string) : list string :=
  match lines with
  | [] => []
  | line :: lines' =>
      if (length (PyStr.split line) =? 5)%nat then []
      else line :: lines_read lines'
  end.

(** Whether a line gives an entry: it has six fields or more and, without
    [all_partitions], the denylist does not match its type (field 4) and
    its device (field 0). *)
Definition line_kept (all_partitions : bool) (line : string) : bool :=
  let parts := PyStr.split line in
  (6 <=? length parts)%nat
  && (all_partitions
      || negb (is_virtual (nth 4 parts ""%string) (nth 0 parts ""%string))).

(** The entry of a line of six fields or more. *)
Definition line_entry (os : os_env) (self : FileSystem) (line : string)
  : gmap string pyval :=
  let parts := PyStr.split line in
  let mountpoint := nth 2 parts ""%string in
  let space_info := (get_drive_space os self (Some mountpoint)).1 in
  dict [ ("device", VStr (nth 0 parts ""));
         ("mountpoint", VStr mountpoint);
         ("fstype", VStr (nth 4 parts ""));
         ("opts", VStr (PyStr.strip "()" (nth 5 parts "")));
         ("total_space", dict_get space_info "total" (VInt 0));
         ("free_space", dict_get space_info "free" (VInt 0));
         ("used_space", dict_get space_info "used" (VInt 0));
         ("used_percent", dict_get space_info "used_percent" (VInt 0)) ]%string.

(** * Properties *)

(** ** Rounding to binary64 *)

Section FloatFacts.

Import Float.

Lemma round_half_even_lower (n d k : Z) :
  0 < d -> k * d <= n -> k <= round_half_even n d.
Proof.
  intros Hd Hk. unfold round_half_even.
  assert (k <= n / d) by (apply Z.div_le_lower_bound; lia).
  destruct (2 * (n mod d) ?= d); [destruct (Z.even (n / d))| |]; lia.
Qed.

Lemma round_half_even_upper (n d k : Z) :
  0 < d -> n <= k * d -> round_half_even n d <= k.
Proof.
  intros Hd Hk. unfold round_half_even.
  pose proof (Z.div_mod n d ltac:(lia)) as Hdm.
  pose proof (Z.mod_pos_bound n d Hd) as Hr.
  destruct (Z.eq_dec (n mod d) 0) as [H0|H0].
  - rewrite H0. replace (2 * 0 ?= d) with Lt by (symmetry; apply Z.compare_lt_iff; lia).
    nia.
  - assert (n / d + 1 <= k) by nia.
    destruct (2 * (n mod d) ?= d); [destruct (Z.even (n / d))| |]; lia.
Qed.

(** The two scale factors of an exponent: one of them is 1. *)
Lemma scaled_num_mul (a e : Z) : scaled_num a e = a * scaled_num 1 e.
Proof. unfold scaled_num. destruct (0 <=? e); lia. Qed.

Lemma scaled_den_mul (b e : Z) : scaled_den b e = b * scaled_den 1 e.
Proof. unfold scaled_den. destruct (0 <=? e); lia. Qed.

Lemma scaled_num_pos (e : Z) : 0 < scaled_num 1 e.
Proof.
  unfold scaled_num. destruct (0 <=? e) eqn:He; [lia|].
  apply Z.leb_gt in He. rewrite Z.mul_1_l. apply Z.pow_pos_nonneg; lia.
Qed.

Lemma scaled_den_pos (e : Z) : 0 < scaled_den 1 e.
Proof.
  unfold scaled_den. destruct (0 <=? e) eqn:He; [|lia].
  apply Z.leb_le in He. rewrite Z.mul_1_l. apply Z.pow_pos_nonneg; lia.
Qed.

(** [2^(j - e) * 2^e = 2^j], with the two factors of [2^e] apart. *)
Lemma pow2_split (j e : Z) :
  0 <= j -> e <= j -> 2 ^ (j - e) * scaled_den 1 e = 2 ^ j * scaled_num 1 e.
Proof.
  intros Hj Hej. unfold scaled_num, scaled_den.
  destruct (0 <=? e) eqn:He.
  - apply Z.leb_le in He. rewrite !Z.mul_1_l, Z.mul_1_r, <- Z.pow_add_r by lia.
    f_equal. lia.
  - apply Z.leb_gt in He. rewrite !Z.mul_1_l, Z.mul_1_r.
    rewrite <- Z.pow_add_r by lia. f_equal; lia.
Qed.

Lemma dyadic_le (m e c : Z) :
  m * scaled_den 1 e <= c * scaled_num 1 e -> (dyadic m e <= inject_Z c)%Q.
Proof.
  unfold dyadic, scaled_num, scaled_den. destruct (0 <=? e) eqn:He; intros H.
  - rewrite <- Zle_Qle. lia.
  - apply Z.leb_gt in He. rewrite Qred_correct. unfold Qle. simpl.
    rewrite Z2Pos.id by (apply Z.pow_pos_nonneg; lia). lia.
Qed.

Lemma dyadic_ge (m e c : Z) :
  c * scaled_num 1 e <= m * scaled_den 1 e -> (inject_Z c <= dyadic m e)%Q.
Proof.
  unfold dyadic, scaled_num, scaled_den. destruct (0 <=? e) eqn:He; intros H.
  - rewrite <- Zle_Qle. lia.
  - apply Z.leb_gt in He. rewrite Qred_correct. unfold Qle. simpl.
    rewrite Z2Pos.id by (apply Z.pow_pos_nonneg; lia). lia.
Qed.

Lemma b64_exponent_le (a b j : Z) :
  a <> 0 -> 0 < b -> 0 <= j -> Z.abs a <= 2 ^ j * b -> b64_exponent a b <= j.
Proof.
  intros Ha Hb Hj Hle. unfold b64_exponent.
  assert (Z.log2 (Z.abs a) <= j + Z.log2 b) as Hlog.
  { rewrite <- Z.log2_mul_pow2 by lia. apply Z.log2_le_mono. lia. }
  pose proof (Z.log2_nonneg b).
  destruct (_ <? _); lia.
Qed.

(** Above the subnormal range the scaled magnitude is at least 1. *)
Lemma b64_exponent_norm (a b : Z) :
  a <> 0 -> 0 < b -> -1074 < b64_exponent a b ->
  scaled_den b (b64_exponent a b) <= Z.abs (scaled_num a (b64_exponent a b)).
Proof.
  intros Ha Hb. set (e := b64_exponent a b). intros He.
  assert (e <= Z.log2 (Z.abs a) - Z.log2 b - 52) as Hub.
  { subst e. unfold b64_exponent in *. destruct (_ <? _); lia. }
  destruct (Z.log2_spec (Z.abs a) ltac:(lia)) as [Hla _].
  destruct (Z.log2_spec b Hb) as [_ Hlb].
  pose proof (Z.log2_nonneg (Z.abs a)). pose proof (Z.log2_nonneg b).
  unfold scaled_num, scaled_den. destruct (0 <=? e) eqn:Hs.
  - apply Z.leb_le in Hs.
    assert (2 ^ Z.succ (Z.log2 b) * 2 ^ e <= 2 ^ Z.log2 (Z.abs a)).
    { rewrite <- Z.pow_add_r by lia. apply Z.pow_le_mono_r; lia. }
    assert (0 < 2 ^ e) by (apply Z.pow_pos_nonneg; lia). nia.
  - apply Z.leb_gt in Hs. rewrite Z.abs_mul.
    assert (0 < 2 ^ (- e)) by (apply Z.pow_pos_nonneg; lia).
    rewrite (Z.abs_eq (2 ^ (- e))) by lia.
    assert (2 ^ Z.succ (Z.log2 b) <= 2 ^ Z.log2 (Z.abs a) * 2 ^ (- e)).
    { rewrite <- Z.pow_add_r by lia. apply Z.pow_le_mono_r; lia. }
    nia.
Qed.

(** A quotient of magnitude at most [2^j] rounds to a finite float of
    magnitude at most [2^j]. *)
Lemma b64_round_le (a b j : Z) :
  0 < b -> 0 <= j <= 1023 -> Z.abs a <= 2 ^ j * b ->
  exists q, b64_round a b = Finite q
            /\ (inject_Z (- 2 ^ j) <= q)%Q /\ (q <= inject_Z (2 ^ j))%Q.
Proof.
  intros Hb Hj Hle. unfold b64_round.
  assert (0 < 2 ^ j) as Hpj by (apply Z.pow_pos_nonneg; lia).
  destruct (a =? 0) eqn:Ha.
  { exists 0%Q. split; [reflexivity|]. split.
    - change 0%Q with (inject_Z 0). rewrite <- Zle_Qle. lia.
    - change 0%Q with (inject_Z 0). rewrite <- Zle_Qle. lia. }
  apply Z.eqb_neq in Ha.
  set (e := b64_exponent a b).
  set (m := round_half_even (scaled_num a e) (scaled_den b e)).
  assert (e <= j) as Hej by (apply b64_exponent_le; lia).
  pose proof (scaled_num_pos e) as HP. pose proof (scaled_den_pos e) as HR.
  pose proof (pow2_split j e ltac:(lia) Hej) as Hsplit.
  assert (0 < 2 ^ (j - e)) as Hk by (apply Z.pow_pos_nonneg; lia).
  assert (m <= 2 ^ (j - e)) as Hup.
  { apply round_half_even_upper.
    - rewrite scaled_den_mul. nia.
    - rewrite scaled_num_mul, scaled_den_mul. nia. }
  assert (- 2 ^ (j - e) <= m) as Hlo.
  { apply round_half_even_lower.
    - rewrite scaled_den_mul. nia.
    - rewrite scaled_num_mul, scaled_den_mul. nia. }
  assert ((0 <=? e) && (2 ^ 1024 <=? Z.abs m * 2 ^ e) = false) as ->.
  { destruct (0 <=? e) eqn:He; [|reflexivity]. simpl.
    apply Z.leb_gt. apply Z.leb_le in He.
    assert (2 ^ (j - e) * 2 ^ e = 2 ^ j) as Hp
      by (rewrite <- Z.pow_add_r by lia; f_equal; lia).
    assert (0 < 2 ^ e) by (apply Z.pow_pos_nonneg; lia).
    assert (2 ^ j < 2 ^ 1024) by (apply Z.pow_lt_mono_r; lia).
    nia. }
  exists (dyadic m e). split; [reflexivity|]. split.
  - apply dyadic_ge. nia.
  - apply dyadic_le. nia.
Qed.

(** A positive quotient of at least [2^j] rounds to at least [2^j]. *)
Lemma b64_round_ge (a b j : Z) :
  0 < b -> 0 <= j -> 2 ^ j * b <= a ->
  match b64_round a b with
  | Finite q => (inject_Z (2 ^ j) <= q)%Q
  | Inf s => s = false
  | NaN => False
  end.
Proof.
  intros Hb Hj Hle. unfold b64_round.
  assert (0 < 2 ^ j) as Hpj by (apply Z.pow_pos_nonneg; lia).
  assert (0 < a) as Hpos by nia.
  destruct (a =? 0) eqn:Ha; [apply Z.eqb_eq in Ha; lia|].
  set (e := b64_exponent a b).
  set (m := round_half_even (scaled_num a e) (scaled_den b e)).
  destruct (_ && _); [apply Z.ltb_ge; lia|].
  pose proof (scaled_num_pos e) as HP. pose proof (scaled_den_pos e) as HR.
  apply dyadic_ge.
  destruct (Z.le_gt_cases e j) as [Hej|Hej].
  - pose proof (pow2_split j e ltac:(lia) Hej) as Hsplit.
    assert (0 < 2 ^ (j - e)) as Hk by (apply Z.pow_pos_nonneg; lia).
    assert (2 ^ (j - e) <= m).
    { apply round_half_even_lower.
      - rewrite scaled_den_mul. nia.
      - rewrite scaled_num_mul, scaled_den_mul. nia. }
    nia.
  - pose proof (b64_exponent_norm a b ltac:(lia) Hb ltac:(fold e; lia)) as Hn.
    fold e in Hn.
    assert (0 < scaled_num a e) by (rewrite scaled_num_mul; nia).
    assert (1 <= m).
    { apply round_half_even_lower; [rewrite scaled_den_mul; nia | lia]. }
    unfold scaled_num, scaled_den.
    replace (0 <=? e) with true by (symmetry; apply Z.leb_le; lia).
    assert (2 ^ j <= 2 ^ e) by (apply Z.pow_le_mono_r; lia).
    nia.
Qed.


End FloatFacts.

(** ** SizeFormatter *)

Section SizeFacts.

Import Float.

Lemma of_int_bounded (n : Z) :
  Z.abs n <= 2 ^ 1023 ->
  exists q, Float.of_int n = Ret (Finite q)
            /\ (inject_Z (- 2 ^ 1023) <= q)%Q /\ (q <= inject_Z (2 ^ 1023))%Q.
Proof.
  intros Hn. unfold Float.of_int.
  destruct (b64_round_le n 1 1023) as (q & -> & Hq); [lia..|].
  exists q. split; [reflexivity | exact Hq].
Qed.

Lemma of_int_ge (n j : Z) :
  0 <= j -> 2 ^ j <= n <= 2 ^ 1023 ->
  exists q, Float.of_int n = Ret (Finite q)
            /\ (inject_Z (2 ^ j) <= q)%Q /\ (q <= inject_Z (2 ^ 1023))%Q.
Proof.
  intros Hj Hn.
  destruct (of_int_bounded n) as (q & Hq & _ & Hup); [lia|].
  exists q. split; [exact Hq|]. split; [|exact Hup].
  unfold Float.of_int in Hq.
  pose proof (b64_round_ge n 1 j ltac:(lia) Hj ltac:(lia)) as Hge.
  destruct (b64_round n 1); [|discriminate..].
  injection Hq as <-. exact Hge.
Qed.


(** One division by 1024 of a float between [2^j * 1024] and [2^J * 1024]. *)
Lemma div_1024 (q : Q) (j J : Z) :
  0 <= j -> 0 <= J <= 1023 ->
  (inject_Z (2 ^ j * 1024) <= q)%Q -> (q <= inject_Z (2 ^ J * 1024))%Q ->
  exists q', Float.truediv (Finite q) (Finite 1024) = Ret (Finite q')
             /\ (inject_Z (2 ^ j) <= q')%Q /\ (q' <= inject_Z (2 ^ J))%Q.
Proof.
  intros Hj HJ Hlo Hup. unfold Float.truediv, Float.div, b64_of_Q.
  cbn [is_zero Qnum Z.eqb].
  unfold Qle in Hlo, Hup. simpl in Hlo, Hup.
  assert (0 < 2 ^ j) by (apply Z.pow_pos_nonneg; lia).
  assert (0 < 2 ^ J) by (apply Z.pow_pos_nonneg; lia).
  set (a := Qnum (q / 1024)). set (b := Z.pos (Qden (q / 1024))).
  assert (a = Qnum q) as Ha by (subst a; simpl; lia).
  assert (b = Z.pos (Qden q) * 1024) as Hb by (subst b; simpl; lia).
  destruct (b64_round_le a b J) as (q' & Hq' & _ & Hq'up); [lia..|].
  pose proof (b64_round_ge a b j ltac:(lia) Hj ltac:(lia)) as Hge.
  rewrite Hq' in *. exists q'. auto.
Qed.

(** The division of the loop never raises: its divisor is 1024. *)
Lemma truediv_1024_total (x : pyfloat) :
  exists y, Float.truediv x (Finite 1024) = Ret y.
Proof. unfold Float.truediv. cbn [is_zero Qnum Z.eqb]. eauto. Qed.

(** One iteration of the scaling loop. *)
Lemma scale_loop_step (fuel : nat) (q : Q) (unit_index : nat) (j J : Z) :
  (unit_index < 5)%nat -> 0 <= j -> 0 <= J <= 1023 ->
  (inject_Z (2 ^ j * 1024) <= q)%Q -> (q <= inject_Z (2 ^ J * 1024))%Q ->
  exists q', scale_loop (S fuel) (Finite q) unit_index
             = scale_loop fuel (Finite q') (S unit_index)
             /\ (inject_Z (2 ^ j) <= q')%Q /\ (q' <= inject_Z (2 ^ J))%Q.
Proof.
  intros Hi Hj HJ Hlo Hup.
  destruct (div_1024 q j J Hj HJ Hlo Hup) as (q' & Hdiv & Hq').
  exists q'. split; [|exact Hq']. cbn [scale_loop ge_int].
  change (length units - 1)%nat with 5%nat.
  assert (Qle_bool (inject_Z 1024) q = true) as ->.
  { apply Qle_bool_iff. eapply Qle_trans; [|exact Hlo].
    rewrite <- Zle_Qle.
    assert (0 < 2 ^ j) by (apply Z.pow_pos_nonneg; lia). lia. }
  replace (unit_index <? 5)%nat with true by (symmetry; apply Nat.ltb_lt; lia).
  cbn [andb]. rewrite Hdiv. reflexivity.
Qed.

(** From [2^50] on, the loop divides five times and stops at the last
    unit. *)
Lemma scale_loop_PB (q : Q) :
  (inject_Z (2 ^ 50) <= q)%Q -> (q <= inject_Z (2 ^ 1023))%Q ->
  exists q', scale_loop (length units) (Finite q) 0 = Ret (Finite q', 5%nat)
             /\ (1 <= q')%Q.
Proof.
  intros Hlo Hup. change (length units) with 6%nat.
  destruct (scale_loop_step 5 q 0 40 1013) as (q1 & -> & Hlo1 & Hup1);
    [lia | lia | lia | exact Hlo | exact Hup |].
  destruct (scale_loop_step 4 q1 1 30 1003) as (q2 & -> & Hlo2 & Hup2);
    [lia | lia | lia | exact Hlo1 | exact Hup1 |].
  destruct (scale_loop_step 3 q2 2 20 993) as (q3 & -> & Hlo3 & Hup3);
    [lia | lia | lia | exact Hlo2 | exact Hup2 |].
  destruct (scale_loop_step 2 q3 3 10 983) as (q4 & -> & Hlo4 & Hup4);
    [lia | lia | lia | exact Hlo3 | exact Hup3 |].
  destruct (scale_loop_step 1 q4 4 0 973) as (q5 & -> & Hlo5 & Hup5);
    [lia | lia | lia | exact Hlo4 | exact Hup4 |].
  exists q5. split; [|exact Hlo5].
  cbn [scale_loop]. change (5 <? length units - 1)%nat with false.
  rewrite andb_false_r. reflexivity.
Qed.


(** The loop returns, in a state that fails its condition and with an index
    into [units]: [length units] iterations are enough. *)
Lemma scale_loop_exit (fuel : nat) (size : pyfloat) (unit_index : nat) :
  (unit_index <= length units - 1)%nat ->
  (length units - 1 <= unit_index + fuel)%nat ->
  exists size' unit_index',
    scale_loop fuel size unit_index = Ret (size', unit_index')
    /\ ge_int size' 1024 && (unit_index' <? length units - 1)%nat = false
    /\ (unit_index' < length units)%nat.
Proof.
  change (length units - 1)%nat with 5%nat. change (length units) with 6%nat.
  revert size unit_index.
  induction fuel as [|fuel IH]; intros size unit_index Hi Hf.
  - exists size, unit_index. cbn [scale_loop].
    replace (unit_index <? 5)%nat with false by (symmetry; apply Nat.ltb_ge; lia).
    rewrite andb_false_r. split; [reflexivity|]. split; [reflexivity | lia].
  - cbn [scale_loop]. change (length units - 1)%nat with 5%nat.
    destruct (ge_int size 1024 && (unit_index <? 5)%nat) eqn:Hc.
    + destruct (truediv_1024_total size) as (y & ->). cbn [mbind res_bind].
      apply andb_true_iff in Hc as [_ Hlt]. apply Nat.ltb_lt in Hlt.
      apply IH; lia.
    + exists size, unit_index. split; [reflexivity|]. split; [exact Hc | lia].
Qed.

(** The formatter returns a string for every int in the range of [float],
    and the unit of the string is one of [units]. *)
Lemma human_readable_size_total (n : Z) (d : nat) :
  Z.abs n <= 2 ^ 1023 -> exists s, _human_readable_size (Some n) d = Ret s.
Proof.
  intros Hn. unfold _human_readable_size, py_eq_int, py_float.
  destruct (n =? 0); [eauto|].
  destruct (of_int_bounded n Hn) as (q & -> & _). cbn [mbind res_bind].
  destruct (scale_loop_exit (length units) (Finite q) 0) as (x & i & -> & _ & Hi);
    [simpl; lia..|].
  cbn [mbind res_bind]. unfold list_index.
  destruct (lookup_lt_is_Some_2 units i Hi) as (u & ->). cbn [mbind res_bind].
  eauto.
Qed.

(** The shape of every result: a fixed-point number and a unit of [units];
    the number is below 1024 unless the unit is the last one. *)
Lemma human_readable_size_shape (n : Z) (d : nat) :
  n <> 0 -> Z.abs n <= 2 ^ 1023 ->
  exists x i unit,
    _human_readable_size (Some n) d = Ret (format_fixed x d +:+ " " +:+ unit)
    /\ units !! i = Some unit
    /\ (ge_int x 1024 = false \/ i = 5%nat).
Proof.
  intros Hn0 Hn. unfold _human_readable_size, py_eq_int, py_float.
  replace (n =? 0) with false by (symmetry; apply Z.eqb_neq; exact Hn0).
  destruct (of_int_bounded n Hn) as (q & -> & _). cbn [mbind res_bind].
  destruct (scale_loop_exit (length units) (Finite q) 0)
    as (x & i & -> & Hexit & Hi); [simpl; lia..|].
  cbn [mbind res_bind]. unfold list_index.
  destruct (lookup_lt_is_Some_2 units i Hi) as (u & Hu). rewrite Hu.
  cbn [mbind res_bind].
  exists x, i, u. split; [reflexivity|]. split; [exact Hu|].
  apply andb_false_iff in Hexit as [Hge|Hlt]; [left; exact Hge | right].
  apply Nat.ltb_ge in Hlt. change (length units) with 6%nat in Hi.
  change (length units - 1)%nat with 5%nat in Hlt. lia.
Qed.

End SizeFacts.

(** ** Claims on the size formatter *)




(** ** Exact results in binary64 *)

Section ExactFacts.

Import Float.

Lemma round_half_even_exact (k d : Z) : 0 < d -> round_half_even (k * d) d = k.
Proof.
  intros Hd. unfold round_half_even.
  rewrite Z.div_mul, Z.mod_mul by lia.
  replace (2 * 0 ?= d) with Lt by (symmetry; apply Z.compare_lt_iff; lia).
  reflexivity.
Qed.

(** Rounding depends on the quotient only. *)
Lemma round_half_even_scale (n d n' d' : Z) :
  0 < d -> 0 < d' -> n * d' = n' * d ->
  round_half_even n d = round_half_even n' d'.
Proof.
  intros Hd Hd' Heq. unfold round_half_even.
  pose proof (Z.div_mod n d ltac:(lia)) as Hdm.
  pose proof (Z.mod_pos_bound n d Hd) as Hr.
  set (f := n / d) in *. set (r := n mod d) in *.
  set (r' := n' - d' * f).
  assert (r' * d = r * d') as Hrr by (subst r'; nia).
  assert (0 <= r' < d') as Hr' by nia.
  assert (n' / d' = f) as Hf
    by (symmetry; apply (Z.div_unique n' d' f r'); [lia | subst r'; lia]).
  assert (n' mod d' = r') as Hm
    by (symmetry; apply (Z.mod_unique n' d' f r'); [lia | subst r'; lia]).
  rewrite Hf, Hm.
  assert ((2 * r ?= d) = (2 * r' ?= d')) as ->; [|reflexivity].
  destruct (Z.compare_spec (2 * r) d), (Z.compare_spec (2 * r') d');
    try reflexivity; nia.
Qed.

(** The number shown depends on the value of the float only. *)
Lemma format_fixed_Qeq (x y : Q) (d : nat) :
  (x == y)%Q -> format_fixed (Finite x) d = format_fixed (Finite y) d.
Proof.
  intros Heq. unfold Qeq in Heq. unfold format_fixed.
  set (p := 10 ^ Z.of_nat d).
  assert (0 < p) by (apply Z.pow_pos_nonneg; lia).
  assert ((Qnum x <? 0) = (Qnum y <? 0)) as ->.
  { destruct (Z.ltb_spec (Qnum x) 0), (Z.ltb_spec (Qnum y) 0);
      try reflexivity; nia. }
  assert (round_half_even (Z.abs (Qnum x) * p) (Z.pos (Qden x))
          = round_half_even (Z.abs (Qnum y) * p) (Z.pos (Qden y))) as ->;
    [|reflexivity].
  apply round_half_even_scale; [lia | lia |].
  assert (Z.abs (Qnum x) * Z.pos (Qden y) = Z.abs (Qnum y) * Z.pos (Qden x)) as Ha.
  { rewrite <- (Z.abs_eq (Z.pos (Qden y))), <- (Z.abs_eq (Z.pos (Qden x))) by lia.
    rewrite <- !Z.abs_mul. f_equal. exact Heq. }
  nia.
Qed.

Lemma scaled_nonneg (a b e : Z) :
  0 <= e -> scaled_num a e = a /\ scaled_den b e = b * 2 ^ e.
Proof.
  intros He. unfold scaled_num, scaled_den.
  replace (0 <=? e) with true by (symmetry; apply Z.leb_le; lia). auto.
Qed.

Lemma scaled_neg (a b e : Z) :
  e < 0 -> scaled_num a e = a * 2 ^ (- e) /\ scaled_den b e = b.
Proof.
  intros He. unfold scaled_num, scaled_den.
  replace (0 <=? e) with false by (symmetry; apply Z.leb_gt; lia). auto.
Qed.

(** The exponent of a quotient of at least 1 puts the scaled quotient
    between [2^52] and [2^53]. *)
Lemma b64_exponent_bounds (a b : Z) :
  0 < b -> b <= a ->
  let e := b64_exponent a b in
  -53 <= e
  /\ 2 ^ 52 * scaled_den b e <= scaled_num a e
  /\ scaled_num a e < 2 ^ 53 * scaled_den b e.
Proof.
  intros Hb Hab.
  assert (0 < a) as Ha by lia.
  destruct (Z.log2_spec a Ha) as [HA1 HA2].
  destruct (Z.log2_spec b Hb) as [HB1 HB2].
  pose proof (Z.log2_le_mono b a Hab) as Hlog.
  pose proof (Z.log2_nonneg b) as Hlb.
  set (la := Z.log2 a) in *. set (lb := Z.log2 b) in *.
  set (e0 := la - lb - 53).
  assert (-53 <= e0) as He0 by (subst e0; lia).
  (* the quotient scaled by [e0] is between [2^52] and [2^54] *)
  assert (2 ^ 52 * scaled_den b e0 < scaled_num a e0
          /\ scaled_num a e0 < 2 ^ 54 * scaled_den b e0) as [HL0 HU0].
  { destruct (Z.le_gt_cases 0 e0) as [Hs|Hs].
    - destruct (scaled_nonneg a b e0 Hs) as [-> ->].
      assert (0 < 2 ^ e0) by (apply Z.pow_pos_nonneg; lia).
      assert (2 ^ 52 * 2 ^ e0 * 2 ^ Z.succ lb = 2 ^ la) as E1
        by (rewrite <- !Z.pow_add_r by lia; f_equal; subst e0; lia).
      assert (2 ^ 54 * 2 ^ e0 * 2 ^ lb = 2 ^ Z.succ la) as E2
        by (rewrite <- !Z.pow_add_r by lia; f_equal; subst e0; lia).
      split; nia.
    - destruct (scaled_neg a b e0 Hs) as [-> ->].
      assert (0 < 2 ^ (- e0)) by (apply Z.pow_pos_nonneg; lia).
      assert (2 ^ la * 2 ^ (- e0) = 2 ^ 52 * 2 ^ Z.succ lb) as E1
        by (rewrite <- !Z.pow_add_r by lia; f_equal; subst e0; lia).
      assert (2 ^ Z.succ la * 2 ^ (- e0) = 2 ^ 54 * 2 ^ lb) as E2
        by (rewrite <- !Z.pow_add_r by lia; f_equal; subst e0; lia).
      split; nia. }
  assert (0 < scaled_num a e0) as Hpos0.
  { destruct (Z.le_gt_cases 0 e0) as [Hs|Hs].
    - destruct (scaled_nonneg a b e0 Hs) as [-> _]. exact Ha.
    - destruct (scaled_neg a b e0 Hs) as [-> _].
      assert (0 < 2 ^ (- e0)) by (apply Z.pow_pos_nonneg; lia). nia. }
  unfold b64_exponent. rewrite (Z.abs_eq a) by lia. fold la lb e0.
  rewrite (Z.abs_eq (scaled_num a e0)) by lia.
  destruct (Z.ltb_spec (scaled_num a e0) (2 ^ 53 * scaled_den b e0)) as [Ht|Ht].
  - rewrite Z.max_l by lia. split; [lia|]. split; [lia | exact Ht].
  - rewrite Z.max_l by lia. split; [lia|].
    destruct (Z.le_gt_cases 0 e0) as [Hs|Hs].
    + destruct (scaled_nonneg a b e0 Hs) as [En Ed].
      destruct (scaled_nonneg a b (e0 + 1) ltac:(lia)) as [-> ->].
      rewrite En, Ed in *.
      rewrite Z.pow_add_r by lia. change (2 ^ 1) with 2. split; nia.
    + destruct (scaled_neg a b e0 Hs) as [En Ed]. rewrite En, Ed in *.
      destruct (Z.eq_dec e0 (-1)) as [E|E].
      * rewrite E in *. change (-1 + 1) with 0.
        destruct (scaled_nonneg a b 0 ltac:(lia)) as [-> ->].
        change (2 ^ (- -1)) with 2 in *. change (2 ^ 0) with 1. split; nia.
      * destruct (scaled_neg a b (e0 + 1) ltac:(lia)) as [-> ->].
        assert (2 ^ (- e0) = 2 * 2 ^ (- (e0 + 1))) as Ep.
        { replace (- e0) with (1 + - (e0 + 1)) by lia.
          rewrite Z.pow_add_r by lia. reflexivity. }
        rewrite Ep in *. split; nia.
Qed.

End ExactFacts.

Section ExactRounding.

Import Float.

(** A quotient of at least 1 that is [N * 2^t / 2^s] with [N] of at most 53
    bits is a float, and rounding leaves it as it is. *)
Lemma b64_round_exact (a b N t s : Z) :
  0 < b -> b <= a -> 0 < N < 2 ^ 53 -> 0 <= t -> 0 <= s ->
  a * 2 ^ s = N * 2 ^ t * b -> N * 2 ^ t < 2 ^ 1024 * 2 ^ s ->
  exists y, b64_round a b = Finite y
            /\ Qnum y * 2 ^ s = N * 2 ^ t * Z.pos (Qden y).
Proof.
  intros Hb Hab HN Ht Hs Heq Hmax. unfold b64_round.
  replace (a =? 0) with false by (symmetry; apply Z.eqb_neq; lia).
  destruct (b64_exponent_bounds a b Hb Hab) as (He & HL & HU).
  set (e := b64_exponent a b) in *.
  assert (0 < 2 ^ s) as Hps by (apply Z.pow_pos_nonneg; lia).
  assert (0 < 2 ^ t) as Hpt by (apply Z.pow_pos_nonneg; lia).
  destruct (Z.le_gt_cases 0 e) as [Hsgn|Hsgn].
  - destruct (scaled_nonneg a b e Hsgn) as [En Ed]. rewrite En, Ed in *.
    assert (0 < 2 ^ e) as Hpe by (apply Z.pow_pos_nonneg; lia).
    assert (e + s <= t) as Hts.
    { destruct (Z.le_gt_cases (e + s) t) as [|Hlt]; [assumption | exfalso].
      assert (2 ^ (t + 1) <= 2 ^ (e + s)) as Hp
        by (apply Z.pow_le_mono_r; lia).
      rewrite !Z.pow_add_r in Hp by lia. change (2 ^ 1) with 2 in Hp.
      assert (0 < 2 ^ t * b) as Hpos by (apply Z.mul_pos_pos; lia).
      assert (2 ^ 52 * (b * 2 ^ e) * 2 ^ s <= a * 2 ^ s) as H1
        by (apply Z.mul_le_mono_nonneg_r; lia).
      assert (N * (2 ^ t * b) < 2 ^ 53 * (2 ^ t * b)) as H2
        by (apply Z.mul_lt_mono_pos_r; lia).
      assert (2 ^ 52 * b * (2 ^ t * 2) <= 2 ^ 52 * b * (2 ^ e * 2 ^ s)) as H3
        by (apply Z.mul_le_mono_nonneg_l; lia).
      lia. }
    set (K := N * 2 ^ (t - s - e)).
    assert (2 ^ t = 2 ^ (t - s - e) * 2 ^ s * 2 ^ e) as Hsplit
      by (rewrite <- !Z.pow_add_r by lia; f_equal; lia).
    assert (0 < 2 ^ (t - s - e)) as Hpk by (apply Z.pow_pos_nonneg; lia).
    assert (a = K * (b * 2 ^ e)) as Ha.
    { apply (Z.mul_reg_r _ _ (2 ^ s)); [lia|]. rewrite Heq, Hsplit.
      subst K. ring. }
    rewrite Ha, round_half_even_exact by (apply Z.mul_pos_pos; lia).
    assert (0 < K) as HK by (subst K; apply Z.mul_pos_pos; lia).
    assert (K * 2 ^ e * 2 ^ s = N * 2 ^ t) as Hval
      by (rewrite Hsplit; subst K; ring).
    replace (0 <=? e) with true by (symmetry; apply Z.leb_le; lia).
    replace (2 ^ 1024 <=? Z.abs K * 2 ^ e) with false.
    2:{ symmetry. apply Z.leb_gt. rewrite Z.abs_eq by lia.
        apply (Z.mul_lt_mono_pos_r (2 ^ s)); lia. }
    cbn [andb]. eexists. split; [reflexivity|].
    unfold dyadic.
    replace (0 <=? e) with true by (symmetry; apply Z.leb_le; lia).
    cbn [inject_Z Qnum Qden]. lia.
  - destruct (scaled_neg a b e Hsgn) as [En Ed]. rewrite En, Ed in *.
    assert (0 < 2 ^ (- e)) as Hpe by (apply Z.pow_pos_nonneg; lia).
    assert (s <= t - e) as Hts.
    { destruct (Z.le_gt_cases s (t - e)) as [|Hlt]; [assumption | exfalso].
      assert (2 ^ (t + - e + 1) <= 2 ^ s) as Hp
        by (apply Z.pow_le_mono_r; lia).
      rewrite !Z.pow_add_r in Hp by lia. change (2 ^ 1) with 2 in Hp.
      assert (a * 2 ^ s * 2 ^ (- e) = N * 2 ^ t * b * 2 ^ (- e)) as Heq'
        by (rewrite Heq; reflexivity).
      assert (0 < 2 ^ t * 2 ^ (- e) * b) as Hpos
        by (repeat apply Z.mul_pos_pos; lia).
      assert (2 ^ 52 * b * 2 ^ s <= a * 2 ^ (- e) * 2 ^ s) as H1
        by (apply Z.mul_le_mono_nonneg_r; lia).
      assert (N * (2 ^ t * 2 ^ (- e) * b) < 2 ^ 53 * (2 ^ t * 2 ^ (- e) * b)) as H2
        by (apply Z.mul_lt_mono_pos_r; lia).
      assert (2 ^ 52 * b * (2 ^ t * 2 ^ (- e) * 2) <= 2 ^ 52 * b * 2 ^ s) as H3
        by (apply Z.mul_le_mono_nonneg_l; lia).
      lia. }
    set (K := N * 2 ^ (t - e - s)).
    assert (2 ^ t * 2 ^ (- e) = 2 ^ (t - e - s) * 2 ^ s) as Hsplit
      by (rewrite <- !Z.pow_add_r by lia; f_equal; lia).
    assert (0 < 2 ^ (t - e - s)) as Hpk by (apply Z.pow_pos_nonneg; lia).
    assert (a * 2 ^ (- e) = K * b) as Ha.
    { apply (Z.mul_reg_r _ _ (2 ^ s)); [lia|].
      replace (a * 2 ^ (- e) * 2 ^ s) with (a * 2 ^ s * 2 ^ (- e)) by ring.
      rewrite Heq.
      replace (N * 2 ^ t * b * 2 ^ (- e)) with (N * b * (2 ^ t * 2 ^ (- e))) by ring.
      rewrite Hsplit. subst K. ring. }
    rewrite Ha, round_half_even_exact by lia.
    replace (0 <=? e) with false by (symmetry; apply Z.leb_gt; lia).
    cbn [andb]. eexists. split; [reflexivity|].
    unfold dyadic.
    replace (0 <=? e) with false by (symmetry; apply Z.leb_gt; lia).
    pose proof (Qred_correct (K # Z.to_pos (2 ^ (- e)))) as Hred.
    unfold Qeq in Hred. cbn [Qnum Qden] in Hred.
    rewrite Z2Pos.id in Hred by lia.
    set (y := Qred (K # Z.to_pos (2 ^ (- e)))) in *.
    apply (Z.mul_reg_r _ _ (2 ^ (- e))); [lia|].
    replace (Qnum y * 2 ^ s * 2 ^ (- e)) with (Qnum y * 2 ^ (- e) * 2 ^ s) by ring.
    rewrite Hred.
    replace (N * 2 ^ t * Z.pos (Qden y) * 2 ^ (- e))
      with (N * Z.pos (Qden y) * (2 ^ t * 2 ^ (- e))) by ring.
    rewrite Hsplit. subst K. ring.
Qed.

(** [float(n)] is [n] for an int of at most 53 bits. *)
Lemma of_int_exact (n : Z) :
  0 < n < 2 ^ 53 ->
  exists q, Float.of_int n = Ret (Finite q) /\ Qnum q = n * Z.pos (Qden q).
Proof.
  intros Hn. unfold Float.of_int.
  destruct (b64_round_exact n 1 n 0 0) as (y & -> & Hy); try lia.
  exists y. split; [reflexivity|]. change (2 ^ 0) with 1 in Hy. lia.
Qed.

(** The result of rounding is within half a unit of the quotient. *)
Lemma round_half_even_error (n d : Z) :
  0 < d -> 2 * Z.abs (round_half_even n d * d - n) <= d.
Proof.
  intros Hd. unfold round_half_even.
  pose proof (Z.div_mod n d ltac:(lia)) as Hdm.
  pose proof (Z.mod_pos_bound n d Hd) as Hr.
  set (f := n / d) in *. set (r := n mod d) in *.
  destruct (Z.compare_spec (2 * r) d); [destruct (Z.even f)| |]; lia.
Qed.

(** [float(n)] for a larger int: an int of at most 53 significant bits,
    and the nearest one to [n]. *)
Lemma of_int_large (n : Z) :
  2 ^ 53 <= n <= 2 ^ 1023 ->
  exists z N t, Float.of_int n = Ret (Finite (inject_Z z))
    /\ 0 < N < 2 ^ 53 /\ 0 <= t
    /\ z = N * 2 ^ t
    /\ 2 ^ 53 <= z <= 2 ^ 1023
    /\ 2 ^ 53 * Z.abs (z - n) <= n.
Proof.
  intros Hn.
  destruct (of_int_ge n 53 ltac:(lia) Hn) as (q & Hq & Hlo & Hup).
  pose proof Hq as Hof. unfold Float.of_int in Hq.
  destruct (b64_round n 1) as [q0| |] eqn:Hround; [|discriminate..].
  injection Hq as ->.
  unfold Qle in Hlo, Hup. cbn [inject_Z Qnum Qden] in Hlo, Hup.
  unfold b64_round in Hround.
  replace (n =? 0) with false in Hround by (symmetry; apply Z.eqb_neq; lia).
  destruct (b64_exponent_bounds n 1 ltac:(lia) ltac:(lia)) as (He & HL & HU).
  set (e := b64_exponent n 1) in *.
  assert (0 < e) as Hpos.
  { destruct (Z.le_gt_cases e 0) as [Hle|]; [exfalso | assumption].
    destruct (Z.eq_dec e 0) as [E|E].
    - rewrite E in *. destruct (scaled_nonneg n 1 0 ltac:(lia)) as [En Ed].
      rewrite En, Ed in *. change (2 ^ 0) with 1 in *. lia.
    - destruct (scaled_neg n 1 e ltac:(lia)) as [En Ed]. rewrite En, Ed in *.
      assert (0 < 2 ^ (- e)) by (apply Z.pow_pos_nonneg; lia). nia. }
  destruct (scaled_nonneg n 1 e ltac:(lia)) as [En Ed]. rewrite En, Ed in *.
  assert (0 < 2 ^ e) as Hpe by (apply Z.pow_pos_nonneg; lia).
  pose proof (round_half_even_lower n (1 * 2 ^ e) (2 ^ 52) ltac:(lia) ltac:(lia))
    as Hm1.
  pose proof (round_half_even_upper n (1 * 2 ^ e) (2 ^ 53) ltac:(lia) ltac:(lia))
    as Hm2.
  pose proof (round_half_even_error n (1 * 2 ^ e) ltac:(lia)) as Herr.
  set (m := round_half_even n (1 * 2 ^ e)) in *.
  replace (0 <=? e) with true in Hround by (symmetry; apply Z.leb_le; lia).
  destruct (2 ^ 1024 <=? Z.abs m * 2 ^ e); [discriminate|].
  cbn [andb] in Hround. injection Hround as <-.
  unfold dyadic in *.
  replace (0 <=? e) with true in * by (symmetry; apply Z.leb_le; lia).
  cbn [inject_Z Qnum Qden] in *.
  assert (2 ^ 53 * Z.abs (m * 2 ^ e - n) <= n) as Hnear.
  { replace (m * (1 * 2 ^ e)) with (m * 2 ^ e) in Herr by ring. lia. }
  exists (m * 2 ^ e).
  destruct (Z.eq_dec m (2 ^ 53)) as [E|E].
  - exists (2 ^ 52), (e + 1).
    rewrite Z.pow_add_r by lia. change (2 ^ 1) with 2.
    split; [exact Hof|]. split; [lia|]. split; [lia|].
    split; [rewrite E; ring|]. split; [lia | exact Hnear].
  - exists m, e. split; [exact Hof|]. split; [lia|]. split; [lia|].
    split; [reflexivity|]. split; [lia | exact Hnear].
Qed.

End ExactRounding.

Section ExactScaling.

Import Float.

(** One division by 1024 of a float [N * 2^t / 2^s] of at least 1024 gives
    [N * 2^t / 2^(s + 10)]. *)
Lemma truediv_1024_exact (q : Q) (N t s : Z) :
  0 < N < 2 ^ 53 -> 0 <= t -> 0 <= s ->
  Qnum q * 2 ^ s = N * 2 ^ t * Z.pos (Qden q) ->
  1024 * 2 ^ s <= N * 2 ^ t -> N * 2 ^ t < 2 ^ 1024 * 2 ^ s ->
  exists q', Float.truediv (Finite q) (Finite 1024) = Ret (Finite q')
             /\ Qnum q' * 2 ^ (s + 10) = N * 2 ^ t * Z.pos (Qden q').
Proof.
  intros HN Ht Hs Hq Hlo Hup. unfold Float.truediv, Float.div, b64_of_Q.
  cbn [is_zero Qnum Z.eqb].
  set (a := Qnum (q / 1024)). set (b := Z.pos (Qden (q / 1024))).
  assert (a = Qnum q) as Ha by (subst a; simpl; lia).
  assert (b = Z.pos (Qden q) * 1024) as Hb by (subst b; simpl; lia).
  assert (0 < 2 ^ s) as Hps by (apply Z.pow_pos_nonneg; lia).
  assert (2 ^ (s + 10) = 2 ^ s * 1024) as Hp
    by (rewrite Z.pow_add_r by lia; reflexivity).
  destruct (b64_round_exact a b N t (s + 10)) as (y & -> & Hy);
    [lia | | lia | lia | lia | | |].
  - rewrite Ha, Hb. apply (Z.mul_le_mono_pos_r _ _ (2 ^ s)); [lia|].
    rewrite Hq.
    assert (1024 * 2 ^ s * Z.pos (Qden q) <= N * 2 ^ t * Z.pos (Qden q))
      by (apply Z.mul_le_mono_nonneg_r; lia).
    lia.
  - rewrite Ha, Hb, Hp.
    replace (Qnum q * (2 ^ s * 1024)) with (Qnum q * 2 ^ s * 1024) by ring.
    rewrite Hq. ring.
  - rewrite Hp. lia.
  - exists y. split; [reflexivity | exact Hy].
Qed.

(** The loop on a float [N * 2^t] between [1024^k] and [1024^(k+1)] (or
    from [1024^5] on when [k] is 5) divides [k] times, exactly. *)
Lemma scale_loop_exact (N t : Z) (k : nat) :
  0 < N < 2 ^ 53 -> 0 <= t -> N * 2 ^ t < 2 ^ 1024 -> (k <= 5)%nat ->
  2 ^ (10 * Z.of_nat k) <= N * 2 ^ t ->
  ((k < 5)%nat -> N * 2 ^ t < 1024 * 2 ^ (10 * Z.of_nat k)) ->
  forall fuel i q,
    (i <= k)%nat -> (k - i <= fuel)%nat ->
    Qnum q * 2 ^ (10 * Z.of_nat i) = N * 2 ^ t * Z.pos (Qden q) ->
    exists x, scale_loop fuel (Finite q) i = Ret (Finite x, k)
              /\ Qnum x * 2 ^ (10 * Z.of_nat k) = N * 2 ^ t * Z.pos (Qden x).
Proof.
  intros HN Ht Hmax Hk Hlo Hup.
  induction fuel as [|fuel IH]; intros i q Hi Hfuel Hq.
  - assert (i = k) as -> by lia. exists q. split; [reflexivity | exact Hq].
  - cbn [scale_loop ge_int]. change (length units - 1)%nat with 5%nat.
    assert (0 < 2 ^ (10 * Z.of_nat i)) as Hpi by (apply Z.pow_pos_nonneg; lia).
    destruct (Nat.eq_dec i k) as [->|Hne].
    + assert (Qle_bool (inject_Z 1024) q && (k <? 5)%nat = false) as ->.
      { destruct (Nat.ltb_spec k 5) as [Hlt|]; [|apply andb_false_r].
        rewrite andb_true_r. apply not_true_iff_false. rewrite Qle_bool_iff.
        unfold Qle. cbn [inject_Z Qnum Qden]. specialize (Hup Hlt).
        intros Hge.
        assert (1024 * Z.pos (Qden q) * 2 ^ (10 * Z.of_nat k)
                <= Qnum q * 1 * 2 ^ (10 * Z.of_nat k))
          by (apply Z.mul_le_mono_nonneg_r; lia).
        assert (N * 2 ^ t * Z.pos (Qden q)
                < 1024 * 2 ^ (10 * Z.of_nat k) * Z.pos (Qden q))
          by (apply Z.mul_lt_mono_pos_r; lia).
        lia. }
      exists q. split; [reflexivity | exact Hq].
    + assert (2 ^ (10 * Z.of_nat (S i)) = 1024 * 2 ^ (10 * Z.of_nat i)) as Hp.
      { replace (10 * Z.of_nat (S i)) with (10 + 10 * Z.of_nat i) by lia.
        rewrite Z.pow_add_r by lia. reflexivity. }
      assert (1024 * 2 ^ (10 * Z.of_nat i) <= N * 2 ^ t) as Hbig.
      { rewrite <- Hp. etransitivity; [|exact Hlo].
        apply Z.pow_le_mono_r; lia. }
      assert (Qle_bool (inject_Z 1024) q && (i <? 5)%nat = true) as ->.
      { replace (i <? 5)%nat with true by (symmetry; apply Nat.ltb_lt; lia).
        rewrite andb_true_r. apply Qle_bool_iff.
        unfold Qle. cbn [inject_Z Qnum Qden].
        apply (Z.mul_le_mono_pos_r _ _ (2 ^ (10 * Z.of_nat i))); [lia|].
        replace (Qnum q * 1 * 2 ^ (10 * Z.of_nat i))
          with (Qnum q * 2 ^ (10 * Z.of_nat i)) by ring.
        rewrite Hq.
        assert (1024 * 2 ^ (10 * Z.of_nat i) * Z.pos (Qden q)
                <= N * 2 ^ t * Z.pos (Qden q))
          by (apply Z.mul_le_mono_nonneg_r; lia).
        lia. }
      destruct (truediv_1024_exact q N t (10 * Z.of_nat i)) as (q' & -> & Hq');
        [lia | lia | lia | exact Hq | exact Hbig | |].
      { assert (2 ^ 1024 * 1 <= 2 ^ 1024 * 2 ^ (10 * Z.of_nat i))
          by (apply Z.mul_le_mono_nonneg_l; lia).
        lia. }
      cbn [mbind res_bind]. apply IH; [lia | lia |].
      replace (10 * Z.of_nat (S i)) with (10 * Z.of_nat i + 10) by lia.
      exact Hq'.
Qed.

(** The loop on a float of value [N * 2^t], and the number shown for its
    result: that of the quotient by [1024^k]. *)
Lemma scale_loop_text (q : Q) (N t : Z) (k : nat) (unit : string) :
  0 < N < 2 ^ 53 -> 0 <= t -> N * 2 ^ t < 2 ^ 1024 ->
  Qnum q = N * 2 ^ t * Z.pos (Qden q) ->
  units !! k = Some unit ->
  1024 ^ Z.of_nat k <= N * 2 ^ t ->
  (N * 2 ^ t < 1024 ^ (Z.of_nat k + 1) \/ k = 5%nat) ->
  exists x,
    scale_loop (length units) (Finite q) 0 = Ret (Finite x, k)
    /\ forall d,
         format_fixed (Finite x) d
         = format_fixed
             (Finite (inject_Z (N * 2 ^ t) / inject_Z (1024 ^ Z.of_nat k))) d.
Proof.
  intros HN Ht Hmax Hq Hunit Hlo Hup.
  assert (k < 6)%nat as Hk by (apply lookup_lt_Some in Hunit; exact Hunit).
  assert (2 ^ (10 * Z.of_nat k) = 1024 ^ Z.of_nat k) as Hpow
    by (rewrite Z.pow_mul_r by lia; reflexivity).
  assert (0 < 1024 ^ Z.of_nat k) as Hpk by (apply Z.pow_pos_nonneg; lia).
  destruct (scale_loop_exact N t k HN Ht Hmax ltac:(lia)) with
    (fuel := length units) (i := 0%nat) (q := q)
    as (x & Hloop & Hx).
  - rewrite Hpow. exact Hlo.
  - intros Hlt. rewrite Hpow. destruct Hup as [Hup|]; [|lia].
    rewrite Z.pow_add_r, Z.pow_1_r in Hup by lia. lia.
  - lia.
  - change (length units) with 6%nat. lia.
  - change (2 ^ (10 * Z.of_nat 0)) with 1. lia.
  - exists x. split; [exact Hloop|]. intros d.
    apply format_fixed_Qeq. rewrite Hpow in Hx.
    assert (x * inject_Z (1024 ^ Z.of_nat k) == inject_Z (N * 2 ^ t))%Q as Hmul.
    { unfold Qeq, Qmult. cbn [inject_Z Qnum Qden].
      rewrite Pos.mul_1_r. lia. }
    rewrite <- Hmul. symmetry. apply Qdiv_mult_l.
    unfold Qeq. cbn [inject_Z Qnum Qden]. lia.
Qed.

(** An int below [2^53] is rendered as its exact quotient by the power of
    1024 of its unit. *)
Lemma human_readable_size_exact (n : Z) (k : nat) (unit : string) (d : nat) :
  units !! k = Some unit ->
  0 < n < 2 ^ 53 ->
  1024 ^ Z.of_nat k <= n ->
  (n < 1024 ^ (Z.of_nat k + 1) \/ k = 5%nat) ->
  _human_readable_size (Some n) d
  = Ret (format_fixed (Finite (inject_Z n / inject_Z (1024 ^ Z.of_nat k))) d
         +:+ " " +:+ unit).
Proof.
  intros Hunit Hn Hlo Hup. unfold _human_readable_size, py_eq_int, py_float.
  replace (n =? 0) with false by (symmetry; apply Z.eqb_neq; lia).
  destruct (of_int_exact n Hn) as (q & -> & Hq). cbn [mbind res_bind].
  assert (n * 2 ^ 0 = n) as E0 by (change (2 ^ 0) with 1; lia).
  destruct (scale_loop_text q n 0 k unit) as (x & -> & Hx);
    [lia | lia | rewrite E0; lia | rewrite E0; exact Hq | exact Hunit
     | rewrite E0; exact Hlo | rewrite E0; exact Hup |].
  rewrite E0 in Hx. cbn [mbind res_bind]. unfold list_index. rewrite Hunit.
  cbn [mbind res_bind]. rewrite Hx. reflexivity.
Qed.

(** A larger int is converted to the nearest float, an int again, and
    rendered in PB as the exact quotient of that float by [1024^5]. *)
Lemma human_readable_size_large (n : Z) (d : nat) :
  2 ^ 53 <= n <= 2 ^ 1023 ->
  exists z,
    Float.of_int n = Ret (Finite (inject_Z z))
    /\ 2 ^ 53 * Z.abs (z - n) <= n
    /\ _human_readable_size (Some n) d
       = Ret (format_fixed (Finite (inject_Z z / inject_Z (1024 ^ 5))) d
              +:+ " PB").
Proof.
  intros Hn.
  destruct (of_int_large n Hn) as (z & N & t & Hof & HN & Ht & Hz & Hrange & Hnear).
  exists z. split; [exact Hof|]. split; [exact Hnear|].
  unfold _human_readable_size, py_eq_int, py_float.
  replace (n =? 0) with false by (symmetry; apply Z.eqb_neq; lia).
  rewrite Hof. cbn [mbind res_bind].
  destruct (scale_loop_text (inject_Z z) N t 5 "PB") as (x & -> & Hx);
    [exact HN | exact Ht | lia | cbn [inject_Z Qnum Qden]; lia | reflexivity
     | rewrite <- Hz; change (1024 ^ Z.of_nat 5) with (2 ^ 50); lia
     | right; reflexivity |].
  rewrite <- Hz in Hx. cbn [mbind res_bind]. rewrite Hx. reflexivity.
Qed.

End ExactScaling.

(** C7: the formatter scales by repeated division by 1024 through B, KB,
    MB, GB, TB, PB and stops at PB. Zero is ["0 B"], 1024 is ["1.00 KB"],
    1536 is ["1.50 KB"], each power of 1024 starts the next unit. For every
    int [n] from 1 to [2^53 - 1] the unit is the one of index [k], where
    [1024^k <= n < 1024^(k+1)] (or [1024^5 <= n] for PB), and the number
    is the exact quotient [n / 1024^k] shown with the given number of
    places: the divisions by 1024 lose nothing. For a larger int (up to
    [2^1023], so for every 64-bit size) [float(n)] is an int [z] within
    [n / 2^53] of [n], and the result is the exact quotient [z / 1024^5]
    in PB. In general every result is a number with a unit of the
    sequence, the number below 1024 unless the unit is PB, and every value
    from [1024^5] on is rendered in PB with a number of at least 1. *)
Theorem human_readable_size_scaling :
  _human_readable_size (Some 0) 2 = Ret "0 B"%string
  /\ _human_readable_size (Some 1024) 2 = Ret "1.00 KB"%string
  /\ _human_readable_size (Some 1536) 2 = Ret "1.50 KB"%string
  /\ map (fun k => _human_readable_size (Some (1024 ^ k)) 2) [0; 1; 2; 3; 4; 5; 6]
     = map Ret [ "1.00 B"; "1.00 KB"; "1.00 MB"; "1.00 GB"; "1.00 TB";
                 "1.00 PB"; "1024.00 PB" ]%string
  /\ (forall n k unit d,
        units !! k = Some unit ->
        0 < n < 2 ^ 53 ->
        1024 ^ Z.of_nat k <= n ->
        n < 1024 ^ (Z.of_nat k + 1) \/ k = 5%nat ->
        _human_readable_size (Some n) d
        = Ret (format_fixed
                 (Finite (inject_Z n / inject_Z (1024 ^ Z.of_nat k))) d
               +:+ " " +:+ unit))
  /\ (forall n d, 2 ^ 53 <= n <= 2 ^ 1023 ->
        exists z,
          Float.of_int n = Ret (Finite (inject_Z z))
          /\ 2 ^ 53 * Z.abs (z - n) <= n
          /\ _human_readable_size (Some n) d
             = Ret (format_fixed (Finite (inject_Z z / inject_Z (1024 ^ 5))) d
                    +:+ " PB"))
  /\ (forall n, n <> 0 -> Z.abs n <= 2 ^ 1023 ->
        exists x i unit,
          _human_readable_size (Some n) 2
          = Ret (format_fixed x 2 +:+ " " +:+ unit)
          /\ units !! i = Some unit
          /\ (ge_int x 1024 = false \/ i = 5%nat))
  /\ (forall n, 1024 ^ 5 <= n <= 2 ^ 1023 ->
        exists q, (1 <= q)%Q
          /\ _human_readable_size (Some n) 2
             = Ret (format_fixed (Finite q) 2 +:+ " PB")).
Proof.
  do 4 (split; [vm_compute; reflexivity|]).
  split; [intros n k unit d; apply human_readable_size_exact|].
  split; [intros n d; apply human_readable_size_large|].
  split; [intros n Hn0 Hn; apply human_readable_size_shape; assumption|].
  intros n Hn. unfold _human_readable_size, py_eq_int, py_float.
  replace (n =? 0) with false by (symmetry; apply Z.eqb_neq; lia).
  destruct (of_int_ge n 50) as (q & -> & Hlo & Hup);
    [lia | split; [change (2 ^ 50) with (1024 ^ 5) |]; lia |].
  cbn [mbind res_bind].
  destruct (scale_loop_PB q Hlo Hup) as (q' & -> & Hq').
  exists q'. split; [exact Hq' | reflexivity].
Qed.

Lemma human_readable_size_scaling_witness :
  _human_readable_size (Some 250000) 2
  = Ret (format_fixed (Finite (inject_Z 250000 / inject_Z (1024 ^ 1))) 2
         +:+ " KB")
  /\ exists z,
       Float.of_int (2 ^ 64 - 1) = Ret (Finite (inject_Z z))
       /\ 2 ^ 53 * Z.abs (z - (2 ^ 64 - 1)) <= 2 ^ 64 - 1
       /\ _human_readable_size (Some (2 ^ 64 - 1)) 2
          = Ret (format_fixed (Finite (inject_Z z / inject_Z (1024 ^ 5))) 2
                 +:+ " PB").
Proof.
  split.
  - apply (proj1 (proj2 (proj2 (proj2 (proj2 human_readable_size_scaling))))
             250000 1%nat "KB"%string 2%nat);
      [reflexivity | lia | vm_compute; discriminate
       | left; vm_compute; reflexivity].
  - apply (proj1 (proj2 (proj2 (proj2 (proj2 (proj2
             human_readable_size_scaling))))) (2 ^ 64 - 1) 2%nat).
    split; vm_compute; discriminate.
Defined.

(** The numbers of two exact quotients. *)
Example exact_quotient_examples :
  format_fixed (Finite (inject_Z 250000 / inject_Z (1024 ^ 1))) 2 = "244.14"%string
  /\ format_fixed (Finite (inject_Z 1048575 / inject_Z (1024 ^ 1))) 2
     = "1024.00"%string
  /\ format_fixed (Finite (inject_Z (2 ^ 64) / inject_Z (1024 ^ 5))) 2
     = "16384.00"%string.
Proof. repeat split; vm_compute; reflexivity. Qed.

(** The largest 64-bit size, and sizes with other numbers of places. *)
Example human_readable_size_examples :
  _human_readable_size (Some (2 ^ 64 - 1)) 2 = Ret "16384.00 PB"%string
  /\ _human_readable_size (Some 1048575) 2 = Ret "1024.00 KB"%string
  /\ _human_readable_size (Some 1023) 0 = Ret "1023 B"%string
  /\ _human_readable_size (Some 250000) 2 = Ret "244.14 KB"%string
  /\ _human_readable_size (Some 123456789) 3 = Ret "117.738 MB"%string
  /\ _format_size (Some 0) = Ret "0.00 B"%string
  /\ _format_size (Some 1536) = Ret "1.50 KB"%string.
Proof. repeat split; vm_compute; reflexivity. Qed.

(** ** PermissionDecoder *)

Section PermissionFacts.

(** Testing [mode & 2^k] is testing bit [k]. *)
Lemma has_bit_pow2 (mode k : Z) :
  0 <= k -> has_bit mode (2 ^ k) = Z.testbit mode k.
Proof.
  intros Hk. unfold has_bit.
  assert (Z.land mode (2 ^ k) = if Z.testbit mode k then 2 ^ k else 0) as ->.
  { apply Z.bits_inj'. intros n Hn.
    rewrite Z.land_spec, Z.pow2_bits_eqb by lia.
    destruct (Z.eqb_spec k n) as [->|Hne].
    - destruct (Z.testbit mode n); [|rewrite Z.bits_0; reflexivity].
      rewrite Z.pow2_bits_eqb, Z.eqb_refl by lia. reflexivity.
    - rewrite andb_false_r.
      destruct (Z.testbit mode k); [|rewrite Z.bits_0; reflexivity].
      rewrite Z.pow2_bits_eqb by lia. symmetry. apply Z.eqb_neq. exact Hne. }
  destruct (Z.testbit mode k); [|reflexivity].
  assert (0 < 2 ^ k) by (apply Z.pow_pos_nonneg; lia).
  apply negb_true_iff, Z.eqb_neq. lia.
Qed.

(** Flipping bits of [flip] that lie outside the mask [c] does not change
    [mode & c]. *)
Lemma land_lxor_outside (mode flip c : Z) :
  Z.land flip c = 0 -> Z.land (Z.lxor mode flip) c = Z.land mode c.
Proof.
  intros Hout. apply Z.bits_inj'. intros n Hn.
  assert (Z.testbit (Z.land flip c) n = false) as Hbit
    by (rewrite Hout; apply Z.bits_0).
  rewrite Z.land_spec in Hbit. rewrite !Z.land_spec, Z.lxor_spec.
  destruct (Z.testbit mode n), (Z.testbit flip n), (Z.testbit c n);
    simpl in *; congruence.
Qed.

Lemma special_mask_outside (s c : Z) :
  Z.land 0xE00 c = 0 -> Z.land (Z.land s 0xE00) c = 0.
Proof. intros Hc. rewrite <- Z.land_assoc, Hc. apply Z.land_0_r. Qed.

Lemma land_0x1FF_range (mode : Z) : 0 <= Z.land mode 0x1FF < 512.
Proof.
  change 0x1FF with (Z.ones 9). rewrite Z.land_ones by lia.
  apply Z.mod_pos_bound. reflexivity.
Qed.

Lemma oct_below_512 (p : Z) :
  0 <= p < 512 -> PyStr.oct p = "0o" +:+ short_octal p.
Proof.
  intros Hp.
  assert (forallb (fun n => String.eqb (PyStr.oct (Z.of_nat n))
                              ("0o" +:+ short_octal (Z.of_nat n)))
            (seq 0 512) = true) as Hall by (vm_compute; reflexivity).
  rewrite forallb_forall in Hall.
  specialize (Hall (Z.to_nat p)). rewrite Z2Nat.id in Hall by lia.
  apply String.eqb_eq, Hall, in_seq. lia.
Qed.

End PermissionFacts.

(** C4, as stated, fails: for mode [0o755] the octal field is Python's
    [oct] text ["0o755"], five characters with the ["0o"] prefix, and for
    mode [0o007] it is ["0o7"]: neither is a string of exactly three octal
    digits. The field of [get_file_permissions] is that text (the sample
    system reports mode [0o104755]). *)
Lemma octal_perm_has_prefix :
  octal_perm 0x1ED = "0o755"%string
  /\ octal_perm 0x1ED <> "755"%string
  /\ octal_perm 0x007 = "0o7"%string
  /\ (get_file_permissions (sample_os (Ret mount_table_ok)) "/etc/hostname").1
       !! "octal"%string = Some (VStr "0o755").
Proof.
  split; [vm_compute; reflexivity|].
  split; [intros H; vm_compute in H; discriminate|].
  split; vm_compute; reflexivity.
Qed.

(** C4, amended: the octal field is [oct(mode & 0o777)]: the prefix ["0o"]
    followed by the octal digits of the low 9 bits of the mode without
    leading zeros (one to three digits). *)
Theorem octal_perm_spec (mode : Z) :
  let p := Z.land mode 0x1FF in
  0 <= p < 512 /\ octal_perm mode = "0o" +:+ short_octal p.
Proof.
  intros p. split; [apply land_0x1FF_range|].
  unfold octal_perm. apply oct_below_512, land_0x1FF_range.
Qed.

(** C5: the symbolic string is 10 characters: the type character ([d] for
    a directory, [l] for a symlink, [-] otherwise) and nine characters that
    each test one permission bit; flipping any of the setuid, setgid and
    sticky bits leaves the string unchanged, and those bits are reported
    as booleans of their own. *)
Theorem symbolic_spec (mode : Z) :
  let bit k (c : ascii) : ascii := if Z.testbit mode k then c else "-"%char in
  symbolic mode
  = String (if S_ISDIR mode then "d" else if S_ISLNK mode then "l" else "-")%char
     (String (bit 8 "r") (String (bit 7 "w") (String (bit 6 "x")
     (String (bit 5 "r") (String (bit 4 "w") (String (bit 3 "x")
     (String (bit 2 "r") (String (bit 1 "w") (String (bit 0 "x")
      EmptyString)))))))))%char
  /\ String.length (symbolic mode) = 10%nat
  /\ (forall special, symbolic (Z.lxor mode (Z.land special 0xE00)) = symbolic mode)
  /\ special_bits mode
     = dict [ ("setuid", VBool (Z.testbit mode 11));
              ("setgid", VBool (Z.testbit mode 10));
              ("sticky", VBool (Z.testbit mode 9)) ]%string
  /\ symbolic 0x81ED (* 0o100755 *) = "-rwxr-xr-x"%string
  /\ symbolic 0x81A4 (* 0o100644 *) = "-rw-r--r--"%string
  /\ symbolic 0x89ED (* 0o104755 *) = "-rwxr-xr-x"%string
  /\ special_bits 0x89ED !! "setuid"%string = Some (VBool true)
  /\ symbolic 0x41ED (* 0o040755 *) = "drwxr-xr-x"%string
  /\ symbolic 0xA1FF (* 0o120777 *) = "lrwxrwxrwx"%string.
Proof.
  intros bit.
  assert (symbolic mode
    = String (if S_ISDIR mode then "d" else if S_ISLNK mode then "l" else "-")%char
       (String (bit 8 "r") (String (bit 7 "w") (String (bit 6 "x")
       (String (bit 5 "r") (String (bit 4 "w") (String (bit 3 "x")
       (String (bit 2 "r") (String (bit 1 "w") (String (bit 0 "x")
        EmptyString)))))))))%char) as Hsym.
  { unfold symbolic, bit.
    change S_IRUSR with (2 ^ 8). change S_IWUSR with (2 ^ 7).
    change S_IXUSR with (2 ^ 6). change S_IRGRP with (2 ^ 5).
    change S_IWGRP with (2 ^ 4). change S_IXGRP with (2 ^ 3).
    change S_IROTH with (2 ^ 2). change S_IWOTH with (2 ^ 1).
    change S_IXOTH with (2 ^ 0).
    rewrite !has_bit_pow2 by lia.
    destruct (S_ISDIR mode), (S_ISLNK mode), (Z.testbit mode 8),
      (Z.testbit mode 7), (Z.testbit mode 6), (Z.testbit mode 5),
      (Z.testbit mode 4), (Z.testbit mode 3), (Z.testbit mode 2),
      (Z.testbit mode 1), (Z.testbit mode 0); reflexivity. }
  split; [exact Hsym|].
  split; [rewrite Hsym; reflexivity|].
  split.
  { intros special. unfold symbolic, S_ISDIR, S_ISLNK, has_bit.
    rewrite !land_lxor_outside by (apply special_mask_outside; reflexivity).
    reflexivity. }
  split.
  { unfold special_bits.
    change S_ISUID with (2 ^ 11). change S_ISGID with (2 ^ 10).
    change S_ISVTX with (2 ^ 9). rewrite !has_bit_pow2 by lia. reflexivity. }
  repeat split; vm_compute; reflexivity.
Qed.

(** The decoder is what [get_file_permissions] returns for a path that
    exists and can be examined. *)
Lemma get_file_permissions_decodes (os : os_env) (path : string)
    (st : stat_result) :
  os_path_exists os path = true -> os_stat os path = Ret st ->
  get_file_permissions os path
  = (dict [ ("path", VStr (os_path_abspath os path));
            ("octal", VStr (octal_perm (st_mode st)));
            ("symbolic", VStr (symbolic (st_mode st)));
            ("special_bits", VDict (special_bits (st_mode st)));
            ("owner_id", VInt (st_uid st));
            ("group_id", VInt (st_gid st)) ]%string, []).
Proof. intros He Hs. unfold get_file_permissions. rewrite He, Hs. reflexivity. Qed.

(** ** VolumeSpaceProbe *)

(** A probe that fails returns the empty dict. *)
Lemma get_drive_space_probe_failure (os : os_env) (self : FileSystem)
    (path : string) (e : exn) :
  shutil_disk_usage os path = Raise e ->
  get_drive_space os self (Some path)
  = (∅, ["Error getting drive space: " +:+ exn_str e]).
Proof. intros H. unfold get_drive_space. simpl. rewrite H. reflexivity. Qed.

(** C9 (the code departs from the claim): for a volume of capacity 0 the
    division [used / total] raises [ZeroDivisionError], which the handler
    of [get_drive_space] swallows: the result is the empty dict, with no
    [total], [used] or [free] in it, the same dict a failed probe gives. *)
Theorem get_drive_space_zero_capacity (os : os_env) (self : FileSystem)
    (path : string) :
  shutil_disk_usage os path = Ret (0, 0, 0) ->
  get_drive_space os self (Some path)
  = (∅, ["Error getting drive space: division by zero"%string])
  /\ (get_drive_space os self (Some path)).1 !! "total"%string = None
  /\ forall os' e, shutil_disk_usage os' path = Raise e ->
       (get_drive_space os' self (Some path)).1
       = (get_drive_space os self (Some path)).1.
Proof.
  intros H.
  assert (get_drive_space os self (Some path)
          = (∅, ["Error getting drive space: division by zero"%string])) as Heq.
  { unfold get_drive_space. simpl. rewrite H. reflexivity. }
  rewrite Heq. split; [reflexivity|]. split; [reflexivity|].
  intros os' e He. rewrite (get_drive_space_probe_failure os' self path e He).
  reflexivity.
Qed.

Lemma get_drive_space_zero_capacity_witness :
  shutil_disk_usage (sample_os (Ret mount_table_ok)) "/proc" = Ret (0, 0, 0)
  /\ get_drive_space (sample_os (Ret mount_table_ok)) sample_fs (Some "/proc"%string)
     = (∅, ["Error getting drive space: division by zero"%string]).
Proof.
  split; [reflexivity|].
  apply (get_drive_space_zero_capacity (sample_os (Ret mount_table_ok))
           sample_fs "/proc" eq_refl).
Defined.

(** ** PartitionEnumerator *)

Section PartitionFacts.

Context (os : os_env) (self : FileSystem).

(** A line with fewer than five fields is skipped. *)
Lemma mount_line_short (all_partitions : bool) (line : string) :
  (length (PyStr.split line) < 5)%nat ->
  mount_line os self all_partitions line = Ret ([], []).
Proof.
  intros H. unfold mount_line.
  replace (5 <=? length (PyStr.split line))%nat with false
    by (symmetry; apply Nat.leb_gt; exact H).
  reflexivity.
Qed.

(** A line with exactly five fields passes the guard [len(parts) >= 5] and
    then raises [IndexError] at [parts[5]]. *)
Lemma mount_line_five_fields (all_partitions : bool) (line : string) :
  length (PyStr.split line) = 5%nat ->
  mount_line os self all_partitions line
  = Raise (Exn IndexError "list index out of range").
Proof.
  intros H. unfold mount_line. rewrite H.
  destruct (PyStr.split line) as [|p0 [|p1 [|p2 [|p3 [|p4 [|p5 l]]]]]];
    try discriminate.
  reflexivity.
Qed.

(** The exception leaves the loop: no later line is read. *)
Lemma mount_loop_five_fields (all_partitions : bool) (line : string)
    (lines : list string) (partitions : list (gmap string pyval))
    (out : list string) :
  length (PyStr.split line) = 5%nat ->
  mount_loop os self all_partitions (line :: lines) partitions out
  = (partitions, out, Some (Exn IndexError "list index out of range")).
Proof.
  intros H. cbn [mount_loop]. rewrite mount_line_five_fields by exact H.
  reflexivity.
Qed.





End PartitionFacts.


(** C1 (the code departs from the claim): a mount table whose first line
    has exactly five fields ends the enumeration at that line, for any
    probe results and either value of [all_partitions]: the well-formed
    line after it is not reported, the result is the empty list. *)
Theorem five_field_line_aborts_enumeration (os : os_env) (self : FileSystem)
    (all_partitions : bool) :
  mount_output os = Ret mount_table_five_fields ->
  get_disk_partitions os self all_partitions
  = ([], ["Error getting mount information: list index out of range"%string]).
Proof.
  intros H. unfold get_disk_partitions. rewrite H.
  change (PyStr.splitlines mount_table_five_fields)
    with ["/dev/sdb1 on /mnt type ext4";
          "/dev/sda1 on / type ext4 (rw,relatime)"]%string.
  rewrite mount_loop_five_fields by reflexivity. reflexivity.
Qed.

Lemma five_field_line_aborts_enumeration_witness :
  mount_output (sample_os (Ret mount_table_five_fields))
  = Ret mount_table_five_fields
  /\ get_disk_partitions (sample_os (Ret mount_table_five_fields)) sample_fs true
     = ([], ["Error getting mount information: list index out of range"%string]).
Proof.
  split; [reflexivity|].
  apply (five_field_line_aborts_enumeration
           (sample_os (Ret mount_table_five_fields)) sample_fs true eq_refl).
Defined.

(** The second line of that table alone is reported. *)
Example well_formed_line_alone_is_reported :
  (get_disk_partitions
     (sample_os (Ret "/dev/sda1 on / type ext4 (rw,relatime)"%string))
     sample_fs false).1
  = [ dict [ ("device", VStr "/dev/sda1"); ("mountpoint", VStr "/");
             ("fstype", VStr "ext4"); ("opts", VStr "rw,relatime");
             ("total_space", VInt 1000000); ("free_space", VInt 750000);
             ("used_space", VInt 250000);
             ("used_percent", VFloat (Finite 25)) ]%string ].
Proof. vm_compute. reflexivity. Qed.

(** A line in the format of macOS's [mount] with two options also has
    exactly five fields. *)
Example five_fields_macos :
  length (PyStr.split "/dev/disk2s1 on /Volumes/USB (msdos, local)") = 5%nat.
Proof. reflexivity. Qed.

(** On the sample system: the line of one field is skipped, [proc] and the
    loop device are kept only with [all_partitions], and a volume whose
    probe fails is reported with zero space fields. *)
Example enumerate_sample :
  map (fun p => p !! "device"%string) (get_disk_partitions demo_os sample_fs false).1
  = [Some (VStr "/dev/sda1")]
  /\ map (fun p => (p !! "device"%string, p !! "total_space"%string))
       (get_disk_partitions demo_os sample_fs true).1
     = [ (Some (VStr "/dev/sda1"), Some (VInt 1000000));
         (Some (VStr "proc"), Some (VInt 0));
         (Some (VStr "/dev/loop0"), Some (VInt 0)) ].
Proof. split; vm_compute; reflexivity. Qed.

(** ** The enumeration, line by line *)

Section LineFacts.

Context (os : os_env) (self : FileSystem).

(** A line of six fields or more gives its entry, unless the denylist
    matches it and [all_partitions] is not set. *)
Lemma mount_line_long (all_partitions : bool) (line : string) :
  (6 <= length (PyStr.split line))%nat ->
  mount_line os self all_partitions line
  = if line_kept all_partitions line
    then Ret ([line_entry os self line],
              (get_drive_space os self
                 (Some (nth 2 (PyStr.split line) ""%string))).2)
    else Ret ([], []).
Proof.
  intros Hlen. unfold mount_line, line_kept, line_entry, list_index.
  replace (6 <=? length (PyStr.split line))%nat with true
    by (symmetry; apply Nat.leb_le; exact Hlen).
  destruct (PyStr.split line) as [|p0 [|p1 [|p2 [|p3 [|p4 [|p5 l]]]]]];
    simpl in Hlen; try lia.
  cbn [length Nat.leb lookup list_lookup mbind res_bind fmap res_fmap nth andb].
  destruct all_partitions; cbn [negb andb orb].
  - destruct (get_drive_space os self (Some p2)) as [space_info printed].
    reflexivity.
  - destruct (is_virtual p4 p0); cbn [negb]; [reflexivity|].
    destruct (get_drive_space os self (Some p2)) as [space_info printed].
    reflexivity.
Qed.

(** The loop appends the entries of the lines it reads and keeps, in their
    order, and prints what their probes print. *)
Lemma mount_loop_lines (all_partitions : bool) (lines : list string) :
  forall partitions out,
    exists e,
      mount_loop os self all_partitions lines partitions out
      = (partitions
         ++ map (line_entry os self)
              (List.filter (line_kept all_partitions) (lines_read lines)),
         out
         ++ concat (map (fun line =>
                      (get_drive_space os self
                         (Some (nth 2 (PyStr.split line) ""%string))).2)
                    (List.filter (line_kept all_partitions) (lines_read lines))),
         e).
Proof.
  induction lines as [|line lines IH]; intros partitions out.
  - exists None. cbn. rewrite !app_nil_r. reflexivity.
  - cbn [mount_loop lines_read].
    destruct (Nat.eqb_spec (length (PyStr.split line)) 5) as [H5|H5].
    + rewrite mount_line_five_fields by exact H5.
      eexists. cbn. rewrite !app_nil_r. reflexivity.
    + cbn [List.filter].
      destruct (Nat.le_gt_cases 6 (length (PyStr.split line))) as [H6|H6].
      * rewrite mount_line_long by exact H6.
        destruct (line_kept all_partitions line).
        -- destruct (IH (partitions ++ [line_entry os self line])
                       (out ++ (get_drive_space os self
                                  (Some (nth 2 (PyStr.split line) ""%string))).2))
             as (e & ->).
           exists e. cbn [map concat]. rewrite <- !app_assoc. reflexivity.
        -- destruct (IH (partitions ++ []) (out ++ [])) as (e & ->).
           exists e. rewrite !app_nil_r. reflexivity.
      * rewrite mount_line_short by lia.
        assert (line_kept all_partitions line = false) as ->.
        { unfold line_kept.
          replace (6 <=? length (PyStr.split line))%nat with false
            by (symmetry; apply Nat.leb_gt; lia).
          reflexivity. }
        destruct (IH (partitions ++ []) (out ++ [])) as (e & ->).
        exists e. rewrite !app_nil_r. reflexivity.
Qed.

(** The entries of the enumeration are those of the lines read and kept. *)
Lemma get_disk_partitions_lines (all_partitions : bool) (text : string) :
  mount_output os = Ret text ->
  (get_disk_partitions os self all_partitions).1
  = map (line_entry os self)
      (List.filter (line_kept all_partitions)
         (lines_read (PyStr.splitlines text))).
Proof.
  intros Hmount. unfold get_disk_partitions. rewrite Hmount.
  destruct (mount_loop_lines all_partitions (PyStr.splitlines text) [] [])
    as (e & ->).
  destruct e; reflexivity.
Qed.


End LineFacts.



(** A line of exactly five fields between two well-formed lines: the line
    before it is reported, the line after it is not read. *)
Example enumerate_reads_up_to_five_fields :
  map (fun p => p !! "device"%string)
    (get_disk_partitions
       (sample_os (Ret ("/dev/sda1 on / type ext4 (rw,relatime)" +:+ LF +:+
                        "/dev/sdb1 on /mnt type ext4" +:+ LF +:+
                        "/dev/sdc1 on /data type ext4 (rw)" +:+ LF)))
       sample_fs false).1
  = [Some (VStr "/dev/sda1")].
Proof. vm_compute. reflexivity. Qed.

(** ** FilesystemStatsCollector *)

Section StatsFacts.

Import Float.

Lemma int_truediv_total (a b : Z) :
  0 < b -> Z.abs a <= 2 ^ 1023 * b ->
  exists q, Float.int_truediv a b = Ret (Finite q).
Proof.
  intros Hb Ha. unfold Float.int_truediv.
  replace (b =? 0) with false by (symmetry; apply Z.eqb_neq; lia).
  rewrite Z.sgn_pos, Z.mul_1_r, Z.abs_eq by lia.
  destruct (b64_round_le a b 1023) as (q & -> & _); [lia..|].
  exists q. reflexivity.
Qed.

Lemma percent_or_zero_total (num den : Z) :
  0 <= den -> (0 < den -> Z.abs num <= 2 ^ 1023 * den) ->
  exists v, percent_or_zero num den = Ret v /\ (den = 0 -> v = VInt 0).
Proof.
  intros Hden Hnum. unfold percent_or_zero.
  destruct (0 <? den) eqn:Hpos.
  - apply Z.ltb_lt in Hpos.
    destruct (int_truediv_total num den Hpos (Hnum Hpos)) as (q & ->).
    eexists. split; [reflexivity | lia].
  - exists (VInt 0). split; [reflexivity | reflexivity].
Qed.

Lemma u64_product_bound (a b c : Z) :
  0 <= a < 2 ^ 64 -> 0 <= b < 2 ^ 64 -> 0 <= c < 2 ^ 64 ->
  0 <= a * c < 2 ^ 128 /\ Z.abs (a * c - b * c) < 2 ^ 128.
Proof.
  intros Ha Hb Hc. change (2 ^ 128) with (2 ^ 64 * 2 ^ 64).
  assert (0 < 2 ^ 64) by reflexivity. nia.
Qed.

Lemma pow_128_1023 : 2 ^ 128 <= 2 ^ 1023.
Proof. apply Z.pow_le_mono_r; lia. Qed.

End StatsFacts.

(** C3: on a raw [statvfs] sample the collector returns the statistics with
    [total_size = total_blocks * fragment_size], the fragment size being
    the block size when the reported one is zero, [free_size] and
    [available_size] likewise, [used_size = total_size - free_size],
    [used_inodes = total_inodes - free_inodes], and a usage percentage that
    is the int 0 when its denominator is 0. *)
Theorem filesystem_stats_derivation (os : os_env) (self : FileSystem)
    (path : option string) (stats : statvfs_result) :
  has_statvfs os = true ->
  os_statvfs os (default (current_dir self) path) = Ret stats ->
  valid_statvfs stats ->
  let fragment_size :=
    if f_frsize stats =? 0 then f_bsize stats else f_frsize stats in
  let total_size := f_blocks stats * fragment_size in
  let free_size := f_bfree stats * fragment_size in
  exists result fs_stats space inode,
    get_filesystem_stats os self path = (result, [])
    /\ result !! "filesystem_stats"%string = Some (VDict fs_stats)
    /\ result !! "space_usage"%string = Some (VDict space)
    /\ result !! "inode_usage"%string = Some (VDict inode)
    /\ fs_stats !! "fragment_size"%string = Some (VInt fragment_size)
    /\ space !! "total_size"%string = Some (VInt total_size)
    /\ space !! "free_size"%string = Some (VInt free_size)
    /\ space !! "available_size"%string
       = Some (VInt (f_bavail stats * fragment_size))
    /\ space !! "used_size"%string = Some (VInt (total_size - free_size))
    /\ inode !! "used_inodes"%string
       = Some (VInt (f_files stats - f_ffree stats))
    /\ (f_files stats = 0 -> inode !! "usage_percent"%string = Some (VInt 0))
    /\ (total_size = 0 -> space !! "usage_percent"%string = Some (VInt 0)).
Proof.
  intros Hhas Hstat Hvalid fragment_size total_size free_size.
  unfold valid_statvfs in Hvalid. rewrite !Forall_cons in Hvalid.
  destruct Hvalid as (Hbs & Hfr & Hbl & Hbf & Hba & Hfi & Hff & Hfa & _).
  assert (0 <= fragment_size < 2 ^ 64) as Hfrag
    by (subst fragment_size; destruct (f_frsize stats =? 0); assumption).
  pose proof pow_128_1023 as Hpow.
  pose proof (u64_product_bound _ _ _ Hbl Hbf Hfrag) as [Htot Hused].
  pose proof (u64_product_bound _ _ _ Hbf Hbf Hfrag) as [Hfree _].
  pose proof (u64_product_bound _ _ _ Hba Hba Hfrag) as [Havail _].
  fold total_size free_size in Htot, Hused, Hfree.
  destruct (percent_or_zero_total (f_files stats - f_ffree stats) (f_files stats))
    as (ip & Hip & Hip0); [lia | intros; assert (2 ^ 64 <= 2 ^ 1023)
                                  by (apply Z.pow_le_mono_r; lia); nia |].
  destruct (human_readable_size_total total_size 2) as (s1 & Hs1); [lia|].
  destruct (human_readable_size_total free_size 2) as (s2 & Hs2); [lia|].
  destruct (human_readable_size_total (f_bavail stats * fragment_size) 2)
    as (s3 & Hs3); [lia|].
  destruct (human_readable_size_total (total_size - free_size) 2)
    as (s4 & Hs4); [lia|].
  destruct (percent_or_zero_total (total_size - free_size) total_size)
    as (up & Hup & Hup0); [lia | intros; nia |].
  unfold get_filesystem_stats. rewrite Hhas, Hstat.
  cbn [fmap res_fmap mbind res_bind].
  fold fragment_size. fold total_size. fold free_size.
  rewrite Hip. cbn [mbind res_bind].
  rewrite Hs1. cbn [mbind res_bind].
  rewrite Hs2. cbn [mbind res_bind].
  rewrite Hs3. cbn [mbind res_bind].
  rewrite Hs4. cbn [mbind res_bind].
  rewrite Hup. cbn [mbind res_bind].
  do 4 eexists. split; [reflexivity|].
  do 8 (split; [reflexivity|]).
  split; [reflexivity|].
  split; [intros H0; rewrite (Hip0 H0); reflexivity|].
  intros H0; rewrite (Hup0 H0); reflexivity.
Qed.

Lemma filesystem_stats_derivation_witness :
  exists result fs_stats space inode,
    get_filesystem_stats demo_os sample_fs (Some "/home"%string) = (result, [])
    /\ result !! "filesystem_stats"%string = Some (VDict fs_stats)
    /\ result !! "space_usage"%string = Some (VDict space)
    /\ result !! "inode_usage"%string = Some (VDict inode)
    /\ fs_stats !! "fragment_size"%string = Some (VInt 4096)
    /\ space !! "total_size"%string = Some (VInt 4096000)
    /\ space !! "free_size"%string = Some (VInt 1638400)
    /\ space !! "available_size"%string = Some (VInt 1228800)
    /\ space !! "used_size"%string = Some (VInt 2457600)
    /\ inode !! "used_inodes"%string = Some (VInt 40)
    /\ (640 = 0 -> inode !! "usage_percent"%string = Some (VInt 0))
    /\ (4096000 = 0 -> space !! "usage_percent"%string = Some (VInt 0)).
Proof.
  refine (filesystem_stats_derivation demo_os sample_fs (Some "/home"%string)
            _ eq_refl eq_refl _).
  unfold valid_statvfs. repeat constructor; vm_compute; congruence.
Defined.

(** On a volume without blocks and inodes both percentages are the int 0. *)
Example stats_zero_denominators :
  match (get_filesystem_stats demo_os sample_fs (Some "/proc"%string)).1
        !! "inode_usage"%string,
        (get_filesystem_stats demo_os sample_fs (Some "/proc"%string)).1
        !! "space_usage"%string with
  | Some (VDict inode), Some (VDict space) =>
      inode !! "usage_percent"%string = Some (VInt 0)
      /\ space !! "usage_percent"%string = Some (VInt 0)
      /\ space !! "total_size_human"%string = Some (VStr "0 B")
  | _, _ => False
  end.
Proof. vm_compute. repeat split. Qed.

(** ** ContentHasher *)

Section HashFacts.

Import Hashlib.

(** The digests of ["abc"] and of the empty string. *)
Example digest_test_vectors :
  hexlify (md5 (list_byte_of_string "abc")) = "900150983cd24fb0d6963f7d28e17f72"%string
  /\ hexlify (sha1 (list_byte_of_string "abc"))
     = "a9993e364706816aba3e25717850c26c9cd0d89d"%string
  /\ hexlify (sha256 (list_byte_of_string "abc"))
     = "ba7816bf8f01cfea414140de5dae2223b00361a396177a9cb410ff61f20015ad"%string
  /\ hexlify (md5 []) = "d41d8cd98f00b204e9800998ecf8427e"%string
  /\ hexlify (sha1 []) = "da39a3ee5e6b4b0d3255bfef95601890afd80709"%string
  /\ hexlify (sha256 [])
     = "e3b0c44298fc1c149afbf4c8996fb92427ae41e4649b934ca495991b7852b855"%string
  /\ hexlify (sha256 (repeat x61 64))
     = "ffe054fe7ae0cb6dc65c3af9b61d5209f439851db43d0ba5997337df154668eb"%string.
Proof. repeat split; vm_compute; reflexivity. Qed.

Lemma hexlify_length (bs : list byte) :
  String.length (hexlify bs) = (2 * length bs)%nat.
Proof. induction bs as [|b bs IH]; simpl; [reflexivity | rewrite IH; lia]. Qed.

Lemma byte_val_range (b : byte) : 0 <= byte_val b < 256.
Proof. destruct b; vm_compute; split; congruence. Qed.

Lemma hex_char_is_hex (d : Z) : 0 <= d < 16 -> is_hex_digit (hex_char d) = true.
Proof.
  intros Hd.
  assert (forallb (fun n => is_hex_digit (hex_char (Z.of_nat n))) (seq 0 16) = true)
    as Hall by (vm_compute; reflexivity).
  rewrite forallb_forall in Hall.
  specialize (Hall (Z.to_nat d)). rewrite Z2Nat.id in Hall by lia.
  apply Hall, in_seq. lia.
Qed.

Lemma hexlify_hex (bs : list byte) :
  Forall (fun c => is_hex_digit c = true) (list_ascii_of_string (hexlify bs)).
Proof.
  induction bs as [|b bs IH]; simpl; [constructor|].
  pose proof (byte_val_range b) as Hb.
  constructor; [|constructor; [|exact IH]]; apply hex_char_is_hex.
  - split; [apply Z.div_pos; lia | apply Z.div_lt_upper_bound; lia].
  - apply Z.mod_pos_bound. lia.
Qed.

Lemma md5_length (msg : list byte) : length (md5 msg) = 16%nat.
Proof.
  unfold md5. destruct (fold_left md5_block _ _) as [[[a b] c] d]. reflexivity.
Qed.

Lemma sha1_length (msg : list byte) : length (sha1 msg) = 20%nat.
Proof.
  unfold sha1. destruct (fold_left sha1_block _ _) as [[[[h0 h1] h2] h3] h4].
  reflexivity.
Qed.

Lemma sha256_step_length (w st : list Z) (i : nat) :
  length st = 8%nat -> length (sha256_step w st i) = 8%nat.
Proof.
  intros H.
  destruct st as [|a [|b [|c [|d [|e [|f [|g [|h [|x st]]]]]]]]]; try discriminate.
  reflexivity.
Qed.

Lemma sha256_block_length (st : list Z) (block : list byte) :
  length st = 8%nat -> length (sha256_block st block) = 8%nat.
Proof.
  intros H. unfold sha256_block, zip_add32.
  rewrite length_map, length_combine, H.
  assert (forall l st', length st' = 8%nat ->
            length (fold_left (sha256_step (sha256_schedule block)) l st') = 8%nat)
    as Hfold.
  { induction l as [|i l IH]; intros st' Hst'; simpl; [exact Hst'|].
    apply IH, sha256_step_length, Hst'. }
  rewrite Hfold by exact H. reflexivity.
Qed.

Lemma sha256_length (msg : list byte) : length (sha256 msg) = 32%nat.
Proof.
  unfold sha256.
  assert (forall l st, length st = 8%nat ->
            length (fold_left sha256_block l st) = 8%nat) as Hfold.
  { induction l as [|b l IH]; intros st Hst; simpl; [exact Hst|].
    apply IH, sha256_block_length, Hst. }
  specialize (Hfold (blocks (pad be_bytes msg)) sha256_H0 eq_refl).
  destruct (fold_left sha256_block _ _)
    as [|a [|b [|c [|d [|e [|f [|g [|h [|x st]]]]]]]]]; try discriminate.
  reflexivity.
Qed.

Lemma hash_funcs_lookup (hash_type : string) (alg : list byte -> list byte) :
  hash_funcs !! hash_type = Some alg ->
  (hash_type = "md5"%string /\ alg = md5)
  \/ (hash_type = "sha1"%string /\ alg = sha1)
  \/ (hash_type = "sha256"%string /\ alg = sha256).
Proof.
  unfold hash_funcs. intros H. apply elem_of_list_to_map_2 in H.
  repeat (apply elem_of_cons in H as [H|H]; [injection H as -> ->; tauto|]).
  apply elem_of_nil in H. contradiction.
Qed.

Lemma digest_length (hash_type : string) (alg : list byte -> list byte)
    (msg : list byte) :
  hash_funcs !! hash_type = Some alg ->
  String.length (hexlify (alg msg)) = digest_hex_length hash_type.
Proof.
  intros H. rewrite hexlify_length.
  destruct (hash_funcs_lookup _ _ H) as [[-> ->]|[[-> ->]|[-> ->]]].
  - rewrite md5_length. reflexivity.
  - rewrite sha1_length. reflexivity.
  - rewrite sha256_length. reflexivity.
Qed.

(** The loop keeps the algorithm of the hash object. *)
Lemma update_from_algorithm (h : hash_obj) (f : file_obj) :
  forall h', update_from h f = Ret h' -> algorithm h' = algorithm h.
Proof.
  apply (update_from_elim
    (fun h f r => forall h', r = Ret h' -> algorithm h' = algorithm h)).
  - intros hash_obj f0 f1 _ _ h' [= <-]. reflexivity.
  - intros hash_obj f0 b chunk f' _ IH _ h' Hh'. apply (IH h' Hh').
  - intros hash_obj f0 e _ _ h' [=].
Qed.

(** Without a fault the loop feeds the whole content of the file, whatever
    the chunk size. *)
Lemma update_from_no_fault (h : hash_obj) (f : file_obj) :
  f_fault f = None ->
  update_from h f
  = Ret {| algorithm := algorithm h; message := message h ++ f_data f |}.
Proof.
  apply (update_from_elim
    (fun h f r => f_fault f = None ->
       r = Ret {| algorithm := algorithm h; message := message h ++ f_data f |})).
  - intros hash_obj f0 f1 Hread _ Hnf. unfold f_read in Hread.
    rewrite Hnf in Hread. injection Hread as Htake _.
    destruct (f_data f0); [|discriminate].
    rewrite app_nil_r. destruct hash_obj. reflexivity.
  - intros hash_obj f0 b chunk f' Hread IH _ Hnf. unfold f_read in Hread.
    rewrite Hnf in Hread. injection Hread as Htake <-.
    rewrite IH by reflexivity. cbn [update algorithm message f_data].
    rewrite <- Htake, <- app_assoc, take_drop. reflexivity.
  - intros hash_obj f0 e Hread _ Hnf. unfold f_read in Hread.
    rewrite Hnf in Hread. discriminate.
Qed.

End HashFacts.

(** C8, as stated, fails: on the sample system a path that is not a file,
    an unsupported algorithm, a file that cannot be opened and a file whose
    second read fails all give the caller the same value, the empty
    string; no failure is typed. *)
Lemma hash_failures_share_one_value :
  os_path_isfile demo_os "/mnt" = false
  /\ hash_funcs !! "crc32"%string = None
  /\ (get_file_hash demo_os "/mnt" "md5").1 = ""%string
  /\ (get_file_hash demo_os "/etc/hostname" "crc32").1 = ""%string
  /\ (get_file_hash demo_os "/locked" "md5").1 = ""%string
  /\ (get_file_hash demo_os "/flaky" "md5").1 = ""%string.
Proof. repeat split; vm_compute; reflexivity. Qed.

(** C8, amended: a path that is not a regular file, an unsupported
    algorithm and a failure to open or read the file are all reported in
    the same way: a message is printed and the empty string is returned. *)
Theorem get_file_hash_failures (os : os_env) (path hash_type : string) :
  (os_path_isfile os path = false ->
     get_file_hash os path hash_type
     = (""%string, ["Error: " +:+ path +:+ " is not a file"]))
  /\ (os_path_isfile os path = true -> hash_funcs !! hash_type = None ->
        get_file_hash os path hash_type
        = (""%string, ["Error: Unsupported hash type '" +:+ hash_type +:+ "'"]))
  /\ (forall alg e,
        os_path_isfile os path = true -> hash_funcs !! hash_type = Some alg ->
        open_rb os path = Raise e
        \/ (exists f, open_rb os path = Ret f
                      /\ update_from (Hashlib.new alg) f = Raise e) ->
        get_file_hash os path hash_type
        = (""%string, ["Error calculating file hash: " +:+ exn_str e])).
Proof.
  unfold get_file_hash. split; [|split].
  - intros ->. reflexivity.
  - intros -> ->. reflexivity.
  - intros alg e -> -> [->|(f & -> & Hread)]; cbn [negb mbind res_bind].
    + reflexivity.
    + rewrite Hread. reflexivity.
Qed.

Lemma get_file_hash_failures_witness :
  get_file_hash demo_os "/mnt" "md5"
  = (""%string, ["Error: /mnt is not a file"%string])
  /\ get_file_hash demo_os "/etc/hostname" "crc32"
     = (""%string, ["Error: Unsupported hash type 'crc32'"%string])
  /\ get_file_hash demo_os "/locked" "sha1"
     = (""%string, ["Error calculating file hash: [Errno 13] Permission denied: '/locked'"%string]).
Proof.
  split; [|split].
  - apply (proj1 (get_file_hash_failures demo_os "/mnt" "md5") eq_refl).
  - apply (proj1 (proj2 (get_file_hash_failures demo_os "/etc/hostname" "crc32"))
             eq_refl eq_refl).
  - apply (proj2 (proj2 (get_file_hash_failures demo_os "/locked" "sha1"))
             Hashlib.sha1 _ eq_refl eq_refl (or_introl eq_refl)).
Defined.

(** C10: [get_file_hash] never raises; in each failure case (the path is
    not a regular file, the algorithm is unknown, the file cannot be opened
    or a read fails) it returns the empty string, and otherwise it returns
    the hexadecimal digest of the bytes read, a string of lower-case
    hexadecimal digits of length 32, 40 or 64 for md5, sha1 and sha256, so
    never the empty string. The cases are exhaustive. *)
Theorem get_file_hash_outcome (os : os_env) (path hash_type : string) :
  let digest := (get_file_hash os path hash_type).1 in
  (os_path_isfile os path = false
   \/ hash_funcs !! hash_type = None
   \/ (exists e, open_rb os path = Raise e)
   \/ (exists alg f e, hash_funcs !! hash_type = Some alg
                       /\ open_rb os path = Ret f
                       /\ update_from (Hashlib.new alg) f = Raise e) ->
   digest = ""%string)
  /\ (forall alg f h,
        os_path_isfile os path = true -> hash_funcs !! hash_type = Some alg ->
        open_rb os path = Ret f -> update_from (Hashlib.new alg) f = Ret h ->
        digest = Hashlib.hexlify (alg (Hashlib.message h))
        /\ (f_fault f = None -> Hashlib.message h = f_data f)
        /\ String.length digest = digest_hex_length hash_type
        /\ In (String.length digest) [32; 40; 64]%nat
        /\ Forall (fun c => is_hex_digit c = true) (list_ascii_of_string digest)
        /\ digest <> ""%string)
  /\ (digest = ""%string \/ String.length digest = digest_hex_length hash_type).
Proof.
  intros digest. subst digest. unfold get_file_hash.
  destruct (os_path_isfile os path) eqn:Hisfile; cbn [negb].
  2: { split; [reflexivity|]. split; [discriminate | left; reflexivity]. }
  destruct (hash_funcs !! hash_type) as [alg|] eqn:Hfunc.
  2: { split; [reflexivity|]. split; [discriminate | left; reflexivity]. }
  destruct (open_rb os path) as [f|e] eqn:Hopen; cbn [mbind res_bind].
  2: { split; [reflexivity|]. split; [discriminate | left; reflexivity]. }
  destruct (update_from (Hashlib.new alg) f) as [h|e] eqn:Hread;
    cbn [mbind res_bind].
  2: { split; [reflexivity|]. split; [|left; reflexivity].
       intros alg' f' h' _ [= <-] [= <-]. rewrite Hread. discriminate. }
  pose proof (update_from_algorithm _ _ _ Hread) as Halg.
  cbn [Hashlib.new Hashlib.algorithm] in Halg.
  assert ((Hashlib.hexdigest h, @nil string).1
          = Hashlib.hexlify (alg (Hashlib.message h))) as Hdig
    by (unfold Hashlib.hexdigest; rewrite Halg; reflexivity).
  pose proof (digest_length hash_type alg (Hashlib.message h) Hfunc) as Hlen.
  rewrite Hdig. split; [|split; [|right; exact Hlen]].
  - intros [[=]|[[=]|[[e [=]]|(alg' & f' & e & [= <-] & [= <-] & He)]]].
    rewrite Hread in He. discriminate.
  - intros alg' f' h' _ [= <-] [= <-] Hh'. rewrite Hread in Hh'.
    injection Hh' as <-.
    split; [reflexivity|]. split.
    { intros Hnf. rewrite (update_from_no_fault _ _ Hnf) in Hread.
      injection Hread as <-. reflexivity. }
    split; [exact Hlen|]. split.
    { rewrite Hlen. unfold digest_hex_length.
      destruct (String.eqb hash_type "md5"); [simpl; tauto|].
      destruct (String.eqb hash_type "sha1"); simpl; tauto. }
    split; [apply hexlify_hex|].
    intros Hempty. rewrite Hempty in Hlen. unfold digest_hex_length in Hlen.
    destruct (String.eqb hash_type "md5"); [discriminate|].
    destruct (String.eqb hash_type "sha1"); discriminate.
Qed.

Lemma get_file_hash_outcome_witness :
  (get_file_hash demo_os "/mnt" "sha256").1 = ""%string
  /\ (get_file_hash demo_os "/etc/hostname" "sha256").1
     = "ba7816bf8f01cfea414140de5dae2223b00361a396177a9cb410ff61f20015ad"%string
  /\ String.length (get_file_hash demo_os "/etc/hostname" "sha256").1 = 64%nat.
Proof.
  split; [|split].
  - apply (proj1 (get_file_hash_outcome demo_os "/mnt" "sha256")).
    left. reflexivity.
  - refine (_ (proj1 (proj1 (proj2 (get_file_hash_outcome demo_os "/etc/hostname" "sha256"))
                 Hashlib.sha256 _ _ eq_refl eq_refl eq_refl eq_refl))).
    intros ->. vm_compute. reflexivity.
  - apply (proj1 (proj2 (proj2 (proj1 (proj2
             (get_file_hash_outcome demo_os "/etc/hostname" "sha256"))
             Hashlib.sha256 _ _ eq_refl eq_refl eq_refl eq_refl)))).
Defined.

(** ** More on rounding to binary64 *)

Section FloatBounds.

Import Float.

Lemma b64_exponent_le_normal (a b j : Z) :
  a <> 0 -> 0 < b -> 0 <= j -> Z.abs a <= 2 ^ j * b ->
  b64_exponent a b <= Z.max (j - 52) (-1074).
Proof.
  intros Ha Hb Hj Hle. unfold b64_exponent.
  assert (Z.log2 (Z.abs a) <= j + Z.log2 b) as Hlog.
  { rewrite <- Z.log2_mul_pow2 by lia. apply Z.log2_le_mono. lia. }
  destruct (_ <? _); lia.
Qed.

(** A quotient between [- c] and [c], for an integer [c] up to [2^52],
    rounds to a finite float between [- c] and [c]. *)
Lemma b64_round_le_int (a b c : Z) :
  0 < b -> 0 <= c <= 2 ^ 52 -> Z.abs a <= c * b ->
  exists q, b64_round a b = Finite q
            /\ (inject_Z (- c) <= q)%Q /\ (q <= inject_Z c)%Q.
Proof.
  intros Hb Hc Hle. unfold b64_round.
  destruct (a =? 0) eqn:Ha.
  { exists 0%Q. split; [reflexivity|]. split.
    - change 0%Q with (inject_Z 0). rewrite <- Zle_Qle. lia.
    - change 0%Q with (inject_Z 0). rewrite <- Zle_Qle. lia. }
  apply Z.eqb_neq in Ha.
  set (e := b64_exponent a b).
  set (m := round_half_even (scaled_num a e) (scaled_den b e)).
  assert (e <= 0) as He.
  { pose proof (b64_exponent_le_normal a b 52 Ha Hb ltac:(lia) ltac:(nia)). lia. }
  pose proof (scaled_num_pos e) as HP.
  assert (scaled_den 1 e = 1 \/ (e = 0 /\ scaled_den 1 e = 1)) as HR.
  { unfold scaled_den. destruct (0 <=? e) eqn:Hs; [|left; reflexivity].
    apply Z.leb_le in Hs. assert (e = 0) as -> by lia. left. reflexivity. }
  assert (scaled_den 1 e = 1) as HR1 by (destruct HR as [H|[_ H]]; exact H).
  assert (scaled_num a e = a * scaled_num 1 e) as HN by apply scaled_num_mul.
  assert (scaled_den b e = b) as HD by (rewrite scaled_den_mul, HR1; lia).
  set (P := scaled_num 1 e) in *.
  assert (a * P <= (c * b) * P) as Hau
    by (apply Z.mul_le_mono_nonneg_r; lia).
  assert (- (c * b) * P <= a * P) as Hal
    by (apply Z.mul_le_mono_nonneg_r; lia).
  assert (m <= c * P) as Hup.
  { subst m. rewrite HN, HD. apply round_half_even_upper; [lia|].
    replace (c * P * b) with (c * b * P) by ring. exact Hau. }
  assert (- (c * P) <= m) as Hlo.
  { subst m. rewrite HN, HD. apply round_half_even_lower; [lia|].
    replace (- (c * P) * b) with (- (c * b) * P) by ring. exact Hal. }
  assert ((0 <=? e) && (2 ^ 1024 <=? Z.abs m * 2 ^ e) = false) as ->.
  { destruct (0 <=? e) eqn:Hs; [|reflexivity]. simpl.
    apply Z.leb_le in Hs. assert (e = 0) as He0 by lia.
    apply Z.leb_gt. assert (P = 1) as HP1 by (subst P; rewrite He0; reflexivity).
    rewrite He0. change (2 ^ 0) with 1.
    assert (2 ^ 52 < 2 ^ 1024) by (apply Z.pow_lt_mono_r; lia). lia. }
  exists (dyadic m e). split; [reflexivity|]. split.
  - apply dyadic_ge. rewrite HR1. fold P. lia.
  - apply dyadic_le. rewrite HR1. fold P. lia.
Qed.

(** A quotient that is not negative does not round to a negative float. *)
Lemma b64_round_nonneg (a b : Z) :
  0 < b -> 0 <= a ->
  match b64_round a b with
  | Finite q => (0 <= q)%Q
  | Inf s => s = false
  | NaN => False
  end.
Proof.
  intros Hb Ha. unfold b64_round.
  destruct (a =? 0) eqn:Ha0; [apply Qle_refl|].
  set (e := b64_exponent a b).
  set (m := round_half_even (scaled_num a e) (scaled_den b e)).
  destruct (_ && _); [apply Z.ltb_ge; lia|].
  pose proof (scaled_num_pos e) as HP. pose proof (scaled_den_pos e) as HR.
  assert (0 <= m).
  { apply round_half_even_lower.
    - rewrite scaled_den_mul. nia.
    - rewrite scaled_num_mul. nia. }
  change 0%Q with (inject_Z 0). apply dyadic_ge. nia.
Qed.

(** A ratio in [[0, 1]], as a percentage rounded to two places, is in
    [[0, 100]]. *)
Lemma ratio_in_unit (a b : Z) :
  0 < b -> 0 <= a <= b ->
  exists q, Float.int_truediv a b = Ret (Finite q) /\ (0 <= q)%Q /\ (q <= 1)%Q.
Proof.
  intros Hb Ha. unfold Float.int_truediv.
  replace (b =? 0) with false by (symmetry; apply Z.eqb_neq; lia).
  rewrite Z.sgn_pos, Z.mul_1_r, Z.abs_eq by lia.
  destruct (b64_round_le_int a b 1) as (q & Hq & _ & Hup);
    [lia | split; [lia | vm_compute; discriminate] | lia |].
  pose proof (b64_round_nonneg a b Hb ltac:(lia)) as Hnn.
  rewrite Hq in *. exists q. auto.
Qed.

Lemma times_100_in_range (q : Q) :
  (0 <= q)%Q -> (q <= 1)%Q ->
  exists p, Float.mul (Finite q) (Finite 100) = Finite p
            /\ (0 <= p)%Q /\ (p <= 100)%Q.
Proof.
  intros Hlo Hup. unfold Float.mul, b64_of_Q.
  unfold Qle in Hlo, Hup. simpl in Hlo, Hup.
  set (a := Qnum (q * 100)). set (b := Z.pos (Qden (q * 100))).
  assert (a = Qnum q * 100) as Ha by reflexivity.
  assert (b = Z.pos (Qden q)) as Hb by (subst b; simpl; lia).
  destruct (b64_round_le_int a b 100) as (p & Hp & _ & Hpup);
    [lia | split; [lia | vm_compute; discriminate] | lia |].
  pose proof (b64_round_nonneg a b ltac:(lia) ltac:(lia)) as Hnn.
  rewrite Hp in *. exists p. auto.
Qed.

Lemma py_round_2_in_range (p : Q) :
  (0 <= p)%Q -> (p <= 100)%Q ->
  exists r, py_round (Finite p) 2 = Finite r /\ (0 <= r)%Q /\ (r <= 100)%Q.
Proof.
  intros Hlo Hup. unfold py_round.
  unfold Qle in Hlo, Hup. simpl in Hlo, Hup.
  change (10 ^ Z.of_nat 2) with 100.
  set (n := round_half_even (Qnum p * 100) (Z.pos (Qden p))).
  assert (0 <= n) by (apply round_half_even_lower; lia).
  assert (n <= 10000) by (apply round_half_even_upper; lia).
  destruct (b64_round_le_int n 100 100) as (r & Hr & _ & Hrup);
    [lia | split; [lia | vm_compute; discriminate] | lia |].
  pose proof (b64_round_nonneg n 100 ltac:(lia) ltac:(lia)) as Hnn.
  rewrite Hr in *. exists r. auto.
Qed.

End FloatBounds.

(** ** More on the volume space probe *)

(** The result of the probe on a volume of positive capacity. *)
Lemma get_drive_space_ok (os : os_env) (self : FileSystem) (path : string)
    (total used free : Z) :
  shutil_disk_usage os path = Ret (total, used, free) ->
  0 < total < 2 ^ 64 -> 0 <= used < 2 ^ 64 -> 0 <= free < 2 ^ 64 ->
  exists total_human used_human free_human ratio,
    _human_readable_size (Some total) 2 = Ret total_human
    /\ _human_readable_size (Some used) 2 = Ret used_human
    /\ _human_readable_size (Some free) 2 = Ret free_human
    /\ Float.int_truediv used total = Ret (Finite ratio)
    /\ get_drive_space os self (Some path)
       = (dict [ ("total", VInt total);
                 ("total_human", VStr total_human);
                 ("used", VInt used);
                 ("used_human", VStr used_human);
                 ("free", VInt free);
                 ("free_human", VStr free_human);
                 ("used_percent",
                   VFloat (py_round (Float.mul (Finite ratio) (Finite 100)) 2))
               ]%string, []).
Proof.
  intros Hprobe Ht Hu Hf.
  assert (2 ^ 64 <= 2 ^ 1023) as Hpow by (apply Z.pow_le_mono_r; lia).
  destruct (human_readable_size_total total 2) as (th & Hth); [lia|].
  destruct (human_readable_size_total used 2) as (uh & Huh); [lia|].
  destruct (human_readable_size_total free 2) as (fh & Hfh); [lia|].
  destruct (int_truediv_total used total) as (ratio & Hratio); [lia | nia |].
  exists th, uh, fh, ratio. repeat (split; [assumption|]).
  unfold get_drive_space. cbn [from_option id]. rewrite Hprobe.
  cbn [mbind res_bind]. rewrite Hth. cbn [mbind res_bind].
  rewrite Huh. cbn [mbind res_bind]. rewrite Hfh. cbn [mbind res_bind].
  rewrite Hratio. reflexivity.
Qed.

(** The result of the probe on a volume of capacity 0. *)
Lemma get_drive_space_zero (os : os_env) (self : FileSystem) (path : string)
    (used free : Z) :
  shutil_disk_usage os path = Ret (0, used, free) ->
  0 <= used < 2 ^ 64 -> 0 <= free < 2 ^ 64 ->
  (get_drive_space os self (Some path)).1 = ∅.
Proof.
  intros Hprobe Hu Hf.
  assert (2 ^ 64 <= 2 ^ 1023) as Hpow by (apply Z.pow_le_mono_r; lia).
  destruct (human_readable_size_total used 2) as (uh & Huh); [lia|].
  destruct (human_readable_size_total free 2) as (fh & Hfh); [lia|].
  unfold get_drive_space. cbn [from_option id]. rewrite Hprobe.
  cbn [mbind res_bind]. rewrite Huh, Hfh. reflexivity.
Qed.

(** X1: for byte counts as the operating system reports them, the probe
    returns the empty dict exactly when the capacity is 0; otherwise it
    prints nothing and returns the three raw counts and their renderings
    by [_human_readable_size]. *)
Theorem get_drive_space_counts (os : os_env) (self : FileSystem)
    (path : string) (total used free : Z) :
  shutil_disk_usage os path = Ret (total, used, free) ->
  0 <= total < 2 ^ 64 -> 0 <= used < 2 ^ 64 -> 0 <= free < 2 ^ 64 ->
  let space_info := (get_drive_space os self (Some path)).1 in
  (space_info = ∅ <-> total = 0)
  /\ (total <> 0 ->
      (get_drive_space os self (Some path)).2 = []
      /\ space_info !! "total"%string = Some (VInt total)
      /\ space_info !! "used"%string = Some (VInt used)
      /\ space_info !! "free"%string = Some (VInt free)
      /\ (VStr <$> _human_readable_size (Some total) 2)
         = Ret (dict_get space_info "total_human" (VInt 0))
      /\ (VStr <$> _human_readable_size (Some used) 2)
         = Ret (dict_get space_info "used_human" (VInt 0))
      /\ (VStr <$> _human_readable_size (Some free) 2)
         = Ret (dict_get space_info "free_human" (VInt 0))).
Proof.
  intros Hprobe Ht Hu Hf space_info.
  destruct (Z.eq_dec total 0) as [->|Hnz].
  - split; [|intros H; contradiction].
    subst space_info. split; [reflexivity|]. intros _.
    exact (get_drive_space_zero os self path used free Hprobe Hu Hf).
  - destruct (get_drive_space_ok os self path total used free Hprobe)
      as (th & uh & fh & ratio & Hth & Huh & Hfh & _ & Hres); [lia..|].
    subst space_info. rewrite Hres, Hth, Huh, Hfh. cbn [fst snd].
    split.
    + split; [|intros H; contradiction].
      intros Hempty.
      assert (dict [ ("total", VInt total); ("total_human", VStr th);
                     ("used", VInt used); ("used_human", VStr uh);
                     ("free", VInt free); ("free_human", VStr fh);
                     ("used_percent",
                       VFloat (py_round (Float.mul (Finite ratio) (Finite 100)) 2))
                   ]%string !! "total"%string = Some (VInt total)) as Hl
        by reflexivity.
      rewrite Hempty in Hl. discriminate.
    + intros _. repeat split.
Qed.

Lemma get_drive_space_counts_witness :
  (get_drive_space demo_os sample_fs (Some "/"%string)).1 !! "total"%string
  = Some (VInt 1000000)
  /\ (get_drive_space demo_os sample_fs (Some "/"%string)).1 !! "free"%string
     = Some (VInt 750000).
Proof.
  pose proof (get_drive_space_counts demo_os sample_fs "/" 1000000 250000 750000
                eq_refl ltac:(split; [discriminate | reflexivity])
                ltac:(split; [discriminate | reflexivity])
                ltac:(split; [discriminate | reflexivity])) as H.
  destruct H as [_ H]. specialize (H ltac:(discriminate)).
  destruct H as (_ & Htotal & _ & Hfree & _). split; [exact Htotal | exact Hfree].
Defined.

(** X2: when the used count does not exceed a positive capacity, the
    percentage of the result is a finite float between 0 and 100. *)
Theorem used_percent_in_range (os : os_env) (self : FileSystem)
    (path : string) (total used free : Z) :
  shutil_disk_usage os path = Ret (total, used, free) ->
  0 < total < 2 ^ 64 -> 0 <= used <= total -> 0 <= free < 2 ^ 64 ->
  exists q,
    (get_drive_space os self (Some path)).1 !! "used_percent"%string
    = Some (VFloat (Finite q))
    /\ (0 <= q)%Q /\ (q <= 100)%Q.
Proof.
  intros Hprobe Ht Hu Hf.
  destruct (get_drive_space_ok os self path total used free Hprobe)
    as (th & uh & fh & ratio & _ & _ & _ & Hratio & Hres); [lia..|].
  destruct (ratio_in_unit used total) as (q0 & Hq0 & Hlo0 & Hup0); [lia..|].
  rewrite Hq0 in Hratio. injection Hratio as <-.
  destruct (times_100_in_range q0 Hlo0 Hup0) as (p & Hp & Hlop & Hupp).
  destruct (py_round_2_in_range p Hlop Hupp) as (r & Hr & Hlor & Hupr).
  exists r. rewrite Hres, Hp, Hr. split; [reflexivity | auto].
Qed.

Lemma used_percent_in_range_witness :
  exists q,
    (get_drive_space demo_os sample_fs (Some "/"%string)).1 !! "used_percent"%string
    = Some (VFloat (Finite q))
    /\ (0 <= q)%Q /\ (q <= 100)%Q.
Proof.
  apply (used_percent_in_range demo_os sample_fs "/" 1000000 250000 750000 eq_refl).
  - split; reflexivity.
  - split; discriminate.
  - split; [discriminate | reflexivity].
Defined.

(** ** More on the partition enumerator *)

Section EnumerationFacts.

Context (os : os_env) (self : FileSystem).

(** What a line contributes: nothing, or one entry made of its fields 0, 2,
    4 and 5 and of the probe of its mount point. *)
Lemma mount_line_result (all_partitions : bool) (line : string)
    (new : list (gmap string pyval)) (out : list string) :
  mount_line os self all_partitions line = Ret (new, out) ->
  (new = [] /\ out = [])
  \/ exists device mountpoint fstype opts,
       PyStr.split line !! 0%nat = Some device
       /\ PyStr.split line !! 2%nat = Some mountpoint
       /\ PyStr.split line !! 4%nat = Some fstype
       /\ PyStr.split line !! 5%nat = Some opts
       /\ out = (get_drive_space os self (Some mountpoint)).2
       /\ new =
          [ dict [ ("device", VStr device);
                   ("mountpoint", VStr mountpoint);
                   ("fstype", VStr fstype);
                   ("opts", VStr (PyStr.strip "()" opts));
                   ("total_space",
                     dict_get (get_drive_space os self (Some mountpoint)).1
                       "total" (VInt 0));
                   ("free_space",
                     dict_get (get_drive_space os self (Some mountpoint)).1
                       "free" (VInt 0));
                   ("used_space",
                     dict_get (get_drive_space os self (Some mountpoint)).1
                       "used" (VInt 0));
                   ("used_percent",
                     dict_get (get_drive_space os self (Some mountpoint)).1
                       "used_percent" (VInt 0)) ]%string ].
Proof.
  unfold mount_line, list_index.
  destruct (5 <=? length (PyStr.split line))%nat; [|intros [= <- <-]; left; auto].
  destruct (PyStr.split line !! 0%nat) as [device|]; [|discriminate].
  destruct (PyStr.split line !! 2%nat) as [mountpoint|]; [|discriminate].
  destruct (PyStr.split line !! 4%nat) as [fstype|]; [|discriminate].
  destruct (PyStr.split line !! 5%nat) as [opts|]; [|discriminate].
  cbn [mbind res_bind fmap res_fmap].
  destruct (negb all_partitions && is_virtual fstype device);
    [intros [= <- <-]; left; auto|].
  destruct (get_drive_space os self (Some mountpoint))
    as [space_info printed] eqn:Hprobe.
  intros [= <- <-]. right. exists device, mountpoint, fstype, opts.
  rewrite Hprobe. repeat split.
Qed.

(** With [all_partitions], a line of at least six fields contributes its
    entry. *)
Lemma mount_line_six_fields (line : string) :
  (6 <= length (PyStr.split line))%nat ->
  exists p,
    mount_line os self true line
    = Ret ([p], (get_drive_space os self
                   (Some (nth 2 (PyStr.split line) ""%string))).2)
    /\ p !! "device"%string = Some (VStr (nth 0 (PyStr.split line) ""%string))
    /\ p !! "mountpoint"%string = Some (VStr (nth 2 (PyStr.split line) ""%string))
    /\ p !! "fstype"%string = Some (VStr (nth 4 (PyStr.split line) ""%string))
    /\ p !! "opts"%string
       = Some (VStr (PyStr.strip "()" (nth 5 (PyStr.split line) ""%string))).
Proof.
  intros Hlen. unfold mount_line, list_index.
  destruct (PyStr.split line) as [|p0 [|p1 [|p2 [|p3 [|p4 [|p5 l]]]]]];
    simpl in Hlen; try lia.
  cbn [length Nat.leb lookup list_lookup mbind res_bind fmap res_fmap negb andb nth].
  destruct (get_drive_space os self (Some p2)) as [space_info printed].
  eexists. split; [reflexivity|]. repeat split.
Qed.

(** A property of every entry a line contributes is a property of every
    entry of the enumeration. *)
Lemma mount_loop_Forall (Q : gmap string pyval -> Prop) (all_partitions : bool)
    (lines : list string) :
  (forall line new out,
     mount_line os self all_partitions line = Ret (new, out) -> Forall Q new) ->
  forall partitions out,
    Forall Q partitions ->
    Forall Q (mount_loop os self all_partitions lines partitions out).1.1.
Proof.
  intros Hline. induction lines as [|line lines IH]; intros partitions out HP.
  - exact HP.
  - cbn [mount_loop].
    destruct (mount_line os self all_partitions line) as [[new printed]|e] eqn:Hl.
    + apply IH. apply Forall_app. split; [exact HP | eapply Hline, Hl].
    + exact HP.
Qed.

Lemma get_disk_partitions_Forall (Q : gmap string pyval -> Prop)
    (all_partitions : bool) :
  (forall line new out,
     mount_line os self all_partitions line = Ret (new, out) -> Forall Q new) ->
  Forall Q (get_disk_partitions os self all_partitions).1.
Proof.
  intros Hline. unfold get_disk_partitions.
  destruct (mount_output os) as [text|e]; [|constructor].
  pose proof (mount_loop_Forall Q all_partitions (PyStr.splitlines text) Hline
                [] [] ltac:(constructor)) as H.
  destruct (mount_loop os self all_partitions (PyStr.splitlines text) [] [])
    as [[partitions out] [e|]]; exact H.
Qed.

(** Without a line of exactly five fields the loop reads every line. *)
Lemma mount_loop_complete (lines : list string) :
  Forall (fun line => length (PyStr.split line) <> 5%nat) lines ->
  forall partitions out,
    exists new,
      mount_loop os self true lines partitions out
      = (partitions ++ new,
         out ++ concat (map (fun line =>
                  (get_drive_space os self
                     (Some (nth 2 (PyStr.split line) ""%string))).2)
                (List.filter (fun line => (6 <=? length (PyStr.split line))%nat)
                   lines)),
         None)
      /\ Forall2 (fun line p =>
           p !! "device"%string = Some (VStr (nth 0 (PyStr.split line) ""%string))
           /\ p !! "mountpoint"%string
              = Some (VStr (nth 2 (PyStr.split line) ""%string))
           /\ p !! "fstype"%string = Some (VStr (nth 4 (PyStr.split line) ""%string))
           /\ p !! "opts"%string
              = Some (VStr (PyStr.strip "()" (nth 5 (PyStr.split line) ""%string))))
         (List.filter (fun line => (6 <=? length (PyStr.split line))%nat) lines)
         new.
Proof.
  induction 1 as [|line lines Hline Hlines IH]; intros partitions out.
  - exists []. cbn. rewrite !app_nil_r. split; [reflexivity | constructor].
  - cbn [mount_loop List.filter].
    destruct (6 <=? length (PyStr.split line))%nat eqn:H6.
    + apply Nat.leb_le in H6.
      destruct (mount_line_six_fields line H6) as (p & -> & Hp).
      destruct (IH (partitions ++ [p])
                  (out ++ (get_drive_space os self
                             (Some (nth 2 (PyStr.split line) ""%string))).2))
        as (new & -> & Hnew).
      exists (p :: new). cbn [map concat]. rewrite <- !app_assoc.
      split; [reflexivity|]. constructor; assumption.
    + apply Nat.leb_gt in H6.
      rewrite mount_line_short by lia.
      destruct (IH (partitions ++ []) (out ++ [])) as (new & -> & Hnew).
      exists new. rewrite !app_nil_r. split; [reflexivity | exact Hnew].
Qed.

End EnumerationFacts.

(** X3: when no line of the mount table has exactly five fields, the
    enumeration with [all_partitions] yields one entry for each line of six
    or more fields, in the order of the lines, with the device, the mount
    point, the type and the options taken from fields 0, 2, 4 and 5 (the
    options without their parentheses); the lines with fewer fields add
    nothing, and the only text printed is what the probes print. *)
Theorem enumerate_one_entry_per_line (os : os_env) (self : FileSystem)
    (text : string) :
  mount_output os = Ret text ->
  Forall (fun line => length (PyStr.split line) <> 5%nat) (PyStr.splitlines text) ->
  let long_lines :=
    List.filter (fun line => (6 <=? length (PyStr.split line))%nat)
      (PyStr.splitlines text) in
  map (fun p => (p !! "device"%string, p !! "mountpoint"%string,
                 p !! "fstype"%string, p !! "opts"%string))
    (get_disk_partitions os self true).1
  = map (fun line =>
           let parts := PyStr.split line in
           (Some (VStr (nth 0 parts ""%string)), Some (VStr (nth 2 parts ""%string)),
            Some (VStr (nth 4 parts ""%string)),
            Some (VStr (PyStr.strip "()" (nth 5 parts ""%string)))))
      long_lines
  /\ (get_disk_partitions os self true).2
     = concat (map (fun line =>
                  (get_drive_space os self
                     (Some (nth 2 (PyStr.split line) ""%string))).2)
               long_lines).
Proof.
  intros Hmount Hlines long_lines. unfold get_disk_partitions. rewrite Hmount.
  destruct (mount_loop_complete os self (PyStr.splitlines text) Hlines [] [])
    as (new & -> & Hnew).
  cbn [fst snd app]. split; [|reflexivity].
  fold long_lines in Hnew. clearbody long_lines.
  induction Hnew as [|line p lines new (Hd & Hm & Hf & Ho) _ IH]; [reflexivity|].
  cbn [map]. rewrite Hd, Hm, Hf, Ho, IH. reflexivity.
Qed.

Lemma enumerate_one_entry_per_line_witness :
  map (fun p => (p !! "device"%string, p !! "mountpoint"%string,
                 p !! "fstype"%string, p !! "opts"%string))
    (get_disk_partitions demo_os sample_fs true).1
  = [ (Some (VStr "/dev/sda1"), Some (VStr "/"), Some (VStr "ext4"),
       Some (VStr "rw,relatime"));
      (Some (VStr "proc"), Some (VStr "/proc"), Some (VStr "proc"),
       Some (VStr "rw,nosuid"));
      (Some (VStr "/dev/loop0"), Some (VStr "/snap"), Some (VStr "squashfs"),
       Some (VStr "ro")) ].
Proof.
  refine (proj1 (enumerate_one_entry_per_line demo_os sample_fs mount_table_ok
                   eq_refl _)).
  repeat constructor; vm_compute; discriminate.
Defined.

(** ** Fields of the mount table *)

Section FieldFacts.

Lemma snoc_nonempty (w : string) (c : ascii) : PyStr.snoc w c <> EmptyString.
Proof. destruct w; discriminate. Qed.

Lemma no_space_snoc (w : string) (c : ascii) :
  no_space (PyStr.snoc w c) = no_space w && negb (PyStr.is_space c).
Proof.
  induction w as [|d w IH]; simpl.
  - rewrite andb_true_r. reflexivity.
  - unfold PyStr.snoc in IH. rewrite IH, andb_assoc. reflexivity.
Qed.

Lemma split_go_fields (s : string) :
  forall word,
    (forall w, word = Some w -> w <> EmptyString /\ no_space w = true) ->
    Forall (fun w => w <> EmptyString /\ no_space w = true) (PyStr.split_go s word).
Proof.
  induction s as [|c s IH]; intros word Hword; simpl.
  - destruct word as [w|]; [|constructor].
    constructor; [apply Hword; reflexivity | constructor].
  - destruct (PyStr.is_space c) eqn:Hc.
    + destruct word as [w|].
      * constructor; [apply Hword; reflexivity|]. apply IH. discriminate.
      * apply IH. discriminate.
    + destruct word as [w|]; apply IH; intros w' [= <-].
      * destruct (Hword w eq_refl) as [_ Hw].
        split; [apply snoc_nonempty|]. rewrite no_space_snoc, Hw, Hc. reflexivity.
      * split; [discriminate|]. simpl. rewrite Hc. reflexivity.
Qed.

(** The fields of [split] are not empty and hold no whitespace. *)
Lemma split_fields (s : string) :
  Forall (fun w => w <> EmptyString /\ no_space w = true) (PyStr.split s).
Proof. apply split_go_fields. discriminate. Qed.

Lemma lstrip_head (chars s : string) :
  match PyStr.lstrip chars s with
  | EmptyString => True
  | String c _ => PyStr.mem c chars = false
  end.
Proof.
  induction s as [|c s IH]; simpl; [exact I|].
  destruct (PyStr.mem c chars) eqn:Hc; [exact IH | exact Hc].
Qed.

Lemma lstrip_stable (chars s : string) :
  match s with
  | EmptyString => True
  | String c _ => PyStr.mem c chars = false
  end ->
  PyStr.lstrip chars s = s.
Proof. destruct s as [|c s]; simpl; [reflexivity | intros ->; reflexivity]. Qed.

Lemma rstrip_head (chars : string) (c : ascii) (s : string) :
  PyStr.mem c chars = false ->
  exists r, PyStr.rstrip chars (String c s) = String c r.
Proof.
  intros Hc. simpl. destruct (PyStr.rstrip chars s); rewrite ?Hc; eauto.
Qed.

Lemma rstrip_idempotent (chars s : string) :
  PyStr.rstrip chars (PyStr.rstrip chars s) = PyStr.rstrip chars s.
Proof.
  induction s as [|c s IH]; simpl; [reflexivity|].
  destruct (PyStr.rstrip chars s) as [|d r] eqn:Hr.
  - destruct (PyStr.mem c chars) eqn:Hc; simpl; [reflexivity|].
    rewrite Hc. reflexivity.
  - cbn [PyStr.rstrip] in *. rewrite IH. reflexivity.
Qed.

(** Stripping twice is stripping once. *)
Lemma strip_idempotent (chars s : string) :
  PyStr.strip chars (PyStr.strip chars s) = PyStr.strip chars s.
Proof.
  unfold PyStr.strip.
  assert (PyStr.lstrip chars (PyStr.rstrip chars (PyStr.lstrip chars s))
          = PyStr.rstrip chars (PyStr.lstrip chars s)) as ->.
  { apply lstrip_stable. pose proof (lstrip_head chars s) as Hh.
    destruct (PyStr.lstrip chars s) as [|c t]; [exact I|].
    destruct (rstrip_head chars c t Hh) as (r & ->). exact Hh. }
  apply rstrip_idempotent.
Qed.

Lemma lstrip_no_space (chars s : string) :
  no_space s = true -> no_space (PyStr.lstrip chars s) = true.
Proof.
  induction s as [|c s IH]; simpl; [reflexivity|].
  intros H. apply andb_true_iff in H as [Hc Hs].
  destruct (PyStr.mem c chars); [apply IH, Hs|].
  simpl. rewrite Hc, Hs. reflexivity.
Qed.

Lemma rstrip_no_space (chars s : string) :
  no_space s = true -> no_space (PyStr.rstrip chars s) = true.
Proof.
  induction s as [|c s IH]; simpl; [reflexivity|].
  intros H. apply andb_true_iff in H as [Hc Hs]. specialize (IH Hs).
  destruct (PyStr.rstrip chars s) as [|d r].
  - destruct (PyStr.mem c chars); simpl; [reflexivity|].
    rewrite Hc. reflexivity.
  - cbn [no_space] in *. rewrite Hc, IH. reflexivity.
Qed.

Lemma strip_no_space (chars s : string) :
  no_space s = true -> no_space (PyStr.strip chars s) = true.
Proof. intros H. apply rstrip_no_space, lstrip_no_space, H. Qed.

End FieldFacts.

(** The space fields of the entry of a line: those of the probe of its
    mount point. *)
Lemma line_entry_space (os : os_env) (self : FileSystem) (line : string) :
  let p := line_entry os self line in
  let mountpoint := nth 2 (PyStr.split line) ""%string in
  p !! "mountpoint"%string = Some (VStr mountpoint)
  /\ match shutil_disk_usage os mountpoint with
     | Raise _ => zero_space_fields p
     | Ret (total, used, free) =>
         0 <= total < 2 ^ 64 -> 0 <= used < 2 ^ 64 -> 0 <= free < 2 ^ 64 ->
         if total =? 0 then zero_space_fields p
         else p !! "total_space"%string = Some (VInt total)
              /\ p !! "free_space"%string = Some (VInt free)
              /\ p !! "used_space"%string = Some (VInt used)
              /\ exists x, p !! "used_percent"%string = Some (VFloat x)
     end.
Proof.
  intros p mountpoint. subst p. unfold line_entry. fold mountpoint.
  split; [reflexivity|].
  destruct (shutil_disk_usage os mountpoint) as [[[total used] free]|e] eqn:Hprobe.
  - intros Ht Hu Hf. destruct (Z.eqb_spec total 0) as [->|Hnz].
    + assert ((get_drive_space os self (Some mountpoint)).1 = ∅) as ->.
      { apply (get_drive_space_zero os self mountpoint used free Hprobe); lia. }
      repeat split.
    + destruct (get_drive_space_ok os self mountpoint total used free Hprobe)
        as (th & uh & fh & ratio & _ & _ & _ & _ & ->); [lia..|].
      repeat split. eexists. reflexivity.
  - rewrite (get_drive_space_probe_failure os self mountpoint e Hprobe).
    repeat split.
Qed.

(** X4: every line of the mount table that is read and kept (six fields or
    more and, without [all_partitions], not matched by the denylist) has
    its entry in the enumeration, in the order of the lines and whatever
    the probe of its mount point (field 2) does, and the enumeration has no
    other entry. The entry carries the result of that probe: the raw counts
    and a float percentage when the probe succeeds on a volume of positive
    capacity, and the int 0 in all four space fields when the probe fails
    or the capacity is 0. *)
Theorem entry_space_fields (os : os_env) (self : FileSystem)
    (all_partitions : bool) (text : string) :
  mount_output os = Ret text ->
  Forall2
    (fun line p =>
       let mountpoint := nth 2 (PyStr.split line) ""%string in
       p !! "mountpoint"%string = Some (VStr mountpoint)
       /\ match shutil_disk_usage os mountpoint with
          | Raise _ => zero_space_fields p
          | Ret (total, used, free) =>
              0 <= total < 2 ^ 64 -> 0 <= used < 2 ^ 64 -> 0 <= free < 2 ^ 64 ->
              if total =? 0 then zero_space_fields p
              else p !! "total_space"%string = Some (VInt total)
                   /\ p !! "free_space"%string = Some (VInt free)
                   /\ p !! "used_space"%string = Some (VInt used)
                   /\ exists x, p !! "used_percent"%string = Some (VFloat x)
          end)
    (List.filter
       (fun line =>
          let parts := PyStr.split line in
          (6 <=? length parts)%nat
          && (all_partitions
              || negb (is_virtual (nth 4 parts ""%string)
                         (nth 0 parts ""%string))))
       (lines_read (PyStr.splitlines text)))
    (get_disk_partitions os self all_partitions).1.
Proof.
  intros Hmount.
  rewrite (get_disk_partitions_lines os self all_partitions text Hmount).
  change (fun line : string =>
            let parts := PyStr.split line in
            (6 <=? length parts)%nat
            && (all_partitions
                || negb (is_virtual (nth 4 parts ""%string)
                           (nth 0 parts ""%string))))
    with (line_kept all_partitions).
  induction (List.filter (line_kept all_partitions)
               (lines_read (PyStr.splitlines text))) as [|line lines IH];
    cbn [map]; constructor; [apply line_entry_space | exact IH].
Qed.

Lemma entry_space_fields_witness :
  Forall2
    (fun line p =>
       p !! "mountpoint"%string
       = Some (VStr (nth 2 (PyStr.split line) ""%string))
       /\ match shutil_disk_usage demo_os (nth 2 (PyStr.split line) ""%string) with
          | Raise _ => zero_space_fields p
          | Ret (total, used, free) =>
              0 <= total < 2 ^ 64 -> 0 <= used < 2 ^ 64 -> 0 <= free < 2 ^ 64 ->
              if total =? 0 then zero_space_fields p
              else p !! "total_space"%string = Some (VInt total)
                   /\ p !! "free_space"%string = Some (VInt free)
                   /\ p !! "used_space"%string = Some (VInt used)
                   /\ exists x, p !! "used_percent"%string = Some (VFloat x)
          end)
    [ "/dev/sda1 on / type ext4 (rw,relatime)";
      "proc on /proc type proc (rw,nosuid)";
      "/dev/loop0 on /snap type squashfs (ro)" ]%string
    (get_disk_partitions demo_os sample_fs true).1.
Proof.
  exact (entry_space_fields demo_os sample_fs true mount_table_ok eq_refl).
Defined.

(** X5: in every entry of the enumeration the device, the mount point and
    the filesystem type are not empty and hold no whitespace, and the
    options hold no whitespace and neither start nor end with a
    parenthesis (stripping them again changes nothing). *)
Theorem entry_text_fields (os : os_env) (self : FileSystem)
    (all_partitions : bool) (p : gmap string pyval) :
  In p (get_disk_partitions os self all_partitions).1 ->
  exists device mountpoint fstype opts,
    p !! "device"%string = Some (VStr device)
    /\ p !! "mountpoint"%string = Some (VStr mountpoint)
    /\ p !! "fstype"%string = Some (VStr fstype)
    /\ p !! "opts"%string = Some (VStr opts)
    /\ Forall (fun w => w <> EmptyString /\ no_space w = true)
         [device; mountpoint; fstype]
    /\ no_space opts = true
    /\ PyStr.strip "()" opts = opts.
Proof.
  revert p. apply List.Forall_forall, get_disk_partitions_Forall.
  intros line new out Hline.
  destruct (mount_line_result os self all_partitions line new out Hline)
    as [[-> _]|(device & mountpoint & fstype & opts & H0 & H2 & H4 & H5 & _ & ->)];
    [constructor|].
  constructor; [|constructor].
  pose proof (split_fields line) as Hfields.
  pose proof (Forall_lookup_1 _ _ _ _ Hfields H0) as Hd.
  pose proof (Forall_lookup_1 _ _ _ _ Hfields H2) as Hm.
  pose proof (Forall_lookup_1 _ _ _ _ Hfields H4) as Hf.
  pose proof (Forall_lookup_1 _ _ _ _ Hfields H5) as [_ Ho].
  exists device, mountpoint, fstype, (PyStr.strip "()" opts).
  do 4 (split; [reflexivity|]).
  split; [constructor; [exact Hd | constructor; [exact Hm | constructor; [exact Hf | constructor]]]|].
  split; [apply strip_no_space, Ho | apply strip_idempotent].
Qed.

Lemma entry_text_fields_witness :
  let p := nth 0 (get_disk_partitions demo_os sample_fs false).1 ∅ in
  exists device mountpoint fstype opts,
    p !! "device"%string = Some (VStr device)
    /\ p !! "opts"%string = Some (VStr opts)
    /\ Forall (fun w => w <> EmptyString /\ no_space w = true)
         [device; mountpoint; fstype]
    /\ PyStr.strip "()" opts = opts.
Proof.
  intros p.
  destruct (entry_text_fields demo_os sample_fs false p)
    as (device & mountpoint & fstype & opts & Hd & _ & _ & Hopts & Hf & _ & Ho).
  - apply nth_In. vm_compute. constructor.
  - exists device, mountpoint, fstype, opts. auto.
Defined.

(** ** Lines of the mount table *)

Section LineFacts.

Lemma append_cons (c : ascii) (s t : string) :
  String c s +:+ t = String c (s +:+ t).
Proof. reflexivity. Qed.

Lemma append_nil (t : string) : EmptyString +:+ t = t.
Proof. reflexivity. Qed.

Lemma snoc_append (acc : string) (c : ascii) (l : string) :
  PyStr.snoc acc c +:+ l = acc +:+ String c l.
Proof.
  unfold PyStr.snoc.
  induction acc as [|d acc IH]; rewrite ?append_cons, ?append_nil; [|rewrite IH];
    reflexivity.
Qed.

Lemma append_empty_r (s : string) : s +:+ EmptyString = s.
Proof.
  induction s as [|c s IH]; rewrite ?append_cons, ?append_nil; [|rewrite IH];
    reflexivity.
Qed.

Lemma splitlines_go_line (l : string) :
  no_linebreak l = true ->
  forall acc rest,
    PyStr.splitlines_go (l +:+ LF +:+ rest) acc false
    = (acc +:+ l) :: PyStr.splitlines_go rest EmptyString false.
Proof.
  induction l as [|c l IH]; intros Hl acc rest.
  - rewrite append_nil, append_empty_r. unfold LF. rewrite append_cons, append_nil.
    reflexivity.
  - simpl in Hl. apply andb_true_iff in Hl as [Hc Hl].
    apply negb_true_iff in Hc.
    rewrite append_cons. cbn [PyStr.splitlines_go andb]. rewrite Hc.
    rewrite IH by exact Hl. rewrite snoc_append. reflexivity.
Qed.

(** Splitting a text made of lines gives the lines back. *)
Lemma splitlines_unlines (lines : list string) :
  Forall (fun l => no_linebreak l = true) lines ->
  PyStr.splitlines (unlines lines) = lines.
Proof.
  unfold PyStr.splitlines. induction 1 as [|l lines Hl _ IH]; [reflexivity|].
  cbn [unlines]. rewrite splitlines_go_line by exact Hl. rewrite IH.
  reflexivity.
Qed.

Context (os : os_env) (self : FileSystem).

Lemma mount_loop_skip_short (all_partitions : bool) (short : string)
    (before after : list string) :
  (length (PyStr.split short) < 5)%nat ->
  forall partitions out,
    mount_loop os self all_partitions (before ++ short :: after) partitions out
    = mount_loop os self all_partitions (before ++ after) partitions out.
Proof.
  intros Hshort. induction before as [|line before IH]; intros partitions out.
  - cbn [app mount_loop]. rewrite mount_line_short by exact Hshort.
    rewrite !app_nil_r. reflexivity.
  - cbn [app mount_loop].
    destruct (mount_line os self all_partitions line) as [[new printed]|e];
      [apply IH | reflexivity].
Qed.

Lemma mount_loop_set_mount_output (mount : res string) (all_partitions : bool)
    (lines : list string) :
  forall partitions out,
    mount_loop (set_mount_output os mount) self all_partitions lines partitions out
    = mount_loop os self all_partitions lines partitions out.
Proof.
  induction lines as [|line lines IH]; intros partitions out; [reflexivity|].
  cbn [mount_loop].
  change (mount_line (set_mount_output os mount) self all_partitions line)
    with (mount_line os self all_partitions line).
  destruct (mount_line os self all_partitions line) as [[new printed]|e];
    [apply IH | reflexivity].
Qed.

End LineFacts.

(** X6: a line with fewer than five fields (a blank line, a header, a
    truncated line) can be put anywhere in the mount table without changing
    the partitions returned or the text printed. *)
Theorem short_lines_are_ignored (os : os_env) (self : FileSystem)
    (all_partitions : bool) (before after : list string) (short : string) :
  Forall (fun l => no_linebreak l = true) (before ++ short :: after) ->
  (length (PyStr.split short) < 5)%nat ->
  get_disk_partitions
    (set_mount_output os (Ret (unlines (before ++ short :: after))))
    self all_partitions
  = get_disk_partitions
      (set_mount_output os (Ret (unlines (before ++ after))))
      self all_partitions.
Proof.
  intros Hlines Hshort.
  assert (Forall (fun l => no_linebreak l = true) (before ++ after)) as Hlines'.
  { apply Forall_app in Hlines as [Hb Ha]. apply Forall_app. split; [exact Hb|].
    inversion Ha; assumption. }
  unfold get_disk_partitions. cbn [mount_output set_mount_output].
  rewrite !splitlines_unlines by assumption.
  rewrite !mount_loop_set_mount_output.
  rewrite mount_loop_skip_short by exact Hshort. reflexivity.
Qed.

Lemma short_lines_are_ignored_witness :
  get_disk_partitions
    (set_mount_output demo_os
       (Ret (unlines (["/dev/sda1 on / type ext4 (rw,relatime)"%string]
                      ++ "Filesystem table:"%string
                      :: ["proc on /proc type proc (rw,nosuid)"%string]))))
    sample_fs false
  = get_disk_partitions
      (set_mount_output demo_os
         (Ret (unlines (["/dev/sda1 on / type ext4 (rw,relatime)"%string]
                        ++ ["proc on /proc type proc (rw,nosuid)"%string]))))
      sample_fs false.
Proof.
  apply (short_lines_are_ignored demo_os sample_fs false).
  - repeat constructor.
  - vm_compute. lia.
Defined.

(** ** More on the size formatters *)

(** X7: the renderer's [_format_size] and the engine's
    [_human_readable_size] with two places give the same result (the same
    string or the same exception) for every int but 0 and -1; at 0 they
    give ["0.00 B"] and ["0 B"], at -1 ["N/A"] and ["-1.00 B"]. *)
Theorem format_size_agrees_with_human_readable_size :
  (forall n, n <> 0 -> n <> -1 ->
     _format_size (Some n) = _human_readable_size (Some n) 2)
  /\ _format_size (Some 0) = Ret "0.00 B"%string
  /\ _human_readable_size (Some 0) 2 = Ret "0 B"%string
  /\ _format_size (Some (-1)) = Ret "N/A"%string
  /\ _human_readable_size (Some (-1)) 2 = Ret "-1.00 B"%string.
Proof.
  split; [|repeat split; vm_compute; reflexivity].
  intros n H0 H1. unfold _format_size, _human_readable_size, py_eq_int, is_None.
  replace (n =? -1) with false by (symmetry; apply Z.eqb_neq; exact H1).
  replace (n =? 0) with false by (symmetry; apply Z.eqb_neq; exact H0).
  reflexivity.
Qed.

Lemma format_size_agrees_with_human_readable_size_witness :
  _format_size (Some (2 ^ 2000)) = _human_readable_size (Some (2 ^ 2000)) 2.
Proof.
  apply (proj1 format_size_agrees_with_human_readable_size (2 ^ 2000)).
  - vm_compute. discriminate.
  - vm_compute. discriminate.
Defined.

(** ** More on the content hasher *)

Section ReadFacts.

Import Hashlib.

(** A file whose read number [k] fails: the loop raises when it gets to
    that read, that is when the [k] reads before it do not reach the end
    of the data; otherwise it feeds the whole content. *)
Lemma update_from_fault (h : hash_obj) (f : file_obj) :
  forall k e,
    f_fault f = Some (k, e) ->
    update_from h f
    = if (k * 4096 <? length (f_data f) + 4096)%nat then Raise e
      else Ret {| algorithm := algorithm h; message := message h ++ f_data f |}.
Proof.
  apply (update_from_elim
    (fun h f r => forall k e, f_fault f = Some (k, e) ->
       r = if (k * 4096 <? length (f_data f) + 4096)%nat then Raise e
           else Ret {| algorithm := algorithm h;
                       message := message h ++ f_data f |})).
  - intros hash_obj f0 f1 Hread _ k e Hfault. unfold f_read in Hread.
    rewrite Hfault in Hread. destruct k as [|k]; [discriminate|].
    injection Hread as Htake _.
    destruct (f_data f0); [|discriminate].
    replace (S k * 4096 <? length (@nil byte) + 4096)%nat with false
      by (symmetry; apply Nat.ltb_ge; simpl; lia).
    rewrite app_nil_r. destruct hash_obj. reflexivity.
  - intros hash_obj f0 b chunk f' Hread IH _ k e Hfault. unfold f_read in Hread.
    rewrite Hfault in Hread. destruct k as [|k]; [discriminate|].
    injection Hread as Htake <-.
    rewrite (IH k e eq_refl). cbn [update algorithm message f_data].
    rewrite length_drop.
    assert (0 < length (f_data f0))%nat as Hpos
      by (destruct (f_data f0); [discriminate | simpl; lia]).
    assert (message hash_obj ++ f_data f0
            = (message hash_obj ++ b :: chunk) ++ drop 4096 (f_data f0)) as Hmsg
      by (rewrite <- Htake, <- app_assoc, take_drop; reflexivity).
    rewrite Hmsg.
    destruct (k * 4096 <? length (f_data f0) - 4096 + 4096)%nat eqn:H1;
      destruct (S k * 4096 <? length (f_data f0) + 4096)%nat eqn:H2;
      try reflexivity;
      [apply Nat.ltb_lt in H1; apply Nat.ltb_ge in H2
      |apply Nat.ltb_ge in H1; apply Nat.ltb_lt in H2]; lia.
  - intros hash_obj f0 e0 Hread _ k e Hfault. unfold f_read in Hread.
    rewrite Hfault in Hread. destruct k as [|k]; [|discriminate].
    injection Hread as ->.
    replace (0 * 4096 <? length (f_data f0) + 4096)%nat with true
      by (symmetry; apply Nat.ltb_lt; lia).
    reflexivity.
Qed.

End ReadFacts.

(** X8: the digest of a readable file is the digest of its whole content:
    the reading in chunks of 4096 bytes leaves no trace, nothing is
    printed, and two paths with the same content get the same digest. *)
Theorem get_file_hash_of_content (os : os_env) (path path' hash_type : string)
    (alg : list byte -> list byte) (f f' : file_obj) :
  hash_funcs !! hash_type = Some alg ->
  os_path_isfile os path = true -> open_rb os path = Ret f ->
  f_fault f = None ->
  os_path_isfile os path' = true -> open_rb os path' = Ret f' ->
  f_fault f' = None ->
  get_file_hash os path hash_type = (Hashlib.hexlify (alg (f_data f)), [])
  /\ (f_data f = f_data f' ->
      get_file_hash os path hash_type = get_file_hash os path' hash_type).
Proof.
  intros Halg Hfile Hopen Hfault Hfile' Hopen' Hfault'.
  assert (forall p g, os_path_isfile os p = true -> open_rb os p = Ret g ->
            f_fault g = None ->
            get_file_hash os p hash_type = (Hashlib.hexlify (alg (f_data g)), []))
    as Hone.
  { intros p g Hp Hg Hnf. unfold get_file_hash. rewrite Hp, Halg, Hg.
    cbn [negb mbind res_bind]. rewrite (update_from_no_fault _ _ Hnf).
    reflexivity. }
  split; [apply Hone; assumption|].
  intros Hsame. rewrite (Hone path f), (Hone path' f') by assumption.
  rewrite Hsame. reflexivity.
Qed.

Lemma get_file_hash_of_content_witness :
  let f := {| f_data := repeat x61 5000; f_fault := None |} in
  let os := set_files demo_os [("/a", f); ("/b", f)]%string in
  get_file_hash os "/a" "sha1"
  = (Hashlib.hexlify (Hashlib.sha1 (repeat x61 5000)), [])
  /\ get_file_hash os "/a" "sha1" = get_file_hash os "/b" "sha1".
Proof.
  intros f os.
  pose proof (get_file_hash_of_content os "/a" "/b" "sha1" Hashlib.sha1 f f
                eq_refl eq_refl eq_refl eq_refl eq_refl eq_refl eq_refl) as H.
  split; [exact (proj1 H) | exact (proj2 H eq_refl)].
Defined.

(** X9: a file one of whose reads fails. The loop issues one read per
    started chunk of 4096 bytes and one more, which returns nothing; when
    the failing read is among them the digest is lost, the result being
    the empty string and one message; a read that would fail later is
    never issued, and the digest is that of the whole content. *)
Theorem get_file_hash_read_fault (os : os_env) (path hash_type : string)
    (alg : list byte -> list byte) (f : file_obj) (k : nat) (e : exn) :
  hash_funcs !! hash_type = Some alg ->
  os_path_isfile os path = true -> open_rb os path = Ret f ->
  f_fault f = Some (k, e) ->
  get_file_hash os path hash_type
  = if (k * 4096 <? length (f_data f) + 4096)%nat
    then (""%string, ["Error calculating file hash: " +:+ exn_str e])
    else (Hashlib.hexlify (alg (f_data f)), []).
Proof.
  intros Halg Hfile Hopen Hfault. unfold get_file_hash.
  rewrite Hfile, Halg, Hopen. cbn [negb mbind res_bind].
  rewrite (update_from_fault _ _ _ _ Hfault).
  destruct (k * 4096 <? length (f_data f) + 4096)%nat; reflexivity.
Qed.

Lemma get_file_hash_read_fault_witness :
  let late := {| f_data := repeat x61 5000;
                 f_fault := Some (3%nat, Exn OSError "[Errno 5] Input/output error") |} in
  let last := {| f_data := repeat x61 5000;
                 f_fault := Some (2%nat, Exn OSError "[Errno 5] Input/output error") |} in
  let os := set_files demo_os [("/late", late); ("/last", last)]%string in
  get_file_hash os "/late" "md5"
  = (Hashlib.hexlify (Hashlib.md5 (repeat x61 5000)), [])
  /\ get_file_hash os "/last" "md5"
     = (""%string,
        ["Error calculating file hash: [Errno 5] Input/output error"%string]).
Proof.
  intros late last os. split.
  - exact (get_file_hash_read_fault os "/late" "md5" Hashlib.md5 late 3 _
             eq_refl eq_refl eq_refl eq_refl).
  - exact (get_file_hash_read_fault os "/last" "md5" Hashlib.md5 last 2 _
             eq_refl eq_refl eq_refl eq_refl).
Defined.

(** ** More on the permission decoder *)

Section PermissionFields.

Lemma testbit_low (mode k : Z) :
  0 <= k < 9 -> Z.testbit (Z.land mode 0x1FF) k = Z.testbit mode k.
Proof.
  intros Hk. rewrite Z.land_spec. change 0x1FF with (Z.ones 9).
  rewrite Z.ones_spec_low by lia. apply andb_true_r.
Qed.

Lemma symbolic_chars (mode : Z) :
  let bit k (c : ascii) : ascii := if Z.testbit mode k then c else "-"%char in
  symbolic mode
  = String (if S_ISDIR mode then "d" else if S_ISLNK mode then "l" else "-")%char
     (String (bit 8 "r") (String (bit 7 "w") (String (bit 6 "x")
     (String (bit 5 "r") (String (bit 4 "w") (String (bit 3 "x")
     (String (bit 2 "r") (String (bit 1 "w") (String (bit 0 "x")
      EmptyString)))))))))%char.
Proof.
  intros bit. unfold symbolic, bit.
  change S_IRUSR with (2 ^ 8). change S_IWUSR with (2 ^ 7).
  change S_IXUSR with (2 ^ 6). change S_IRGRP with (2 ^ 5).
  change S_IWGRP with (2 ^ 4). change S_IXGRP with (2 ^ 3).
  change S_IROTH with (2 ^ 2). change S_IWOTH with (2 ^ 1).
  change S_IXOTH with (2 ^ 0).
  rewrite !has_bit_pow2 by lia.
  destruct (S_ISDIR mode), (S_ISLNK mode), (Z.testbit mode 8),
    (Z.testbit mode 7), (Z.testbit mode 6), (Z.testbit mode 5),
    (Z.testbit mode 4), (Z.testbit mode 3), (Z.testbit mode 2),
    (Z.testbit mode 1), (Z.testbit mode 0); reflexivity.
Qed.

Lemma symbolic_value_low (mode : Z) :
  symbolic_value (symbolic mode) = symbolic_value (symbolic (Z.land mode 0x1FF)).
Proof.
  rewrite (symbolic_chars mode), (symbolic_chars (Z.land mode 0x1FF)).
  cbv zeta. rewrite !testbit_low by lia. reflexivity.
Qed.

Lemma below_512 (P : Z -> bool) :
  forallb (fun n => P (Z.of_nat n)) (seq 0 512) = true ->
  forall p, 0 <= p < 512 -> P p = true.
Proof.
  intros Hall p Hp. rewrite forallb_forall in Hall.
  specialize (Hall (Z.to_nat p)). rewrite Z2Nat.id in Hall by lia.
  apply Hall, in_seq. lia.
Qed.

End PermissionFields.

(** X10: the octal field and the symbolic field of a mode show the same
    nine bits: each one read back gives [mode & 0o777]. *)
Theorem permission_fields_round_trip (mode : Z) :
  parse_octal (octal_perm mode) = Some (Z.land mode 0x1FF)
  /\ symbolic_value (symbolic mode) = Some (Z.land mode 0x1FF).
Proof.
  pose proof (land_0x1FF_range mode) as Hp. split.
  - unfold octal_perm.
    pose proof (below_512
      (fun p => match parse_octal (PyStr.oct p) with
                | Some v => v =? p
                | None => false
                end) ltac:(vm_compute; reflexivity) _ Hp) as H.
    cbv beta in H. destruct (parse_octal _) as [v|]; [|discriminate].
    apply Z.eqb_eq in H. rewrite H. reflexivity.
  - rewrite symbolic_value_low.
    pose proof (below_512
      (fun p => match symbolic_value (symbolic p) with
                | Some v => v =? p
                | None => false
                end) ltac:(vm_compute; reflexivity) _ Hp) as H.
    cbv beta in H. destruct (symbolic_value _) as [v|]; [|discriminate].
    apply Z.eqb_eq in H. rewrite H. reflexivity.
Qed.

(** X11: the decoder returns the empty dict exactly when it prints a
    message, which is exactly when the path does not exist or cannot be
    examined; the message names the path in the first case and the
    exception in the second. Otherwise it returns the six fields. *)
Theorem get_file_permissions_outcome (os : os_env) (path : string) :
  let perms := (get_file_permissions os path).1 in
  let out := (get_file_permissions os path).2 in
  (perms = ∅ <-> out <> [])
  /\ (perms = ∅ <->
      os_path_exists os path = false \/ exists e, os_stat os path = Raise e)
  /\ (os_path_exists os path = false ->
      out = ["Error: " +:+ path +:+ " does not exist"])
  /\ (forall e, os_path_exists os path = true -> os_stat os path = Raise e ->
      out = ["Error getting file permissions: " +:+ exn_str e])
  /\ (perms <> ∅ ->
      size perms = 6%nat
      /\ Forall (fun key => is_Some (perms !! key))
           ["path"; "octal"; "symbolic"; "special_bits"; "owner_id"; "group_id"]%string).
Proof.
  intros perms out. subst perms out.
  destruct (os_path_exists os path) eqn:He.
  - destruct (os_stat os path) as [st|e] eqn:Hs.
    + rewrite (get_file_permissions_decodes os path st He Hs). cbn [fst snd].
      assert (dict [ ("path", VStr (os_path_abspath os path));
                     ("octal", VStr (octal_perm (st_mode st)));
                     ("symbolic", VStr (symbolic (st_mode st)));
                     ("special_bits", VDict (special_bits (st_mode st)));
                     ("owner_id", VInt (st_uid st));
                     ("group_id", VInt (st_gid st)) ]%string
              <> (∅ : gmap string pyval)) as Hne.
      { intros Hempty.
        assert (dict [ ("path", VStr (os_path_abspath os path));
                       ("octal", VStr (octal_perm (st_mode st)));
                       ("symbolic", VStr (symbolic (st_mode st)));
                       ("special_bits", VDict (special_bits (st_mode st)));
                       ("owner_id", VInt (st_uid st));
                       ("group_id", VInt (st_gid st)) ]%string
                  !! "path"%string = Some (VStr (os_path_abspath os path))) as Hl
          by reflexivity.
        rewrite Hempty in Hl. discriminate. }
      split; [split; [intros H; contradiction | intros H; contradiction]|].
      split; [split; [intros H; contradiction
                     | intros [H|[e H]]; discriminate]|].
      split; [discriminate|].
      split; [intros e _ H; discriminate|].
      intros _. split; [reflexivity|].
      repeat (constructor; [eexists; reflexivity|]). constructor.
    + unfold get_file_permissions. rewrite He, Hs. cbn [negb mbind res_bind fst snd].
      split; [split; [discriminate | reflexivity]|].
      split; [split; [intros _; right; exists e; reflexivity | reflexivity]|].
      split; [discriminate|].
      split; [intros e' _ H; injection H as <-; reflexivity|].
      intros H. contradiction.
  - unfold get_file_permissions. rewrite He. cbn [negb fst snd].
    split; [split; [discriminate | reflexivity]|].
    split; [split; [intros _; left; reflexivity | reflexivity]|].
    split; [reflexivity|].
    split; [discriminate|].
    intros H. contradiction.
Qed.

(** ** More on the statistics collector *)

Section StatsRange.

Import Float.

(** The statistics of a raw sample, in full. *)
Lemma get_filesystem_stats_ok (os : os_env) (self : FileSystem)
    (path : option string) (stats : statvfs_result) :
  has_statvfs os = true ->
  os_statvfs os (default (current_dir self) path) = Ret stats ->
  valid_statvfs stats ->
  let fragment_size :=
    if f_frsize stats =? 0 then f_bsize stats else f_frsize stats in
  let total_size := f_blocks stats * fragment_size in
  let free_size := f_bfree stats * fragment_size in
  let avail_size := f_bavail stats * fragment_size in
  exists inode_percent total_human free_human avail_human used_human percent,
    percent_or_zero (f_files stats - f_ffree stats) (f_files stats)
    = Ret inode_percent
    /\ percent_or_zero (total_size - free_size) total_size = Ret percent
    /\ _human_readable_size (Some total_size) 2 = Ret total_human
    /\ _human_readable_size (Some free_size) 2 = Ret free_human
    /\ _human_readable_size (Some avail_size) 2 = Ret avail_human
    /\ _human_readable_size (Some (total_size - free_size)) 2 = Ret used_human
    /\ get_filesystem_stats os self path
       = (dict [
            ("path", VStr (os_path_abspath os (default (current_dir self) path)));
            ("filesystem_stats", VDict (dict [
               ("block_size", VInt (f_bsize stats));
               ("fragment_size", VInt fragment_size);
               ("total_blocks", VInt (f_blocks stats));
               ("free_blocks", VInt (f_bfree stats));
               ("available_blocks", VInt (f_bavail stats));
               ("total_inodes", VInt (f_files stats));
               ("free_inodes", VInt (f_ffree stats));
               ("available_inodes", VInt (f_favail stats));
               ("filesystem_id", VInt (f_fsid stats));
               ("mount_flags", VInt (f_flag stats));
               ("maximum_filename_length", VInt (f_namemax stats)) ]%string));
            ("space_usage", VDict (dict [
               ("total_size", VInt total_size);
               ("total_size_human", VStr total_human);
               ("free_size", VInt free_size);
               ("free_size_human", VStr free_human);
               ("available_size", VInt avail_size);
               ("available_size_human", VStr avail_human);
               ("used_size", VInt (total_size - free_size));
               ("used_size_human", VStr used_human);
               ("usage_percent", percent) ]%string));
            ("inode_usage", VDict (dict [
               ("used_inodes", VInt (f_files stats - f_ffree stats));
               ("usage_percent", inode_percent) ]%string)) ]%string, []).
Proof.
  intros Hhas Hstat Hvalid fragment_size total_size free_size avail_size.
  unfold valid_statvfs in Hvalid. rewrite !Forall_cons in Hvalid.
  destruct Hvalid as (Hbs & Hfr & Hbl & Hbf & Hba & Hfi & Hff & Hfa & _).
  assert (0 <= fragment_size < 2 ^ 64) as Hfrag
    by (subst fragment_size; destruct (f_frsize stats =? 0); assumption).
  pose proof pow_128_1023 as Hpow.
  pose proof (u64_product_bound _ _ _ Hbl Hbf Hfrag) as [Htot Hused].
  pose proof (u64_product_bound _ _ _ Hbf Hbf Hfrag) as [Hfree _].
  pose proof (u64_product_bound _ _ _ Hba Hba Hfrag) as [Havail _].
  fold total_size free_size in Htot, Hused, Hfree. fold avail_size in Havail.
  destruct (percent_or_zero_total (f_files stats - f_ffree stats) (f_files stats))
    as (ip & Hip & _); [lia | intros; assert (2 ^ 64 <= 2 ^ 1023)
                                by (apply Z.pow_le_mono_r; lia); nia |].
  destruct (human_readable_size_total total_size 2) as (s1 & Hs1); [lia|].
  destruct (human_readable_size_total free_size 2) as (s2 & Hs2); [lia|].
  destruct (human_readable_size_total avail_size 2) as (s3 & Hs3); [lia|].
  destruct (human_readable_size_total (total_size - free_size) 2)
    as (s4 & Hs4); [lia|].
  destruct (percent_or_zero_total (total_size - free_size) total_size)
    as (up & Hup & _); [lia | intros; nia |].
  exists ip, s1, s2, s3, s4, up.
  do 6 (split; [assumption|]).
  unfold get_filesystem_stats. rewrite Hhas, Hstat.
  cbn [fmap res_fmap mbind res_bind].
  fold fragment_size. fold total_size. fold free_size. fold avail_size.
  rewrite Hip. cbn [mbind res_bind].
  rewrite Hs1. cbn [mbind res_bind].
  rewrite Hs2. cbn [mbind res_bind].
  rewrite Hs3. cbn [mbind res_bind].
  rewrite Hs4. cbn [mbind res_bind].
  rewrite Hup. reflexivity.
Qed.

(** The percentage of a part of a whole. *)
Lemma percent_or_zero_range (num den : Z) :
  0 <= num <= den ->
  exists v, percent_or_zero num den = Ret v /\ is_percentage v.
Proof.
  intros Hnum. unfold percent_or_zero.
  destruct (0 <? den) eqn:Hpos.
  - apply Z.ltb_lt in Hpos.
    destruct (ratio_in_unit num den Hpos Hnum) as (q & -> & Hlo & Hup).
    destruct (times_100_in_range q Hlo Hup) as (p & Hp & Hlop & Hupp).
    cbn [mbind res_bind]. rewrite Hp.
    eexists. split; [reflexivity|]. right. exists p. auto.
  - exists (VInt 0). split; [reflexivity | left; reflexivity].
Qed.

End StatsRange.

(** X12: on a raw sample whose free counts do not exceed the totals, both
    usage percentages of the statistics are the int 0 or a finite float
    from 0 to 100, and the four renderings of the space usage are those of
    [_human_readable_size] for the four sizes. *)
Theorem stats_percentages_in_range (os : os_env) (self : FileSystem)
    (path : option string) (stats : statvfs_result) :
  has_statvfs os = true ->
  os_statvfs os (default (current_dir self) path) = Ret stats ->
  valid_statvfs stats ->
  f_bfree stats <= f_blocks stats -> f_ffree stats <= f_files stats ->
  let fragment_size :=
    if f_frsize stats =? 0 then f_bsize stats else f_frsize stats in
  exists space inode percent inode_percent,
    (get_filesystem_stats os self path).1 !! "space_usage"%string
    = Some (VDict space)
    /\ (get_filesystem_stats os self path).1 !! "inode_usage"%string
       = Some (VDict inode)
    /\ space !! "usage_percent"%string = Some percent
    /\ is_percentage percent
    /\ inode !! "usage_percent"%string = Some inode_percent
    /\ is_percentage inode_percent
    /\ (VStr <$> _human_readable_size (Some (f_blocks stats * fragment_size)) 2)
       = Ret (dict_get space "total_size_human" (VInt 0))
    /\ (VStr <$> _human_readable_size (Some (f_bfree stats * fragment_size)) 2)
       = Ret (dict_get space "free_size_human" (VInt 0))
    /\ (VStr <$> _human_readable_size (Some (f_bavail stats * fragment_size)) 2)
       = Ret (dict_get space "available_size_human" (VInt 0))
    /\ (VStr <$> _human_readable_size
                   (Some (f_blocks stats * fragment_size
                          - f_bfree stats * fragment_size)) 2)
       = Ret (dict_get space "used_size_human" (VInt 0)).
Proof.
  intros Hhas Hstat Hvalid Hfree Hinode fragment_size.
  destruct (get_filesystem_stats_ok os self path stats Hhas Hstat Hvalid)
    as (ip & s1 & s2 & s3 & s4 & up & Hip & Hup & Hs1 & Hs2 & Hs3 & Hs4 & Hres).
  fold fragment_size in Hup, Hs1, Hs2, Hs3, Hs4, Hres.
  unfold valid_statvfs in Hvalid. rewrite !Forall_cons in Hvalid.
  destruct Hvalid as (Hbs & Hfr & Hbl & Hbf & Hba & Hfi & Hff & Hfa & _).
  assert (0 <= fragment_size)
    by (subst fragment_size; destruct (f_frsize stats =? 0); lia).
  destruct (percent_or_zero_range (f_files stats - f_ffree stats) (f_files stats))
    as (ip' & Hip' & Hipr); [lia|].
  destruct (percent_or_zero_range
              (f_blocks stats * fragment_size - f_bfree stats * fragment_size)
              (f_blocks stats * fragment_size))
    as (up' & Hup' & Hupr); [nia|].
  rewrite Hip in Hip'. injection Hip' as <-.
  rewrite Hup in Hup'. injection Hup' as <-.
  rewrite Hres, Hs1, Hs2, Hs3, Hs4. cbn [fst].
  do 4 eexists.
  split; [reflexivity|]. split; [reflexivity|].
  split; [reflexivity|]. split; [exact Hupr|].
  split; [reflexivity|]. split; [exact Hipr|].
  repeat split.
Qed.

Lemma stats_percentages_in_range_witness :
  exists space percent,
    (get_filesystem_stats demo_os sample_fs (Some "/home"%string)).1
      !! "space_usage"%string = Some (VDict space)
    /\ space !! "usage_percent"%string = Some percent
    /\ is_percentage percent.
Proof.
  destruct (stats_percentages_in_range demo_os sample_fs (Some "/home"%string)
              _ eq_refl eq_refl
              ltac:(unfold valid_statvfs; repeat constructor;
                    vm_compute; congruence)
              ltac:(vm_compute; discriminate) ltac:(vm_compute; discriminate))
    as (space & inode & percent & inode_percent & Hs & _ & Hp & Hr & _).
  exists space, percent. split; [exact Hs | split; [exact Hp | exact Hr]].
Defined.

(** X13: when every sample that [statvfs] returns for the path is a raw
    one, the collector returns the empty dict exactly when [statvfs] is
    available and raises, and it then prints the message of the exception.
    Without [statvfs] the result is never empty: it holds the path and,
    under [space_usage], the result of the volume space probe, empty or
    not, and what is printed is what the probe printed. *)
Theorem get_filesystem_stats_outcome (os : os_env) (self : FileSystem)
    (path : option string) :
  let p := default (current_dir self) path in
  (forall stats, os_statvfs os p = Ret stats -> valid_statvfs stats) ->
  ((get_filesystem_stats os self path).1 = ∅
   <-> has_statvfs os = true /\ exists e, os_statvfs os p = Raise e)
  /\ (forall e, has_statvfs os = true -> os_statvfs os p = Raise e ->
      (get_filesystem_stats os self path).2
      = ["Error getting filesystem stats: " +:+ exn_str e])
  /\ (has_statvfs os = false ->
      get_filesystem_stats os self path
      = (dict [ ("path", VStr (os_path_abspath os p));
                ("space_usage", VDict (get_drive_space os self (Some p)).1)
              ]%string,
         (get_drive_space os self (Some p)).2)).
Proof.
  intros p Hvalid.
  assert (has_statvfs os = false ->
          get_filesystem_stats os self path
          = (dict [ ("path", VStr (os_path_abspath os p));
                    ("space_usage", VDict (get_drive_space os self (Some p)).1)
                  ]%string,
             (get_drive_space os self (Some p)).2)) as Hdegraded.
  { intros Hno. unfold get_filesystem_stats. rewrite Hno. fold p.
    cbn [mbind res_bind]. destruct (get_drive_space os self (Some p)).
    reflexivity. }
  assert (forall e, has_statvfs os = true -> os_statvfs os p = Raise e ->
          get_filesystem_stats os self path
          = (∅, ["Error getting filesystem stats: " +:+ exn_str e])) as Hraise.
  { intros e Hhas He. unfold get_filesystem_stats. fold p. rewrite Hhas, He.
    reflexivity. }
  split; [|split; [intros e Hhas He; rewrite (Hraise e Hhas He); reflexivity
                  | exact Hdegraded]].
  destruct (has_statvfs os) eqn:Hhas.
  - destruct (os_statvfs os p) as [stats|e] eqn:Hstat.
    + destruct (get_filesystem_stats_ok os self path stats Hhas Hstat
                  (Hvalid stats eq_refl))
        as (ip & s1 & s2 & s3 & s4 & up & _ & _ & _ & _ & _ & _ & Hres).
      split; [|intros [_ [e He]]; discriminate].
      intros Hempty. rewrite Hres in Hempty. cbn [fst] in Hempty.
      apply (f_equal (fun d : gmap string pyval => d !! "path"%string)) in Hempty.
      discriminate Hempty.
    + rewrite (Hraise e eq_refl eq_refl).
      split; [intros _; split; [reflexivity | exists e; reflexivity]
             | reflexivity].
  - rewrite (Hdegraded eq_refl).
    split; [|intros [H _]; discriminate].
    intros Hempty. cbn [fst] in Hempty.
    apply (f_equal (fun d : gmap string pyval => d !! "path"%string)) in Hempty.
    discriminate Hempty.
Qed.

Lemma get_filesystem_stats_outcome_witness :
  (get_filesystem_stats demo_os sample_fs (Some "/home"%string)).1 <> ∅.
Proof.
  pose proof (get_filesystem_stats_outcome demo_os sample_fs (Some "/home"%string))
    as H.
  cbv zeta in H.
  assert (forall stats,
            os_statvfs demo_os (default (current_dir sample_fs) (Some "/home"%string))
            = Ret stats -> valid_statvfs stats) as Hvalid.
  { intros stats Hs. injection Hs as <-.
    unfold valid_statvfs. repeat constructor; vm_compute; congruence. }
  destruct (H Hvalid) as [Hiff _].
  intros Hempty. apply Hiff in Hempty. destruct Hempty as [_ [e He]].
  discriminate He.
Defined.

(** ** Substrings and pieces *)

Section TextFacts.

Import PyText.

Lemma prefix_app (p s t : string) :
  String.prefix p s = true -> String.prefix p (s +:+ t) = true.
Proof.
  revert s. induction p as [|a p IH]; intros s H;
    [destruct (s +:+ t); reflexivity|].
  destruct s as [|b s]; [discriminate|].
  rewrite append_cons. cbn [String.prefix] in *.
  destruct (Ascii.ascii_dec a b); [apply IH, H | discriminate].
Qed.

Lemma prefix_empty (p : string) :
  String.prefix p EmptyString = true -> p = EmptyString.
Proof. destruct p; [reflexivity | discriminate]. Qed.

Lemma contains_cons (sub : string) (c : ascii) (s : string) :
  contains sub (String c s) = String.prefix sub (String c s) || contains sub s.
Proof. reflexivity. Qed.

Lemma contains_app_r (sub s t : string) :
  contains sub t = true -> contains sub (s +:+ t) = true.
Proof.
  intros H. induction s as [|c s IH]; [exact H|].
  rewrite append_cons, contains_cons, IH. apply orb_true_r.
Qed.

Lemma contains_app_l (sub s t : string) :
  contains sub s = true -> contains sub (s +:+ t) = true.
Proof.
  induction s as [|c s IH]; intros H.
  - cbn [contains] in H. rewrite orb_false_r in H.
    apply prefix_empty in H. subst sub. destruct t; reflexivity.
  - rewrite contains_cons in H. rewrite append_cons, contains_cons.
    apply orb_true_iff in H as [H|H].
    + rewrite <- append_cons, (prefix_app _ _ _ H). reflexivity.
    + rewrite (IH H). apply orb_true_r.
Qed.

(** A substring starts somewhere. *)
Lemma contains_split (sub w : string) :
  contains sub w = true ->
  exists a b, w = a +:+ b /\ String.prefix sub b = true.
Proof.
  induction w as [|c w IH]; intros H.
  - cbn [contains] in H. rewrite orb_false_r in H.
    exists EmptyString, EmptyString. split; [reflexivity | exact H].
  - rewrite contains_cons in H. apply orb_true_iff in H as [H|H].
    + exists EmptyString, (String c w). split; [reflexivity | exact H].
    + destruct (IH H) as (a & b & -> & Hb).
      exists (String c a), b. split; [reflexivity | exact Hb].
Qed.

Lemma lstrip_suffix (chars s : string) :
  exists a, s = a +:+ PyStr.lstrip chars s.
Proof.
  induction s as [|c s [a IH]]; [exists EmptyString; reflexivity|].
  cbn [PyStr.lstrip]. destruct (PyStr.mem c chars).
  - exists (String c a). rewrite append_cons, <- IH. reflexivity.
  - exists EmptyString. reflexivity.
Qed.

Lemma rstrip_prefix (chars s : string) :
  exists b, s = PyStr.rstrip chars s +:+ b.
Proof.
  induction s as [|c s [b IH]]; [exists EmptyString; reflexivity|].
  cbn [PyStr.rstrip]. destruct (PyStr.rstrip chars s) as [|d r] eqn:Hr.
  - rewrite append_nil in IH. subst b.
    destruct (PyStr.mem c chars).
    + exists (String c s). reflexivity.
    + exists s. reflexivity.
  - exists b. rewrite append_cons, <- IH. reflexivity.
Qed.

(** What a stripped string contains, the string contains. *)
Lemma contains_strip (sub chars s : string) :
  contains sub (PyStr.strip chars s) = true -> contains sub s = true.
Proof.
  unfold PyStr.strip. intros H.
  destruct (lstrip_suffix chars s) as [a Ha].
  destruct (rstrip_prefix chars (PyStr.lstrip chars s)) as [b Hb].
  rewrite Ha. apply contains_app_r. rewrite Hb. apply contains_app_l, H.
Qed.

Lemma snoc_split (a b piece : string) (c : ascii) :
  a +:+ b = PyStr.snoc piece c -> b <> EmptyString ->
  exists b', b = PyStr.snoc b' c /\ piece = a +:+ b'.
Proof.
  revert piece. induction a as [|d a IH]; intros piece H Hb.
  - rewrite append_nil in H. exists piece. split; [exact H | reflexivity].
  - destruct piece as [|e piece].
    + unfold PyStr.snoc in H. rewrite append_cons, append_nil in H.
      injection H as _ H. destruct a; [|discriminate].
      rewrite append_nil in H. contradiction.
    + unfold PyStr.snoc in H. rewrite !append_cons in H. injection H as -> H.
      destruct (IH piece H Hb) as (b' & -> & ->).
      exists b'. split; reflexivity.
Qed.

Lemma clean_piece_contains (sep piece s : string) :
  sep <> EmptyString -> clean_piece sep piece s -> contains sep piece = false.
Proof.
  intros Hsep Hclean. destruct (contains sep piece) eqn:Hc; [|reflexivity].
  destruct (contains_split _ _ Hc) as (a & b & Hw & Hb).
  assert (b <> EmptyString) as Hne
    by (intros ->; apply prefix_empty in Hb; contradiction).
  pose proof (Hclean a b Hw Hne) as Hno.
  rewrite (prefix_app _ _ s Hb) in Hno. discriminate.
Qed.

Lemma clean_piece_empty (sep s : string) : clean_piece sep EmptyString s.
Proof.
  intros a b H Hb. destruct a; [|discriminate].
  rewrite append_nil in H. subst b. contradiction.
Qed.

Lemma split_sep_go_pieces (sep : string) :
  sep <> EmptyString ->
  forall s piece skip,
    piece = EmptyString \/ (skip = 0%nat /\ clean_piece sep piece s) ->
    Forall (fun w => contains sep w = false) (split_sep_go sep s piece skip).
Proof.
  intros Hsep.
  assert (forall s piece skip,
            piece = EmptyString \/ (skip = 0%nat /\ clean_piece sep piece s) ->
            contains sep piece = false) as Hpiece.
  { intros s piece skip [->|[_ Hclean]].
    - apply (clean_piece_contains sep EmptyString s Hsep), clean_piece_empty.
    - apply (clean_piece_contains sep piece s Hsep Hclean). }
  induction s as [|c s IH]; intros piece skip Hinv; cbn [split_sep_go].
  - constructor; [apply (Hpiece EmptyString piece skip Hinv) | constructor].
  - destruct skip as [|skip].
    + destruct (String.prefix sep (String c s)) eqn:Hp.
      * constructor; [apply (Hpiece (String c s) piece 0%nat Hinv)|].
        apply IH. left. reflexivity.
      * apply IH. right. split; [reflexivity|].
        intros a b Hab Hb.
        destruct (snoc_split a b piece c (eq_sym Hab) Hb) as (b' & -> & ->).
        rewrite snoc_append.
        destruct b' as [|d b']; [rewrite append_nil; exact Hp|].
        destruct Hinv as [Hinv|[_ Hclean]].
        -- destruct a; discriminate.
        -- apply (Hclean a (String d b') eq_refl). discriminate.
    + apply IH. destruct Hinv as [->|[Hskip _]]; [left; reflexivity | discriminate].
Qed.

(** No piece of [s.split(sep)] contains the separator. *)
Lemma split_sep_pieces (sep s : string) :
  sep <> EmptyString ->
  Forall (fun w => contains sep w = false) (split_sep sep s).
Proof. intros Hsep. apply split_sep_go_pieces; [exact Hsep | left; reflexivity]. Qed.

Lemma list_index_Forall {A} (P : A -> Prop) (l : list A) (i : nat) (x : A) :
  Forall P l -> list_index l i = Ret x -> P x.
Proof.
  intros Hall. unfold list_index. destruct (l !! i) as [y|] eqn:Hl; [|discriminate].
  intros [= <-]. apply (Forall_lookup_1 _ _ _ _ Hall Hl).
Qed.

Lemma parsed_piece (sep s : string) (i : nat) (piece : string) :
  sep <> EmptyString ->
  list_index (split_sep sep s) i = Ret piece ->
  parsed sep (strip_space piece).
Proof.
  intros Hsep Hi. split; [|apply strip_idempotent].
  pose proof (list_index_Forall _ _ _ _ (split_sep_pieces sep s Hsep) Hi) as Hc.
  cbv beta in Hc.
  destruct (contains sep (strip_space piece)) eqn:H; [|reflexivity].
  apply contains_strip in H. congruence.
Qed.

Lemma vol_loop_parsed (lines : list string) :
  forall volume_name,
    parsed "is" volume_name -> parsed "is" (vol_loop lines volume_name).
Proof.
  induction lines as [|line lines IH]; intros v Hv; cbn [vol_loop]; [exact Hv|].
  destruct (_ && _); [|apply IH, Hv].
  destruct (list_index _ 1) as [piece|e] eqn:Hi; [|exact Hv].
  apply IH. apply (parsed_piece "is" line 1 piece); [discriminate | exact Hi].
Qed.

Lemma fsinfo_loop_parsed (lines : list string) :
  forall fs_type,
    parsed ":" fs_type -> parsed ":" (fsinfo_loop lines fs_type).
Proof.
  induction lines as [|line lines IH]; intros v Hv; cbn [fsinfo_loop]; [exact Hv|].
  destruct (contains _ _); [|apply IH, Hv].
  destruct (list_index _ 1) as [piece|e] eqn:Hi; [|exact Hv].
  apply IH. apply (parsed_piece ":" line 1 piece); [discriminate | exact Hi].
Qed.

End TextFacts.

(** ** PartitionEnumerator, the branch of Windows *)

Section WindowsFacts.

Context (win : win_env) (os : os_env) (self : FileSystem).

Lemma has_bit_shiftr (bitmask : Z) (k : nat) :
  has_bit (Z.shiftr bitmask (Z.of_nat k)) 1 = Z.testbit bitmask (Z.of_nat k).
Proof.
  change 1 with (2 ^ 0). rewrite has_bit_pow2 by lia.
  rewrite Z.shiftr_spec by lia. reflexivity.
Qed.

Lemma drives_loop_spec (letters : string) :
  forall (k : nat) (bitmask : Z) (drives : list string),
    drives_loop letters (Z.shiftr bitmask (Z.of_nat k)) drives
    = drives
      ++ map (fun il => String il.2 ":")
           (List.filter (fun il => Z.testbit bitmask (Z.of_nat il.1))
              (zip (seq k (String.length letters)) (list_ascii_of_string letters))).
Proof.
  induction letters as [|letter letters IH]; intros k bitmask drives.
  - rewrite app_nil_r. reflexivity.
  - cbn [drives_loop String.length seq list_ascii_of_string zip zip_with
         List.filter fst snd].
    rewrite has_bit_shiftr, Z.shiftr_shiftr by lia.
    replace (Z.of_nat k + 1) with (Z.of_nat (S k)) by lia.
    rewrite IH. destruct (Z.testbit bitmask (Z.of_nat k)).
    + rewrite <- app_assoc. reflexivity.
    + reflexivity.
Qed.

(** What one drive adds to the partitions and to the printed lines. *)
Lemma drive_body_spec (drive : string) :
  drive_body win os self drive
  = match (if ctypes_loaded win then GetDriveTypeW win drive else Ret 0) with
    | Ret drive_type =>
        Ret (dict [ ("device", VStr drive);
                    ("mountpoint", VStr drive);
                    ("fstype", VStr (fs_type_of win drive));
                    ("opts", VStr "");
                    ("drive_type",
                      VStr (default "UNKNOWN" (drive_types !! drive_type)));
                    ("volume_name", VStr (volume_name_of win drive));
                    ("total_space",
                      dict_get (get_drive_space os self (Some drive)).1
                        "total" (VInt 0));
                    ("free_space",
                      dict_get (get_drive_space os self (Some drive)).1
                        "free" (VInt 0));
                    ("used_space",
                      dict_get (get_drive_space os self (Some drive)).1
                        "used" (VInt 0));
                    ("used_percent",
                      dict_get (get_drive_space os self (Some drive)).1
                        "used_percent" (VInt 0)) ]%string,
             (get_drive_space os self (Some drive)).2)
    | Raise e => Raise e
    end.
Proof.
  unfold drive_body.
  destruct (if ctypes_loaded win then GetDriveTypeW win drive else Ret 0);
    [|reflexivity].
  cbn [mbind res_bind]. destruct (get_drive_space os self (Some drive)).
  reflexivity.
Qed.

Lemma drive_loop_spec (drives : list string) :
  forall partitions out,
    drive_loop win os self drives partitions out
    = (partitions
       ++ concat (map (fun drive =>
                         match drive_body win os self drive with
                         | Ret (part_info, _) => [part_info]
                         | Raise _ => []
                         end) drives),
       out
       ++ concat (map (fun drive =>
                         match drive_body win os self drive with
                         | Ret (_, printed) => printed
                         | Raise e =>
                             ["Error getting info for drive " +:+ drive +:+ ": "
                              +:+ exn_str e]
                         end) drives)).
Proof.
  induction drives as [|drive drives IH]; intros partitions out.
  - cbn [drive_loop map concat]. rewrite !app_nil_r. reflexivity.
  - cbn [drive_loop map concat].
    destruct (drive_body win os self drive) as [[part_info printed]|e];
      rewrite IH, <- ?app_assoc; reflexivity.
Qed.

Lemma drive_types_label (drive_type : Z) :
  In (default "UNKNOWN"%string (drive_types !! drive_type))
     ["UNKNOWN"; "NO_ROOT_DIR"; "REMOVABLE"; "FIXED"; "REMOTE"; "CDROM";
      "RAMDISK"]%string
  /\ (drive_type < 1 \/ 6 < drive_type ->
      default "UNKNOWN"%string (drive_types !! drive_type) = "UNKNOWN"%string).
Proof.
  unfold drive_types. cbn [list_to_map foldr uncurry fst snd].
  destruct (Z.eq_dec drive_type 0) as [->|H0]; [split; [left|]; reflexivity|].
  rewrite lookup_insert_ne by congruence.
  destruct (Z.eq_dec drive_type 1) as [->|H1];
    [split; [right; left; reflexivity | lia]|].
  rewrite lookup_insert_ne by congruence.
  destruct (Z.eq_dec drive_type 2) as [->|H2];
    [split; [do 2 right; left; reflexivity | lia]|].
  rewrite lookup_insert_ne by congruence.
  destruct (Z.eq_dec drive_type 3) as [->|H3];
    [split; [do 3 right; left; reflexivity | lia]|].
  rewrite lookup_insert_ne by congruence.
  destruct (Z.eq_dec drive_type 4) as [->|H4];
    [split; [do 4 right; left; reflexivity | lia]|].
  rewrite lookup_insert_ne by congruence.
  destruct (Z.eq_dec drive_type 5) as [->|H5];
    [split; [do 5 right; left; reflexivity | lia]|].
  rewrite lookup_insert_ne by congruence.
  destruct (Z.eq_dec drive_type 6) as [->|H6];
    [split; [do 6 right; left; reflexivity | lia]|].
  rewrite lookup_insert_ne by congruence.
  rewrite lookup_empty. split; [left|]; reflexivity.
Qed.

Lemma omap_cons {A B} (f : A -> option B) (x : A) (l : list A) :
  omap f (x :: l)
  = match f x with
    | Some y => y :: omap f l
    | None => omap f l
    end.
Proof. reflexivity. Qed.

Lemma drives_of_bitmask_loop (bitmask : Z) :
  drives_loop ascii_uppercase bitmask []
  = map drive_name
      (List.filter (fun i => Z.testbit bitmask (Z.of_nat i)) (seq 0 26)).
Proof.
  pose proof (drives_loop_spec ascii_uppercase 0 bitmask []) as H.
  rewrite Z.shiftr_0_r in H. rewrite H. clear H. cbn [app].
  change (zip (seq 0 (String.length ascii_uppercase))
            (list_ascii_of_string ascii_uppercase))
    with (map (fun i => (i, ascii_of_nat (65 + i))) (seq 0 26)).
  rewrite filter_map_swap, map_map. reflexivity.
Qed.

End WindowsFacts.

(** X14: the drives of a mask are the letters whose bit is set, [A] for
    the lowest bit, in alphabetical order; the bits from number 26 on play
    no part, and neither does the sign of the mask. *)
Theorem drives_of_bitmask (bitmask : Z) :
  drives_loop ascii_uppercase bitmask []
  = map drive_name
      (List.filter (fun i => Z.testbit bitmask (Z.of_nat i)) (seq 0 26)).
Proof. apply drives_of_bitmask_loop. Qed.

(** X15: on Windows, with [ctypes] loaded and a drive mask obtained, the
    enumeration has one entry for each drive of the mask whose type can be
    asked, in alphabetical order, whatever [vol] and [fsutil] do: the
    device and the mount point are the drive, the options are empty and
    the drive type is one of seven labels, [UNKNOWN] for a type that is
    not from 1 to 6. A drive whose type cannot be asked has no entry but a
    message, and the other text printed is what the space probes print. *)
Theorem windows_entry_per_drive (win : win_env) (os : os_env)
    (self : FileSystem) (all_partitions : bool) (bitmask : Z) :
  ctypes_loaded win = true -> GetLogicalDrives win = Ret bitmask ->
  let drives :=
    map drive_name
      (List.filter (fun i => Z.testbit bitmask (Z.of_nat i)) (seq 0 26)) in
  let label t := default "UNKNOWN"%string (drive_types !! t) in
  map (fun p => (p !! "device"%string, p !! "mountpoint"%string,
                 p !! "opts"%string, p !! "drive_type"%string))
    (get_disk_partitions_windows win os self all_partitions).1
  = omap (fun drive =>
            match GetDriveTypeW win drive with
            | Ret t => Some (Some (VStr drive), Some (VStr drive),
                             Some (VStr ""), Some (VStr (label t)))
            | Raise _ => None
            end) drives
  /\ (get_disk_partitions_windows win os self all_partitions).2
     = concat (map (fun drive =>
                      match GetDriveTypeW win drive with
                      | Ret _ => (get_drive_space os self (Some drive)).2
                      | Raise e =>
                          ["Error getting info for drive " +:+ drive +:+ ": "
                           +:+ exn_str e]
                      end) drives)
  /\ (forall t,
        In (label t) ["UNKNOWN"; "NO_ROOT_DIR"; "REMOVABLE"; "FIXED"; "REMOTE";
                      "CDROM"; "RAMDISK"]%string
        /\ (t < 1 \/ 6 < t -> label t = "UNKNOWN"%string)).
Proof.
  intros Hctypes Hmask drives label.
  split; [|split; [|intros t; apply drive_types_label]].
  - unfold get_disk_partitions_windows. rewrite Hctypes, Hmask.
    rewrite drives_of_bitmask_loop. fold drives.
    rewrite drive_loop_spec. cbn [fst app]. clearbody drives.
    induction drives as [|drive drives IH]; [reflexivity|].
    cbn [map concat]. rewrite omap_cons, drive_body_spec, Hctypes.
    destruct (GetDriveTypeW win drive) as [t|e]; [|exact IH].
    cbn [app map]. rewrite IH. reflexivity.
  - unfold get_disk_partitions_windows. rewrite Hctypes, Hmask.
    rewrite drives_of_bitmask_loop. fold drives.
    rewrite drive_loop_spec. cbn [snd app]. clearbody drives.
    induction drives as [|drive drives IH]; [reflexivity|].
    cbn [map concat]. rewrite drive_body_spec, Hctypes, IH.
    destruct (GetDriveTypeW win drive) as [t|e]; reflexivity.
Qed.

Lemma windows_entry_per_drive_witness :
  map (fun p => (p !! "device"%string, p !! "mountpoint"%string,
                 p !! "opts"%string, p !! "drive_type"%string))
    (get_disk_partitions_windows sample_win demo_os sample_fs false).1
  = [ (Some (VStr "C:"), Some (VStr "C:"), Some (VStr ""), Some (VStr "FIXED"));
      (Some (VStr "D:"), Some (VStr "D:"), Some (VStr ""), Some (VStr "CDROM")) ].
Proof.
  exact (proj1 (windows_entry_per_drive sample_win demo_os sample_fs false 0xD
                  eq_refl eq_refl)).
Defined.

(** X16: in every entry of the enumeration on Windows the volume name
    holds no [is] and the filesystem type no colon, and neither starts or
    ends with whitespace: a volume label is cut at its first [is]. *)
Theorem windows_parsed_names (win : win_env) (os : os_env)
    (self : FileSystem) (all_partitions : bool) (p : gmap string pyval) :
  In p (get_disk_partitions_windows win os self all_partitions).1 ->
  exists volume_name fs_type,
    p !! "volume_name"%string = Some (VStr volume_name)
    /\ p !! "fstype"%string = Some (VStr fs_type)
    /\ PyText.contains "is" volume_name = false
    /\ PyText.strip_space volume_name = volume_name
    /\ PyText.contains ":" fs_type = false
    /\ PyText.strip_space fs_type = fs_type.
Proof.
  unfold get_disk_partitions_windows.
  destruct (if ctypes_loaded win then GetLogicalDrives win else Ret 0)
    as [bitmask|e]; [|intros []].
  rewrite drive_loop_spec. cbn [fst app].
  generalize (drives_loop ascii_uppercase bitmask []). intros drives.
  induction drives as [|drive drives IH]; [intros []|].
  cbn [map concat]. intros Hin. apply in_app_or in Hin as [Hin|Hin];
    [|apply IH, Hin].
  rewrite drive_body_spec in Hin.
  destruct (if ctypes_loaded win then GetDriveTypeW win drive else Ret 0)
    as [t|e]; [|destruct Hin].
  destruct Hin as [<-|[]].
  assert (parsed "is" (volume_name_of win drive)) as [Hv1 Hv2].
  { unfold volume_name_of. destruct (vol_output win drive);
      [apply vol_loop_parsed|]; split; reflexivity. }
  assert (parsed ":" (fs_type_of win drive)) as [Hf1 Hf2].
  { unfold fs_type_of. destruct (fsutil_output win drive);
      [apply fsinfo_loop_parsed|]; split; reflexivity. }
  exists (volume_name_of win drive), (fs_type_of win drive).
  split; [reflexivity|]. split; [reflexivity|]. auto.
Qed.

Lemma windows_parsed_names_witness :
  let p := nth 0 (get_disk_partitions_windows sample_win demo_os sample_fs false).1 ∅ in
  p !! "volume_name"%string = Some (VStr "D")
  /\ exists volume_name,
       p !! "volume_name"%string = Some (VStr volume_name)
       /\ PyText.contains "is" volume_name = false.
Proof.
  intros p. split; [vm_compute; reflexivity|].
  destruct (windows_parsed_names sample_win demo_os sample_fs false p)
    as (volume_name & fs_type & Hv & _ & Hc & _).
  - apply nth_In. vm_compute. constructor. constructor.
  - exists volume_name. split; [exact Hv | exact Hc].
Defined.

(** ** The volume name on Windows *)

Section VolumeName.

Import PyText.

Lemma prefix_nil (s : string) : String.prefix EmptyString s = true.
Proof. destruct s; reflexivity. Qed.

Lemma prefix_refl_app (p t : string) : String.prefix p (p +:+ t) = true.
Proof.
  induction p as [|c p IH]; [rewrite append_nil; apply prefix_nil|].
  rewrite append_cons. cbn [String.prefix].
  destruct (Ascii.ascii_dec c c); [exact IH | contradiction].
Qed.

Lemma append_assoc (a b c : string) : (a +:+ b) +:+ c = a +:+ (b +:+ c).
Proof.
  induction a as [|x a IH]; rewrite ?append_cons, ?append_nil; [|rewrite IH];
    reflexivity.
Qed.

Lemma split_sep_go_length (sep s piece : string) (skip : nat) :
  (1 <= length (split_sep_go sep s piece skip))%nat.
Proof.
  revert piece skip. induction s as [|c s IH]; intros piece skip;
    cbn [split_sep_go]; [cbn; lia|].
  destruct skip; [|apply IH].
  destruct (String.prefix sep (String c s)); [cbn [length]; lia | apply IH].
Qed.

(** A string that contains the separator has two pieces or more: the
    index 1 is safe. *)
Lemma split_sep_two (sep s : string) :
  sep <> EmptyString -> contains sep s = true ->
  exists piece, list_index (split_sep sep s) 1 = Ret piece.
Proof.
  intros Hsep Hc.
  assert (forall piece, (2 <= length (split_sep_go sep s piece 0))%nat) as Hlen.
  { induction s as [|c s IH]; intros piece.
    - cbn [contains] in Hc. rewrite orb_false_r in Hc.
      apply prefix_empty in Hc. contradiction.
    - cbn [split_sep_go]. rewrite contains_cons in Hc.
      destruct (String.prefix sep (String c s)).
      + cbn [length].
        pose proof (split_sep_go_length sep s EmptyString (String.length sep - 1)).
        lia.
      + apply IH, Hc. }
  specialize (Hlen EmptyString). unfold list_index, split_sep.
  destruct (split_sep_go sep s EmptyString 0) as [|p0 [|p1 l]];
    cbn [length] in Hlen; [lia | lia |].
  exists p1. reflexivity.
Qed.

Lemma split_sep_go_skip (sep x rest : string) :
  split_sep_go sep (x +:+ rest) EmptyString (String.length x)
  = split_sep_go sep rest EmptyString 0.
Proof.
  induction x as [|c x IH]; [rewrite append_nil; reflexivity|].
  rewrite append_cons. cbn [split_sep_go String.length]. exact IH.
Qed.

Lemma clean_piece_tail (sep : string) (c : ascii) (x s : string) :
  clean_piece sep (String c x) s -> clean_piece sep x s.
Proof.
  intros H a b Hab Hb. apply (H (String c a) b); [|exact Hb].
  rewrite append_cons, Hab. reflexivity.
Qed.

(** A run without the start of an occurrence, before an occurrence, is
    the next piece. *)
Lemma split_sep_go_run (sep x rest : string) :
  sep <> EmptyString ->
  clean_piece sep x (sep +:+ rest) ->
  forall piece,
    split_sep_go sep (x +:+ sep +:+ rest) piece 0
    = (piece +:+ x) :: split_sep_go sep rest EmptyString 0.
Proof.
  intros Hsep. induction x as [|c x IH]; intros Hclean piece.
  - rewrite append_nil, append_empty_r.
    destruct sep as [|d sep]; [contradiction|].
    pose proof (prefix_refl_app (String d sep) rest) as Hp.
    rewrite append_cons in *. cbn [split_sep_go]. rewrite Hp.
    cbn [String.length]. rewrite Nat.sub_succ, Nat.sub_0_r.
    rewrite split_sep_go_skip. reflexivity.
  - rewrite append_cons. cbn [split_sep_go].
    pose proof (Hclean EmptyString (String c x) eq_refl ltac:(discriminate)) as Hp.
    rewrite append_cons in Hp. rewrite Hp.
    rewrite (IH (clean_piece_tail _ _ _ _ Hclean)), snoc_append. reflexivity.
Qed.

(** A run without an occurrence, at the end, is the last piece. *)
Lemma split_sep_go_last (sep x : string) :
  contains sep x = false ->
  forall piece, split_sep_go sep x piece 0 = [piece +:+ x].
Proof.
  induction x as [|c x IH]; intros Hc piece.
  - rewrite append_empty_r. reflexivity.
  - rewrite contains_cons in Hc. apply orb_false_iff in Hc as [Hp Hc].
    cbn [split_sep_go]. rewrite Hp, (IH Hc), snoc_append. reflexivity.
Qed.

(** The separator [is] cannot start in a run without [is], whatever
    follows among the empty string and an occurrence. *)
Lemma clean_piece_is (x tail : string) :
  contains "is" x = false ->
  tail = EmptyString \/ String.prefix "is" tail = true ->
  clean_piece "is" x tail.
Proof.
  intros Hc Htail a b Hab Hb.
  assert (contains "is" b = false) as Hcb.
  { destruct (contains "is" b) eqn:H; [|reflexivity].
    rewrite Hab, (contains_app_r _ a b H) in Hc. discriminate. }
  destruct b as [|c [|d b]]; [contradiction | |].
  - rewrite append_cons, append_nil.
    destruct Htail as [->|Hp];
      [cbn [String.prefix]; destruct (Ascii.ascii_dec "i" c); reflexivity|].
    destruct tail as [|e tail]; [discriminate|].
    cbn [String.prefix] in *.
    destruct (Ascii.ascii_dec "i" c) as [<-|]; [|reflexivity].
    destruct (Ascii.ascii_dec "i" e) as [<-|]; [|discriminate].
    reflexivity.
  - rewrite contains_cons in Hcb. apply orb_false_iff in Hcb as [Hp _].
    rewrite !append_cons. cbn [String.prefix] in *.
    destruct (Ascii.ascii_dec "i" c); [|reflexivity].
    destruct (Ascii.ascii_dec "s" d); [|reflexivity].
    rewrite prefix_nil in Hp. discriminate.
Qed.

(** The second piece of a line: the text after the first [is], up to the
    next one. *)
Lemma split_is_second (a label tail : string) :
  contains "is" a = false -> contains "is" label = false ->
  tail = EmptyString \/ String.prefix "is" tail = true ->
  list_index (split_sep "is" (a +:+ "is" +:+ label +:+ tail)) 1 = Ret label.
Proof.
  intros Ha Hl Htail. unfold split_sep.
  rewrite (split_sep_go_run "is" a (label +:+ tail)); [|discriminate|].
  - destruct Htail as [->|Hp].
    + rewrite append_empty_r, (split_sep_go_last "is" label Hl). reflexivity.
    + assert (exists rest, tail = "is" +:+ rest) as [rest ->].
      { destruct tail as [|c [|d tail]]; [discriminate | |].
        - cbn [String.prefix] in Hp.
          destruct (Ascii.ascii_dec "i" c); discriminate.
        - cbn [String.prefix] in Hp.
          destruct (Ascii.ascii_dec "i" c) as [<-|]; [|discriminate].
          destruct (Ascii.ascii_dec "s" d) as [<-|]; [|discriminate].
          exists tail. reflexivity. }
      rewrite (split_sep_go_run "is" label rest); [reflexivity | discriminate |].
      apply clean_piece_is; [exact Hl | right; apply prefix_refl_app].
  - apply clean_piece_is; [exact Ha | right; apply prefix_refl_app].
Qed.

(** The loop goes through all the lines: the index of [vol_loop] is
    safe. *)
Lemma vol_loop_app (lines lines' : list string) :
  forall volume_name,
    vol_loop (lines ++ lines') volume_name
    = vol_loop lines' (vol_loop lines volume_name).
Proof.
  induction lines as [|line lines IH]; intros v; [reflexivity|].
  cbn [app vol_loop].
  destruct (contains "Volume in drive" line && contains "is" line) eqn:Hc;
    [|apply IH].
  apply andb_true_iff in Hc as [_ Hc].
  destruct (split_sep_two "is" line ltac:(discriminate) Hc) as [piece ->].
  apply IH.
Qed.

Lemma vol_loop_skip (lines : list string) (volume_name : string) :
  Forall (fun l => contains "Volume in drive" l && contains "is" l = false) lines ->
  vol_loop lines volume_name = volume_name.
Proof.
  induction 1 as [|line lines Hl _ IH]; [reflexivity|].
  cbn [vol_loop]. rewrite Hl. exact IH.
Qed.

End VolumeName.

(** X17: the volume name that the enumeration reports for a drive is read
    from the last line of the output of [vol] that holds [Volume in drive]
    and [is]: it is the text after the first [is] of that line up to the
    next [is] or to the end of the line, without the whitespace around it.
    A label that holds [is] is cut there. *)
Theorem volume_name_of_vol_output (win : win_env) (drive : string)
    (before after : list string) (a label tail : string) :
  let line := a +:+ "is" +:+ label +:+ tail in
  vol_output win drive = Ret (unlines (before ++ line :: after)) ->
  Forall (fun l => no_linebreak l = true) (before ++ line :: after) ->
  PyText.contains "Volume in drive" a = true ->
  PyText.contains "is" a = false ->
  PyText.contains "is" label = false ->
  tail = EmptyString \/ String.prefix "is" tail = true ->
  Forall (fun l => PyText.contains "Volume in drive" l && PyText.contains "is" l
                   = false) after ->
  volume_name_of win drive = PyText.strip_space label.
Proof.
  intros line Hvol Hlines Ha Hais Hlabel Htail Hafter.
  unfold volume_name_of. rewrite Hvol, (splitlines_unlines _ Hlines).
  rewrite vol_loop_app. cbn [vol_loop].
  assert (PyText.contains "Volume in drive" line = true) as ->
    by (apply contains_app_l, Ha).
  assert (PyText.contains "is" line = true) as ->.
  { apply contains_app_r, contains_app_l. reflexivity. }
  cbn [andb]. subst line. rewrite (split_is_second a label tail Hais Hlabel Htail).
  apply vol_loop_skip, Hafter.
Qed.

Lemma volume_name_of_vol_output_witness :
  volume_name_of sample_win "C:" = "D"%string.
Proof.
  refine (volume_name_of_vol_output sample_win "C:" []
            [" Volume Serial Number is 1234-ABCD"%string]
            " Volume in drive C " " D" "isk1" eq_refl _ eq_refl eq_refl eq_refl
            (or_intror eq_refl) _).
  - repeat constructor.
  - repeat constructor.
Defined.

(** ** The filesystem type on Windows *)

Section FsType.

Import PyText.

(** A colon cannot start in a run without colon. *)
Lemma clean_piece_colon (x tail : string) :
  contains ":" x = false -> clean_piece ":" x tail.
Proof.
  intros Hc a b Hab Hb.
  assert (contains ":" b = false) as Hcb.
  { destruct (contains ":" b) eqn:H; [|reflexivity].
    rewrite Hab, (contains_app_r _ a b H) in Hc. discriminate. }
  destruct b as [|c b]; [contradiction|].
  rewrite contains_cons in Hcb. apply orb_false_iff in Hcb as [Hp _].
  rewrite append_cons. cbn [String.prefix] in *.
  destruct (Ascii.ascii_dec ":" c); [|reflexivity].
  rewrite prefix_nil in Hp. discriminate.
Qed.

Lemma split_colon_second (a value tail : string) :
  contains ":" a = false -> contains ":" value = false ->
  tail = EmptyString \/ String.prefix ":" tail = true ->
  list_index (split_sep ":" (a +:+ ":" +:+ value +:+ tail)) 1 = Ret value.
Proof.
  intros Ha Hl Htail. unfold split_sep.
  rewrite (split_sep_go_run ":" a (value +:+ tail));
    [|discriminate | apply clean_piece_colon, Ha].
  destruct Htail as [->|Hp].
  - rewrite append_empty_r, (split_sep_go_last ":" value Hl). reflexivity.
  - assert (exists rest, tail = ":" +:+ rest) as [rest ->].
    { destruct tail as [|c tail]; [discriminate|].
      cbn [String.prefix] in Hp.
      destruct (Ascii.ascii_dec ":" c) as [<-|]; [|discriminate].
      exists tail. reflexivity. }
    rewrite (split_sep_go_run ":" value rest);
      [reflexivity | discriminate | apply clean_piece_colon, Hl].
Qed.

(** A string without the separator is one piece: the index 1 is out of
    range. *)
Lemma split_sep_one (sep s : string) :
  contains sep s = false ->
  list_index (split_sep sep s) 1
  = Raise (Exn IndexError "list index out of range").
Proof.
  intros Hc. unfold split_sep. rewrite (split_sep_go_last sep s Hc). reflexivity.
Qed.

Lemma fsinfo_loop_app (lines lines' : list string) :
  Forall (fun l => contains "File System Name" l = true -> contains ":" l = true)
    lines ->
  forall fs_type,
    fsinfo_loop (lines ++ lines') fs_type
    = fsinfo_loop lines' (fsinfo_loop lines fs_type).
Proof.
  induction 1 as [|line lines Hl _ IH]; intros v; [reflexivity|].
  cbn [app fsinfo_loop].
  destruct (contains "File System Name" line) eqn:Hc; [|apply IH].
  destruct (split_sep_two ":" line ltac:(discriminate) (Hl eq_refl)) as [piece ->].
  apply IH.
Qed.

Lemma fsinfo_loop_skip (lines : list string) (fs_type : string) :
  Forall (fun l => contains "File System Name" l = false) lines ->
  fsinfo_loop lines fs_type = fs_type.
Proof.
  induction 1 as [|line lines Hl _ IH]; [reflexivity|].
  cbn [fsinfo_loop]. rewrite Hl. exact IH.
Qed.

End FsType.

(** X18: the filesystem type that the enumeration reports for a drive is
    read from the last line of the output of [fsutil] that holds
    [File System Name], when every such line has a colon: it is the text
    after the first colon of that line up to the next colon or to the end
    of the line, without the whitespace around it. *)
Theorem fs_type_of_fsutil_output (win : win_env) (drive : string)
    (before after : list string) (a value tail : string) :
  let line := a +:+ ":" +:+ value +:+ tail in
  fsutil_output win drive = Ret (unlines (before ++ line :: after)) ->
  Forall (fun l => no_linebreak l = true) (before ++ line :: after) ->
  Forall (fun l => PyText.contains "File System Name" l = true ->
                   PyText.contains ":" l = true) before ->
  PyText.contains "File System Name" line = true ->
  PyText.contains ":" a = false ->
  PyText.contains ":" value = false ->
  tail = EmptyString \/ String.prefix ":" tail = true ->
  Forall (fun l => PyText.contains "File System Name" l = false) after ->
  fs_type_of win drive = PyText.strip_space value.
Proof.
  intros line Hout Hlines Hbefore Hname Ha Hvalue Htail Hafter.
  unfold fs_type_of. rewrite Hout, (splitlines_unlines _ Hlines).
  rewrite (fsinfo_loop_app _ _ Hbefore). cbn [fsinfo_loop]. rewrite Hname.
  subst line. rewrite (split_colon_second a value tail Ha Hvalue Htail).
  apply fsinfo_loop_skip, Hafter.
Qed.

Lemma fs_type_of_fsutil_output_witness :
  fs_type_of sample_win "C:" = "NTFS"%string.
Proof.
  refine (fs_type_of_fsutil_output sample_win "C:" ["Volume Name : Disk1"%string] []
            "File System Name " " NTFS" "" eq_refl _ _ eq_refl eq_refl eq_refl
            (or_introl eq_refl) _).
  - repeat constructor.
  - repeat constructor.
  - constructor.
Defined.

(** X19: a line of the output of [fsutil] that holds [File System Name]
    and no colon ends the reading: the lines after it play no part, and
    the filesystem type is the one read before it, the empty string when
    there is none. The drive is reported all the same. *)
Theorem fs_type_reading_ends (win : win_env) (drive : string)
    (before after : list string) (line : string) :
  fsutil_output win drive = Ret (unlines (before ++ line :: after)) ->
  Forall (fun l => no_linebreak l = true) (before ++ line :: after) ->
  Forall (fun l => PyText.contains "File System Name" l = true ->
                   PyText.contains ":" l = true) before ->
  PyText.contains "File System Name" line = true ->
  PyText.contains ":" line = false ->
  fs_type_of win drive = fsinfo_loop before EmptyString.
Proof.
  intros Hout Hlines Hbefore Hname Hcolon.
  unfold fs_type_of. rewrite Hout, (splitlines_unlines _ Hlines).
  rewrite (fsinfo_loop_app _ _ Hbefore). cbn [fsinfo_loop].
  rewrite Hname, (split_sep_one ":" line Hcolon). reflexivity.
Qed.

Lemma fs_type_reading_ends_witness :
  let win := {|
    ctypes_loaded := true;
    GetLogicalDrives := Ret 4;
    GetDriveTypeW := fun _ => Ret 3;
    vol_output := fun _ => Ret EmptyString;
    fsutil_output := fun _ =>
      Ret (unlines ["File System Name"; "File System Name : NTFS"]%string)
  |} in
  fs_type_of win "C:" = EmptyString.
Proof.
  intros win.
  refine (fs_type_reading_ends win "C:" [] ["File System Name : NTFS"%string]
            "File System Name" eq_refl _ _ eq_refl eq_refl).
  - repeat constructor.
  - constructor.
Defined.
